(** * DEV-MCP-RPG: the gateway's scoring, levelling and persistence core and
      the backends' JSON recovery, embedded from the Python sources.

    Layout
    - [Py]       the fragment of Python's run-time semantics the sources use:
                 exceptions as a result type, the limits of the interpreter,
                 binary64 floats, JSON values with truthiness, [in], [.get],
                 [int(..)], [strip], slices;
    - [Re]       the four regular expressions of [json_patterns] and
                 [re.findall], as a backtracking matcher;
    - [JsonText] [json.loads];
    - [Llm]      [extract_json_from_response] (ollama_utils.py, llm_client.py)
                 over the [json.loads] it is given, and the four backends'
                 [/analyze] handlers;
    - [Gateway]  [calculate_level], [analyze_code] and [store_report] of
                 backend/main.py over an explicit world (backends, clock,
                 database, log);
    - [Health]   [check_service_health] and [health_check] of
                 backend/main.py;
    - [Client]   the LLM client of llm_client.py: construction, the reading
                 of a completion, the retried [generate];
    - [Lighthouse] the Lighthouse backend's [/analyze];
    - [Notions], [ScoreSums], [Cases] vocabulary, the values of the sum of
                 the weighted scores, and concrete inputs of the statements.

    The second part holds the facts, one module per subject. *)

From stdpp Require Import gmap strings list.
From Stdlib Require Import ZArith Lia Ascii String.
From Stdlib Require Import SpecFloat PrimFloat FloatOps FloatAxioms.

#[local] Set Warnings "-register-all".
#[local] Open Scope string_scope.
#[local] Open Scope Z_scope.

(* ===================================================================== *)
(** * Python run-time fragment *)
(* ===================================================================== *)
Module Py.

(** Exceptions the modelled code can meet. [JSONDecodeError] is a subclass
    of [ValueError] in Python; it is kept apart because the sources catch it
    by name. *)
Inductive exn : Type :=
| TypeError | AttributeError | ValueError | OverflowError
| KeyError | ZeroDivisionError | JSONDecodeError | ValidationError
| RecursionError
| DatabaseError
| HTTPException (status_code : Z).

Inductive result (A : Type) : Type :=
| Ok (a : A)
| Raise (e : exn).
Arguments Ok {A} a.
Arguments Raise {A} e.

#[export] Instance result_ret : MRet result := fun A a => Ok a.
#[export] Instance result_bind : MBind result := fun A B k r =>
  match r with
  | Ok a => k a
  | Raise e => Raise e
  end.

Definition is_ok {A} (r : result A) : bool :=
  match r with Ok _ => true | Raise _ => false end.

Definition default_of {A} (o : option A) (d : A) : A :=
  match o with Some a => a | None => d end.

(** ** The interpreter

    Two limits of the interpreter decide what [int(text)] and [json.loads]
    raise; the sources set neither. [int_max_str_digits] is
    [sys.get_int_max_str_digits()]: 4300 unless configured, 0 for no limit
    (an interpreter that has no such limit is one with 0).
    [recursion_room] is the number of nested calls the interpreter still
    allows where [json.loads] is called; the decoder makes one for each
    object or array it enters. *)
Record interpreter : Type := {
  int_max_str_digits : Z;
  recursion_room : nat
}.

(** Whether [int] refuses a text of [count] digits. Texts of up to 640
    digits are converted whatever the limit. *)
Definition too_many_digits (py : interpreter) (count : nat) : bool :=
  (640 <? Z.of_nat count) && (0 <? int_max_str_digits py)
  && (int_max_str_digits py <? Z.of_nat count).

(** ** binary64 floats

    Python's [float] is the IEEE 754 binary64 of the machine, rounding to
    nearest-even: Rocq's primitive [float]. Integers enter and leave through
    [SpecFloat], the Standard Library's executable definition of the same
    format over [Z] mantissas and exponents. *)
Definition float : Type := PrimFloat.float.

Definition fadd (x y : float) : float := PrimFloat.add x y.
Definition fmul (x y : float) : float := PrimFloat.mul x y.

(** A decimal literal such as [0.3] or [1.5] denotes the binary64 nearest to
    the rational it spells; a correctly rounded quotient of the two integers
    computes it. *)
Definition float_lit (num den : positive) : float :=
  SF2Prim (SFdiv prec emax (S754_finite false num 0)
             (S754_finite false den 0)).

(** The binary64 nearest to an integer, infinite beyond the largest float. *)
Definition nearest_float (z : Z) : float :=
  SF2Prim (binary_normalize prec emax z 0 false).

(** [float(z)], also the implicit conversion of [z * 1.5]: correctly rounded,
    [OverflowError] when the integer is beyond the largest float. *)
Definition float_of_int (z : Z) : result float :=
  let f := nearest_float z in
  if PrimFloat.is_infinity f then Raise OverflowError else Ok f.

(** [x / y] on floats. *)
Definition fdiv (x y : float) : result float :=
  if PrimFloat.is_zero y then Raise ZeroDivisionError
  else Ok (PrimFloat.div x y).

(** [int(f)]: truncation toward zero. *)
Definition int_of_float (f : float) : result Z :=
  match Prim2SF f with
  | S754_zero _ => Ok 0
  | S754_finite s m e =>
      let v := if 0 <=? e then Z.shiftl (Z.pos m) e
               else Z.shiftr (Z.pos m) (- e) in
      Ok (if s then - v else v)
  | S754_infinity _ => Raise OverflowError
  | S754_nan => Raise ValueError
  end.

(** [f >= z] for a float and an int that a float holds exactly. *)
Definition float_geb_int (f : float) (z : Z) : bool :=
  PrimFloat.leb (nearest_float z) f.

(** ** Strings

    A Python [str] is modelled by a [string] of 8-bit characters, read as
    the code points 0..255. *)
Definition char_code (c : ascii) : N := N_of_ascii c.

(** [str.isspace] on one character, which is also [\s] of [re] on [str]
    patterns: TAB..CR, FS..US, space, NEL and NBSP. *)
Definition is_space (c : ascii) : bool :=
  let n := char_code c in
  ((9 <=? n) && (n <=? 13) || (28 <=? n) && (n <=? 32)
   || (n =? 133) || (n =? 160))%N.

Fixpoint lstrip (s : string) : string :=
  match s with
  | String c rest => if is_space c then lstrip rest else s
  | EmptyString => s
  end.

Fixpoint rstrip (s : string) : string :=
  match s with
  | EmptyString => EmptyString
  | String c rest =>
      match rstrip rest with
      | EmptyString => if is_space c then EmptyString
                       else String c EmptyString
      | rest' => String c rest'
      end
  end.

(** [s.strip()] *)
Definition strip (s : string) : string := rstrip (lstrip s).

(** [s[:n]] *)
Fixpoint str_take (n : nat) (s : string) : string :=
  match n, s with
  | S n', String c rest => String c (str_take n' rest)
  | _, _ => EmptyString
  end.

(** [s[n:]] *)
Fixpoint str_drop (n : nat) (s : string) : string :=
  match n, s with
  | S n', String _ rest => str_drop n' rest
  | _, _ => s
  end.

Fixpoint str_prefix (p s : string) : bool :=
  match p, s with
  | EmptyString, _ => true
  | String a p', String b s' => Ascii.eqb a b && str_prefix p' s'
  | String _ _, EmptyString => false
  end.

(** [needle in haystack] on strings *)
Fixpoint str_contains (needle haystack : string) : bool :=
  str_prefix needle haystack ||
  match haystack with
  | EmptyString => false
  | String _ rest => str_contains needle rest
  end.

(** ** JSON values, as [json.loads] and [resp.json()] build them

    [None] is [JNull]; a [dict] keeps its keys in insertion order, one entry
    per key. *)
Inductive json : Type :=
| JNull
| JBool (b : bool)
| JInt (z : Z)
| JFloat (f : float)
| JStr (s : string)
| JArr (items : list json)
| JObj (fields : list (string * json)).

Fixpoint dict_lookup (key : string) (fields : list (string * json))
  : option json :=
  match fields with
  | [] => None
  | (k, v) :: rest => if String.eqb k key then Some v
                      else dict_lookup key rest
  end.

(** [d[key] = v]: overwrite in place, or append. *)
Fixpoint dict_set (key : string) (v : json) (fields : list (string * json))
  : list (string * json) :=
  match fields with
  | [] => [(key, v)]
  | (k, v0) :: rest => if String.eqb k key then (k, v) :: rest
                       else (k, v0) :: dict_set key v rest
  end.

(** [bool(x)] *)
Definition truthy (j : json) : bool :=
  match j with
  | JNull => false
  | JBool b => b
  | JInt z => negb (z =? 0)
  | JFloat f => negb (PrimFloat.is_zero f)
  | JStr s => negb (String.eqb s EmptyString)
  | JArr items => match items with [] => false | _ => true end
  | JObj fields => match fields with [] => false | _ => true end
  end.

Definition is_str (key : string) (j : json) : bool :=
  match j with JStr s => String.eqb s key | _ => false end.

(** [key in x] for a string [key] *)
Definition py_in (key : string) (x : json) : result bool :=
  match x with
  | JObj fields => Ok (bool_decide (is_Some (dict_lookup key fields)))
  | JArr items => Ok (existsb (is_str key) items)
  | JStr s => Ok (str_contains key s)
  | _ => Raise TypeError
  end.

(** [x[key]] for a string [key]; a missing key of a dict is a [KeyError],
    which the sources never meet because they test [key in x] first. *)
Definition py_getitem (x : json) (key : string) : result json :=
  match x with
  | JObj fields => match dict_lookup key fields with
                   | Some v => Ok v
                   | None => Raise KeyError
                   end
  | _ => Raise TypeError
  end.

(** [x.get(key, default)] *)
Definition py_get (x : json) (key : string) (default : json) : result json :=
  match x with
  | JObj fields => Ok (default_of (dict_lookup key fields) default)
  | _ => Raise AttributeError
  end.

(** [x * w] for a float [w] *)
Definition py_mul_float (x : json) (w : float) : result float :=
  match x with
  | JInt z => f ← float_of_int z; Ok (fmul f w)
  | JBool b => f ← float_of_int (if b then 1 else 0); Ok (fmul f w)
  | JFloat f => Ok (fmul f w)
  | _ => Raise TypeError
  end.

(** [x >= n] for an int [n] *)
Definition py_ge_int (x : json) (n : Z) : result bool :=
  match x with
  | JInt z => Ok (z >=? n)
  | JBool b => Ok ((if b then 1 else 0) >=? n)
  | JFloat f => Ok (float_geb_int f n)
  | _ => Raise TypeError
  end.

Fixpoint map_result {A B} (f : A -> result B) (xs : list A)
  : result (list B) :=
  match xs with
  | [] => Ok []
  | x :: rest => y ← f x; ys ← map_result f rest; Ok (y :: ys)
  end.

(** [bool(s)] for an [Optional[str]] *)
Definition truthy_str (o : option string) : bool :=
  match o with
  | Some s => negb (String.eqb s EmptyString)
  | None => false
  end.

(** [for x in v]: the items of a list, the keys of a dict, the characters of
    a string. *)
Fixpoint chars_of (s : string) : list json :=
  match s with
  | EmptyString => []
  | String c rest => JStr (String c EmptyString) :: chars_of rest
  end.

Definition py_iter (v : json) : result (list json) :=
  match v with
  | JArr items => Ok items
  | JObj fields => Ok (map (fun f => JStr (fst f)) fields)
  | JStr s => Ok (chars_of s)
  | _ => Raise TypeError
  end.

(** The digits of [int(text)]: decimal digits, single underscores allowed
    between them; their value and their number. *)
Fixpoint int_digits (s : string) (acc : Z) (count : nat)
    (after_digit : bool) : option (Z * nat) :=
  match s with
  | EmptyString => if after_digit then Some (acc, count) else None
  | String c rest =>
      let n := char_code c in
      if ((48 <=? n) && (n <=? 57))%N
      then int_digits rest (10 * acc + (Z.of_N n - 48)) (S count) true
      else if (n =? 95)%N && after_digit
      then int_digits rest acc count false
      else None
  end.

(** [int(x)]; a text that is no integer and a text of too many digits are
    both a [ValueError]. *)
Definition py_int (py : interpreter) (x : json) : result Z :=
  match x with
  | JInt z => Ok z
  | JBool b => Ok (if b then 1 else 0)
  | JFloat f => int_of_float f
  | JStr s =>
      let digits (negative : bool) (t : string) :=
        match int_digits t 0 0 false with
        | Some (v, count) =>
            if too_many_digits py count then Raise ValueError
            else Ok (if negative then - v else v)
        | None => Raise ValueError
        end in
      match strip s with
      | String "-" rest => digits true rest
      | String "+" rest => digits false rest
      | t => digits false t
      end
  | _ => Raise TypeError
  end.

(** [sum(xs)] of floats: the accumulator starts at the int [0] and the
    terms are added from the left, each addition rounded (the summation of
    CPython up to 3.11; later versions compensate the rounding errors of a
    float sum, which changes no sum of one or two terms). *)
Definition py_sum (xs : list float) : float :=
  fold_left fadd xs PrimFloat.zero.

End Py.
Export Py.

(* ===================================================================== *)
(** * The gateway: levelling *)
(* ===================================================================== *)
Module Level.

(** [xp_for_next = int(xp_for_next * 1.5)]: the integer is converted to a
    float, multiplied by the float [1.5], and truncated back. *)
Definition next_threshold (xp_for_next : Z) : result Z :=
  f ← float_of_int xp_for_next;
  int_of_float (fmul f (float_lit 3 2)).

(** The [while] loop of [calculate_level]; [None] is "out of fuel". *)
Fixpoint calculate_level_loop (fuel : nat) (level xp_for_next remaining_xp : Z)
  : option (result Z) :=
  match fuel with
  | O => None
  | S fuel' =>
      if remaining_xp >=? xp_for_next then
        match next_threshold xp_for_next with
        | Ok t => calculate_level_loop fuel' (level + 1) t
                    (remaining_xp - xp_for_next)
        | Raise e => Some (Raise e)
        end
      else Some (Ok level)
  end.

(** Thresholds at least double every two rounds, so twice the bit length of
    [xp] bounds the number of rounds. *)
Definition level_fuel (xp : Z) : nat := S (2 * Z.to_nat (Z.log2 xp)).

(** [calculate_level(xp)]: level = 1, xp_for_next = 100, remaining_xp = xp. *)
Definition calculate_level (xp : Z) : option (result Z) :=
  calculate_level_loop (level_fuel xp) 1 100 xp.

(** The reference definition, in the words of the specification: start at
    level 1 with threshold 100; while the remaining xp is at least the
    threshold, subtract it, increment the level, and replace the threshold by
    floor(threshold * 1.5), over the integers. *)
Fixpoint level_ref_loop (fuel : nat) (level threshold remaining : Z)
  : option Z :=
  match fuel with
  | O => None
  | S fuel' =>
      if remaining >=? threshold then
        level_ref_loop fuel' (level + 1) (threshold * 3 / 2)
          (remaining - threshold)
      else Some level
  end.

Definition level_ref (xp : Z) : option Z :=
  level_ref_loop (level_fuel xp) 1 100 xp.

(** The i-th threshold of the reference definition. *)
Fixpoint thr (i : nat) : Z :=
  match i with
  | O => 100
  | S j => thr j * 3 / 2
  end.

(** Whether [int(t * 1.5)] and floor(t * 3 / 2) agree on the first [n]
    thresholds. *)
Definition thresholds_agree (n : nat) : bool :=
  forallb (fun i => match next_threshold (thr i) with
                    | Ok t => t =? thr (S i)
                    | Raise _ => false
                    end) (seq 0 n).

(** The sum of the reference thresholds 0..81: the least xp at which the
    reference reaches level 83. *)
Definition xp_level_83 : Z := fold_right Z.add 0 (map thr (seq 0 82)).

(** The sum of the [n] reference thresholds from the i-th on. *)
Definition thr_sum (i n : nat) : Z := fold_right Z.add 0 (map thr (seq i n)).

(** The thresholds the loop of [calculate_level] computes after [t], at
    most [n] of them: the list ends where the next one cannot be
    computed. *)
Fixpoint code_thresholds (n : nat) (t : Z) : list Z :=
  match n with
  | O => []
  | S n' =>
      match next_threshold t with
      | Ok t' => t' :: code_thresholds n' t'
      | Raise _ => []
      end
  end.

(** The thresholds after the first one, 100. *)
Definition threshold_table : list Z := code_thresholds 2000 100.

(** Whether [rest] holds the thresholds that follow [t], each computed from
    the one before, and the one after the last raises [OverflowError]. *)
Fixpoint chained (t : Z) (rest : list Z) : bool :=
  match rest with
  | [] => match next_threshold t with
          | Raise OverflowError => true
          | _ => false
          end
  | t' :: rest' =>
      match next_threshold t with
      | Ok u => (u =? t') && chained t' rest'
      | Raise _ => false
      end
  end.

(** The level after the thresholds the remaining xp passes, one level each,
    and the [OverflowError] when it passes them all. *)
Fixpoint level_after (t : Z) (rest : list Z) (level r : Z) : result Z :=
  if r >=? t then
    match rest with
    | [] => Raise OverflowError
    | t' :: rest' => level_after t' rest' (level + 1) (r - t)
    end
  else Ok level.

(** The number of thresholds the remaining xp passes. *)
Fixpoint rounds (t : Z) (rest : list Z) (r : Z) : nat :=
  if r >=? t then
    S (match rest with
       | [] => 0
       | t' :: rest' => rounds t' rest' (r - t)
       end)
  else 0.

(** Whether an xp that passes [j + 1] thresholds or more is of more than
    [(j + 1) / 2] bits, for the threshold [t], reached after the sum [cum],
    and for those that follow. *)
Fixpoint fuel_ok (j : nat) (cum t : Z) (rest : list Z) : bool :=
  (Z.of_nat (S j) <=? 2 * Z.log2 (cum + t))
  && match rest with
     | [] => true
     | t' :: rest' => fuel_ok (S j) (cum + t) t' rest'
     end.

(** The sum of all the thresholds: the least xp that passes the last one
    (about 4.99e308). *)
Definition overflow_xp : Z := 100 + fold_right Z.add 0 threshold_table.

End Level.

(* ===================================================================== *)
(** * The gateway: backend/main.py *)
(* ===================================================================== *)
Module Gateway.
Import Level.

(** The four analysis kinds of the fan-out, in the order of the source. *)
Inductive kind : Type := CodeQuality | Architecture | EventLoop | Cost.

#[export] Instance kind_eq_dec : EqDecision kind.
Proof. solve_decision. Defined.

Definition score_key (k : kind) : string :=
  match k with
  | CodeQuality => "score"
  | Architecture => "architecture_score"
  | EventLoop => "event_loop_score"
  | Cost => "efficiency_score"
  end.

(** [weights]: 0.3, 0.25, 0.2, 0.25 as float literals. *)
Definition weights (k : kind) : float :=
  match k with
  | CodeQuality => float_lit 3 10
  | Architecture => float_lit 25 100
  | EventLoop => float_lit 2 10
  | Cost => float_lit 25 100
  end.

Definition failure_message (k : kind) : string :=
  match k with
  | CodeQuality => "Code quality analysis failed"
  | Architecture => "Architecture analysis failed"
  | EventLoop => "Event loop analysis failed"
  | Cost => "Cost analysis failed"
  end.

(** What one [await client.post(..)] meets: an httpx timeout, another
    transport error, or a response with its status and the outcome of
    [resp.json()]. *)
Inductive http_outcome : Type :=
| TimedOut
| TransportFailed
| Responded (status_code : Z) (body : result json).

Record backend : Type := {
  outcome : http_outcome;
  latency : Z            (* time from issuing the call to its settling *)
}.

Inductive event : Type :=
| Issued (k : kind) (at_time : Z)
| Settled (k : kind) (at_time : Z)
| LoggedError (msg : string)
| LoggedWarning (msg : string).

Record AnalysisRequest : Type := {
  code : string;
  language : option string;
  file_path : option string;
  commit_id : option string;
  project_id : option string;
  user_id : option string
}.

(** The [results] dict: its four keys are always set, [None] is [JNull]. *)
Record results : Type := {
  r_code_quality : json;
  r_architecture : json;
  r_event_loop : json;
  r_cost : json
}.

Definition result_of (k : kind) (r : results) : json :=
  match k with
  | CodeQuality => r_code_quality r
  | Architecture => r_architecture r
  | EventLoop => r_event_loop r
  | Cost => r_cost r
  end.

(** Modelled from the spec: the [analysis_reports] and [users] tables, whose
    schema is not among the sources. [report_id] is the unique string key of
    a report (the [ON CONFLICT (report_id)] of [store_report] needs that
    constraint); a column holds the value Python passed, [JNull] for SQL
    NULL; a report column holds the document [json.dumps] serialised, or
    [None] for SQL NULL. *)
Record report_row : Type := {
  row_project_id : option string;
  row_commit_id : option string;
  row_file_path : option string;
  row_overall_score : json;
  row_status : json;
  row_code_quality_score : json;
  row_architecture_score : json;
  row_event_loop_score : json;
  row_efficiency_score : json;
  row_code_quality_report : option json;
  row_architecture_report : option json;
  row_event_loop_report : option json;
  row_cost_report : option json;
  row_xp_earned : json;
  row_badges_earned : json
}.

Record user_row : Type := {
  xp_total : Z;
  level : Z
}.

Record database : Type := {
  analysis_reports : gmap string report_row;
  users : gmap string user_row
}.

(** The world a request runs in. [db_pool = None] is the pool that failed to
    start; [insert_fault] and [update_fault] make the next INSERT or UPDATE
    raise, for the failures the database decides (lost connection, foreign
    key, pool exhaustion). *)
Record world : Type := {
  backends : kind -> backend;
  clock : Z;
  trace : list event;
  db_pool : option database;
  insert_fault : bool;
  update_fault : bool;
  utcnow_stamp : string;     (* datetime.utcnow().strftime('%Y%m%d%H%M%S') *)
  utcnow_iso : string        (* datetime.utcnow().isoformat() *)
}.

Definition with_trace (w : world) (t : list event) : world :=
  {| backends := backends w; clock := clock w; trace := t;
     db_pool := db_pool w; insert_fault := insert_fault w;
     update_fault := update_fault w; utcnow_stamp := utcnow_stamp w;
     utcnow_iso := utcnow_iso w |}.

Definition with_clock (w : world) (c : Z) : world :=
  {| backends := backends w; clock := c; trace := trace w;
     db_pool := db_pool w; insert_fault := insert_fault w;
     update_fault := update_fault w; utcnow_stamp := utcnow_stamp w;
     utcnow_iso := utcnow_iso w |}.

Definition with_db (w : world) (d : database) : world :=
  {| backends := backends w; clock := clock w; trace := trace w;
     db_pool := Some d; insert_fault := insert_fault w;
     update_fault := update_fault w; utcnow_stamp := utcnow_stamp w;
     utcnow_iso := utcnow_iso w |}.

Definition emit (e : event) (w : world) : world :=
  with_trace w (trace w ++ [e])%list.

(** One [try: resp = await client.post(..); results[k] = resp.json() if
    resp.status_code == 200 else None / except Exception: logger.error(..);
    results[k] = None] block. The [await] suspends the handler until the
    call has settled. *)
Definition post (k : kind) (w : world) : json * world :=
  let b := backends w k in
  let w1 := emit (Issued k (clock w)) w in
  let w2 := with_clock w1 (clock w1 + latency b) in
  let w3 := emit (Settled k (clock w2)) w2 in
  match outcome b with
  | Responded status_code body =>
      if status_code =? 200 then
        match body with
        | Ok j => (j, w3)
        | Raise _ => (JNull, emit (LoggedError (failure_message k)) w3)
        end
      else (JNull, w3)
  | TimedOut | TransportFailed =>
      (JNull, emit (LoggedError (failure_message k)) w3)
  end.

(** The body of [async with httpx.AsyncClient(..)]: four blocks in a row. *)
Definition fan_out (w : world) : results * world :=
  let '(cq, w1) := post CodeQuality w in
  let '(ar, w2) := post Architecture w1 in
  let '(el, w3) := post EventLoop w2 in
  let '(co, w4) := post Cost w3 in
  ({| r_code_quality := cq; r_architecture := ar;
      r_event_loop := el; r_cost := co |}, w4).

(** [if results[k] and key in results[k]: scores.append((k, results[k][key],
    weights[k]))] *)
Definition score_entry (k : kind) (r : results)
  : result (list (kind * json * float)) :=
  if truthy (result_of k r) then
    present ← py_in (score_key k) (result_of k r);
    if (present : bool) then
      v ← py_getitem (result_of k r) (score_key k);
      Ok [(k, v, weights k)]
    else Ok []
  else Ok [].

Definition collect_scores (r : results)
  : result (list (kind * json * float)) :=
  a ← score_entry CodeQuality r;
  b ← score_entry Architecture r;
  c ← score_entry EventLoop r;
  d ← score_entry Cost r;
  Ok (a ++ b ++ c ++ d)%list.

(** [if scores: total_weight = sum(s[2] for s in scores); overall_score =
    int(sum(s[1] * s[2] for s in scores) / total_weight) / else: 0] *)
Definition overall_score_of (scores : list (kind * json * float))
  : result Z :=
  match scores with
  | [] => Ok 0
  | _ =>
      let total_weight := py_sum (map snd scores) in
      products ← map_result (fun s => py_mul_float (snd (fst s)) (snd s))
                   scores;
      q ← fdiv (py_sum products) total_weight;
      int_of_float q
  end.

Definition status_of (overall_score : Z) : string :=
  if overall_score >=? 85 then "excellent"
  else if overall_score >=? 70 then "good"
  else if overall_score >=? 50 then "needs_improvement"
  else "critical".

(** [results[k] and results[k].get(key, 0) >= 90] *)
Definition badge_due (k : kind) (r : results) : result bool :=
  if truthy (result_of k r) then
    v ← py_get (result_of k r) (score_key k) (JInt 0);
    py_ge_int v 90
  else Ok false.

Definition badge_name (k : kind) : string :=
  match k with
  | CodeQuality => "Clean Coder"
  | Architecture => "Architect Master"
  | EventLoop => "Async Ninja"
  | Cost => "Optimizer"
  end.

Definition badge_for (k : kind) (r : results) : result (list string) :=
  due ← badge_due k r;
  Ok (if (due : bool) then [badge_name k] else []).

Definition badges_of (r : results) (overall_score : Z)
  : result (list string) :=
  a ← badge_for CodeQuality r;
  b ← badge_for Architecture r;
  c ← badge_for EventLoop r;
  d ← badge_for Cost r;
  Ok (a ++ b ++ c ++ d
      ++ (if overall_score >=? 95 then ["Code Legend"] else []))%list.

Record rpg_summary : Type := {
  xp_earned : Z;
  badges_earned : list string;
  level_up : bool
}.

Record AnalysisReport : Type := {
  report_id : string;
  overall_score : Z;
  status : string;
  code_quality : json;
  architecture : json;
  event_loop : json;
  cost_analysis : json;
  rpg : rpg_summary;
  analyzed_at : string
}.

(** A field declared [Optional[Dict[str, Any]]] takes [None] or a dict. *)
Definition optional_dict (j : json) : result json :=
  match j with
  | JNull | JObj _ => Ok j
  | _ => Raise ValidationError
  end.

(** [results[k].get(key) if results[k] else None] *)
Definition score_param (k : kind) (r : results) : result json :=
  if truthy (result_of k r) then py_get (result_of k r) (score_key k) JNull
  else Ok JNull.

(** [json.dumps(results[k]) if results[k] else None] *)
Definition report_param (k : kind) (r : results) : option json :=
  if truthy (result_of k r) then Some (result_of k r) else None.

(** The plain [INSERT INTO analysis_reports] of [analyze_code]: a second row
    under a stored [report_id] violates the key. *)
Definition insert_report (id : string) (row : report_row) (fault : bool)
    (d : database) : result database :=
  if fault then Raise DatabaseError
  else match analysis_reports d !! id with
       | Some _ => Raise DatabaseError
       | None => Ok {| analysis_reports := <[id := row]> (analysis_reports d);
                       users := users d |}
       end.

(** [UPDATE users SET xp_total = xp_total + $1, level = $2 WHERE id = $3] *)
Definition update_user (xp : Z) (lvl : Z) (id : string) (fault : bool)
    (d : database) : result database :=
  if fault then Raise DatabaseError
  else Ok {| analysis_reports := analysis_reports d;
             users := alter (fun u => {| xp_total := xp_total u + xp;
                                         level := lvl |}) id (users d) |}.

Definition save_failed : event :=
  LoggedError "Failed to save report to database".

(** The [if db_pool and request.project_id: try: .. except Exception as e:
    logger.error(..)] block. Each statement commits on its own. [None] is a
    [calculate_level] that ran out of fuel. *)
Definition save_report (request : AnalysisRequest) (r : results)
    (id : string) (overall : Z) (stat : string) (xp : Z)
    (badges : list string) (w : world) : option world :=
  match db_pool w with
  | Some d =>
      if truthy_str (project_id request) then
        let row :=
          cqs ← score_param CodeQuality r;
          ars ← score_param Architecture r;
          els ← score_param EventLoop r;
          cos ← score_param Cost r;
          Ok {| row_project_id := project_id request;
                row_commit_id := commit_id request;
                row_file_path := file_path request;
                row_overall_score := JInt overall;
                row_status := JStr stat;
                row_code_quality_score := cqs;
                row_architecture_score := ars;
                row_event_loop_score := els;
                row_efficiency_score := cos;
                row_code_quality_report := report_param CodeQuality r;
                row_architecture_report := report_param Architecture r;
                row_event_loop_report := report_param EventLoop r;
                row_cost_report := report_param Cost r;
                row_xp_earned := JInt xp;
                row_badges_earned := JArr (map JStr badges) |} in
        match row ≫= (fun row => insert_report id row (insert_fault w) d) with
        | Raise _ => Some (emit save_failed w)
        | Ok d1 =>
            match user_id request with
            | Some uid =>
                if negb (String.eqb uid EmptyString) then
                  match calculate_level xp with
                  | None => None
                  | Some (Raise _) => Some (emit save_failed (with_db w d1))
                  | Some (Ok lvl) =>
                      match update_user xp lvl uid (update_fault w) d1 with
                      | Raise _ => Some (emit save_failed (with_db w d1))
                      | Ok d2 => Some (with_db w d2)
                      end
                  end
                else Some (with_db w d1)
            | None => Some (with_db w d1)
            end
        end
      else Some w
  | None => Some w
  end.

(** Everything between the fan-out and the database block. *)
Definition score_results (r : results)
  : result (Z * string * Z * list string) :=
  scores ← collect_scores r;
  overall ← overall_score_of scores;
  badges ← badges_of r overall;
  Ok (overall, status_of overall, overall * 10, badges).

Definition build_report (r : results) (id : string) (overall : Z)
    (stat : string) (xp : Z) (badges : list string) (now : string)
  : result AnalysisReport :=
  cq ← optional_dict (r_code_quality r);
  ar ← optional_dict (r_architecture r);
  el ← optional_dict (r_event_loop r);
  co ← optional_dict (r_cost r);
  Ok {| report_id := id; overall_score := overall; status := stat;
        code_quality := cq; architecture := ar; event_loop := el;
        cost_analysis := co;
        rpg := {| xp_earned := xp; badges_earned := badges;
                  level_up := overall >=? 90 |};
        analyzed_at := now |}.

(** [POST /api/analyze]. [None]: out of fuel; [Some (Raise e, w)]: the
    handler raised [e]; [Some (Ok report, w)]: it returned [report]. *)
Definition analyze_code (request : AnalysisRequest) (w : world)
  : option (result AnalysisReport * world) :=
  let '(r, w1) := fan_out w in
  match score_results r with
  | Raise e => Some (Raise e, w1)
  | Ok (overall, stat, xp, badges) =>
      let id := "RPT-" +:+ utcnow_stamp w1 in
      match save_report request r id overall stat xp badges w1 with
      | None => None
      | Some w2 =>
          Some (build_report r id overall stat xp badges (utcnow_iso w2), w2)
      end
  end.

(** The thirteen parameters of the upsert of [store_report], evaluated from
    the posted dict. *)
Definition sub_score (report : list (string * json)) (key : string)
  : result json :=
  py_get (default_of (dict_lookup key report) (JObj [])) "score" JNull.

Definition store_params (report : list (string * json))
  : result (json * report_row) :=
  cqs ← sub_score report "code_quality";
  ars ← sub_score report "architecture";
  els ← sub_score report "event_loop";
  cos ← sub_score report "cost_analysis";
  let rpg := default_of (dict_lookup "rpg_summary" report) (JObj []) in
  xp ← py_get rpg "xp_earned" (JInt 0);
  badges ← py_get rpg "badges_earned" (JArr []);
  Ok (default_of (dict_lookup "report_id" report) JNull,
      {| row_project_id := None; row_commit_id := None;
         row_file_path := None;
         row_overall_score :=
           default_of (dict_lookup "overall_score" report) (JInt 0);
         row_status :=
           default_of (dict_lookup "status" report) (JStr "unknown");
         row_code_quality_score := cqs;
         row_architecture_score := ars;
         row_event_loop_score := els;
         row_efficiency_score := cos;
         row_code_quality_report :=
           Some (default_of (dict_lookup "code_quality" report) JNull);
         row_architecture_report :=
           Some (default_of (dict_lookup "architecture" report) JNull);
         row_event_loop_report :=
           Some (default_of (dict_lookup "event_loop" report) JNull);
         row_cost_report :=
           Some (default_of (dict_lookup "cost_analysis" report) JNull);
         row_xp_earned := xp;
         row_badges_earned := badges |}).

(** [ON CONFLICT (report_id) DO UPDATE SET overall_score, status,
    code_quality_report, architecture_report, event_loop_report,
    cost_report = EXCLUDED...]: the six listed columns are overwritten, the
    others keep the stored row's values. *)
Definition on_conflict_update (old new : report_row) : report_row :=
  {| row_project_id := row_project_id old;
     row_commit_id := row_commit_id old;
     row_file_path := row_file_path old;
     row_overall_score := row_overall_score new;
     row_status := row_status new;
     row_code_quality_score := row_code_quality_score old;
     row_architecture_score := row_architecture_score old;
     row_event_loop_score := row_event_loop_score old;
     row_efficiency_score := row_efficiency_score old;
     row_code_quality_report := row_code_quality_report new;
     row_architecture_report := row_architecture_report new;
     row_event_loop_report := row_event_loop_report new;
     row_cost_report := row_cost_report new;
     row_xp_earned := row_xp_earned old;
     row_badges_earned := row_badges_earned old |}.

Definition upsert_report (id : json) (row : report_row) (fault : bool)
    (d : database) : result database :=
  if fault then Raise DatabaseError
  else match id with
       | JStr key =>
           let stored :=
             match analysis_reports d !! key with
             | Some old => on_conflict_update old row
             | None => row
             end in
           Ok {| analysis_reports := <[key := stored]> (analysis_reports d);
                 users := users d |}
       | _ => Raise DatabaseError
       end.

(** [POST /api/reports]. The embedding keeps the class of an exception and
    not its text: the [message] of the error answer, [str(e)] in the source,
    and the text logged after the colon are not modelled, and the answer
    carries the fixed part of the log line in their place. *)
Definition store_report (report : list (string * json)) (w : world)
  : json * world :=
  match db_pool w with
  | None =>
      (JObj [("status", JStr "warning");
             ("message", JStr "Database unavailable");
             ("report", JObj report)],
       emit (LoggedWarning "Database unavailable, report not stored") w)
  | Some d =>
      match store_params report ≫=
              (fun p => upsert_report (fst p) (snd p) (insert_fault w) d) with
      | Ok d' =>
          (JObj [("status", JStr "success");
                 ("report_id",
                  default_of (dict_lookup "report_id" report) JNull)],
           with_db w d')
      | Raise _ =>
          (JObj [("status", JStr "error");
                 ("message", JStr "Failed to store report")],
           emit (LoggedError "Failed to store report") w)
      end
  end.

(** ** Vocabulary of the statements about the gateway *)

(** A backend call that the claims count as failed: a timeout, a transport
    failure, or a status outside 200..299. *)
Definition failed (o : http_outcome) : Prop :=
  match o with
  | TimedOut | TransportFailed => True
  | Responded status_code _ => status_code < 200 \/ 299 < status_code
  end.

(** What a backend call leaves in [results]: the parsed body of a 200, the
    absent marker otherwise. *)
Definition delivered (o : http_outcome) : json :=
  match o with
  | Responded status_code (Ok j) => if status_code =? 200 then j else JNull
  | _ => JNull
  end.

Definition is_call_event (e : event) : bool :=
  match e with
  | Issued _ _ | Settled _ _ => true
  | _ => false
  end.

(** The issue and settle events of a run, in order. *)
Definition timeline (w : world) : list event :=
  List.filter is_call_event (trace w).

(** The same world with no connection pool. *)
Definition without_pool (w : world) : world :=
  {| backends := backends w; clock := clock w; trace := trace w;
     db_pool := None; insert_fault := insert_fault w;
     update_fault := update_fault w; utcnow_stamp := utcnow_stamp w;
     utcnow_iso := utcnow_iso w |}.

Definition sub_report (k : kind) (report : AnalysisReport) : json :=
  match k with
  | CodeQuality => code_quality report
  | Architecture => architecture report
  | EventLoop => event_loop report
  | Cost => cost_analysis report
  end.

Definition stored_reports (w : world) : gmap string report_row :=
  match db_pool w with
  | Some d => analysis_reports d
  | None => ∅
  end.

Definition stored_users (w : world) : gmap string user_row :=
  match db_pool w with
  | Some d => users d
  | None => ∅
  end.

(** The integer score a present sub-report carries under its kind's key. *)
Definition score_of (k : kind) (r : results) : option Z :=
  match result_of k r with
  | JObj fields =>
      match dict_lookup (score_key k) fields with
      | Some (JInt s) => Some s
      | _ => None
      end
  | _ => None
  end.

Definition present_score (k : kind) (r : results) : list (kind * Z) :=
  match score_of k r with
  | Some s => [(k, s)]
  | None => []
  end.

Definition present_scores (r : results) : list (kind * Z) :=
  (present_score CodeQuality r ++ present_score Architecture r
   ++ present_score EventLoop r ++ present_score Cost r)%list.

(** A body as the backend's response model lets it out: an object with an
    integer score between 0 and 100 under its kind's key. *)
Definition carries_score (k : kind) (j : json) : Prop :=
  exists fields s,
    j = JObj fields /\ dict_lookup (score_key k) fields = Some (JInt s)
    /\ 0 <= s <= 100.


Definition entry_of (p : kind * Z) : kind * json * float :=
  (fst p, JInt (snd p), weights (fst p)).

(** Every sub-report is absent or carries an integer score. *)
Definition scored (r : results) : Prop :=
  forall k, result_of k r = JNull \/ is_Some (score_of k r).

(** The composition formula in the words of the specification, with its
    [round] replaced by the truncation the code applies: the quotient of
    sum(score_i * weight_i) by sum(weight_i) over the present kinds, in
    binary64, cut toward zero; 0 when nothing is present. *)
Definition truncated_weighted_mean (present : list (kind * Z)) : result Z :=
  match present with
  | [] => Ok 0
  | _ =>
      products ← map_result
                   (fun p => f ← float_of_int (snd p);
                             Ok (fmul f (weights (fst p)))) present;
      q ← fdiv (py_sum products)
               (py_sum (map (fun p => weights (fst p)) present));
      int_of_float q
  end.

(** The formula as the specification words it: the exact weighted mean,
    rounded to the nearest integer (halves up). *)
Definition exact_weight (k : kind) : Z :=
  match k with
  | CodeQuality => 30
  | Architecture => 25
  | EventLoop => 20
  | Cost => 25
  end.

Definition rounded_weighted_mean (present : list (kind * Z)) : Z :=
  match present with
  | [] => 0
  | _ =>
      let n := fold_right Z.add 0
                 (map (fun p => snd p * exact_weight (fst p)) present) in
      let d := fold_right Z.add 0
                 (map (fun p => exact_weight (fst p)) present) in
      (2 * n + d) / (2 * d)
  end.

End Gateway.

(* ===================================================================== *)
(** * Exhaustive check of the composition over the scores 0..100 *)
(* ===================================================================== *)
Module ScoreRange.
Import Gateway.

Definition all_scores : list Z := map Z.of_nat (seq 0 101).

(** [score * weights[k]] for an integer score. *)
Definition product (k : kind) (s : Z) : float :=
  fmul (nearest_float s) (weights k).

Definition products (k : kind) : list float := map (product k) all_scores.

(** [0 <= q < bound] on floats. *)
Definition in_range (bound q : float) : bool :=
  PrimFloat.leb PrimFloat.zero q && PrimFloat.ltb q bound.

(** Whether every choice of one product per list, summed onto [acc] from
    the left and divided by [tw], lands in the range. *)
Fixpoint all_in_range (pss : list (list float)) (bound tw acc : float)
  : bool :=
  match pss with
  | [] => in_range bound (PrimFloat.div acc tw)
  | ps :: rest =>
      forallb (fun p => all_in_range rest bound tw (fadd acc p)) ps
  end.

(** For the present kinds [ks]: the weights do not sum to zero, and every
    weighted mean of scores 0..100 is a float in [0, 101). *)
Definition pattern_ok (ks : list kind) : bool :=
  let tw := py_sum (map weights ks) in
  negb (PrimFloat.is_zero tw)
  && all_in_range (map products ks) (nearest_float 101) tw PrimFloat.zero.

(** The non-empty sets of at most three present kinds, in the order of the
    source. *)
Definition partial_patterns : list (list kind) :=
  [[CodeQuality]; [Architecture]; [EventLoop]; [Cost];
   [CodeQuality; Architecture]; [CodeQuality; EventLoop];
   [CodeQuality; Cost]; [Architecture; EventLoop]; [Architecture; Cost];
   [EventLoop; Cost];
   [CodeQuality; Architecture; EventLoop]; [CodeQuality; Architecture; Cost];
   [CodeQuality; EventLoop; Cost]; [Architecture; EventLoop; Cost]].

(** Whether each score 0..100 converts to a finite float. *)
Definition scores_convert : bool :=
  forallb (fun s => negb (PrimFloat.is_infinity (nearest_float s)))
    all_scores.

End ScoreRange.

(* ===================================================================== *)
(** * Regular expressions: the [json_patterns] and [re.findall] *)
(* ===================================================================== *)
Module Re.

(** The constructs the four patterns use. A star ranges over one character
    class, as [\s*], [[\s\S]*] and [[\s\S]*?] do. *)
Inductive regex : Type :=
| Eps
| Lit (c : ascii)
| Seq (r1 r2 : regex)
| Star (p : ascii -> bool)         (* greedy *)
| LazyStar (p : ascii -> bool)     (* lazy *)
| Group (r : regex).               (* capturing *)

Fixpoint lits (s : string) : regex :=
  match s with
  | EmptyString => Eps
  | String c rest => Seq (Lit c) (lits rest)
  end.

Section Matcher.
Context {R : Type}.

(** Greedy star: take the longest run first and give back one character at a
    time while the continuation fails. *)
Fixpoint star_greedy (p : ascii -> bool) (s : string) (i : nat)
    (k : string -> nat -> option R) : option R :=
  match s with
  | String c rest =>
      if p c then
        match star_greedy p rest (S i) k with
        | Some x => Some x
        | None => k s i
        end
      else k s i
  | EmptyString => k s i
  end.

(** Lazy star: try the continuation first and take one more character each
    time it fails. *)
Fixpoint star_lazy (p : ascii -> bool) (s : string) (i : nat)
    (k : string -> nat -> option R) : option R :=
  match k s i with
  | Some x => Some x
  | None =>
      match s with
      | String c rest => if p c then star_lazy p rest (S i) k else None
      | EmptyString => None
      end
  end.

(** Backtracking match of [r] on the suffix [s] that starts at index [i];
    [cap] is the span of group 1 so far; the continuation gets the rest. *)
Fixpoint rmatch (r : regex) (s : string) (i : nat) (cap : option (nat * nat))
    (k : string -> nat -> option (nat * nat) -> option R) : option R :=
  match r with
  | Eps => k s i cap
  | Lit c =>
      match s with
      | String a rest => if Ascii.eqb a c then k rest (S i) cap else None
      | EmptyString => None
      end
  | Seq r1 r2 =>
      rmatch r1 s i cap (fun s' i' cap' => rmatch r2 s' i' cap' k)
  | Star p => star_greedy p s i (fun s' i' => k s' i' cap)
  | LazyStar p => star_lazy p s i (fun s' i' => k s' i' cap)
  | Group r1 => rmatch r1 s i cap (fun s' i' _ => k s' i' (Some (i, i')))
  end.

End Matcher.

(** The first match of [r] that starts at index [i]: its end and group 1. *)
Definition match_at (r : regex) (s : string) (i : nat)
  : option (nat * option (nat * nat)) :=
  rmatch r s i None (fun _ e cap => Some (e, cap)).

(** [re.findall]: scan left to right; each match yields group 1 when the
    pattern has a group and the whole match otherwise, and the scan resumes
    at its end (one further on after an empty match). *)
Fixpoint findall_from (fuel : nat) (r : regex) (whole s : string) (i : nat)
  : list string :=
  match fuel with
  | O => []
  | S fuel' =>
      let next :=
        match s with
        | String _ rest => findall_from fuel' r whole rest (S i)
        | EmptyString => []
        end in
      match match_at r s i with
      | Some (e, cap) =>
          let item :=
            match cap with
            | Some (b, e') => String.substring b (e' - b) whole
            | None => String.substring i (e - i) whole
            end in
          if (e =? i)%nat then item :: next
          else item :: findall_from fuel' r whole (str_drop (e - i) s) e
      | None => next
      end
  end.

Definition findall (r : regex) (s : string) : list string :=
  findall_from (S (String.length s)) r s s 0.

Definition any_char (c : ascii) : bool := true.

(** [```json\s*([\s\S]*?)\s*```] *)
Definition json_fence : regex :=
  Seq (lits "```json")
    (Seq (Star is_space)
       (Seq (Group (LazyStar any_char)) (Seq (Star is_space) (lits "```")))).

(** [```\s*([\s\S]*?)\s*```] *)
Definition any_fence : regex :=
  Seq (lits "```")
    (Seq (Star is_space)
       (Seq (Group (LazyStar any_char)) (Seq (Star is_space) (lits "```")))).

(** [\{[\s\S]*\}] *)
Definition raw_object : regex := Seq (Lit "{") (Seq (Star any_char) (Lit "}")).

(** [\[[\s\S]*\]] *)
Definition raw_array : regex := Seq (Lit "[") (Seq (Star any_char) (Lit "]")).

End Re.

(* ===================================================================== *)
(** * [json.loads] *)
(* ===================================================================== *)
Module JsonText.

(** The decoder of Python's [json] module (strict mode, default hooks) on
    8-bit text. It raises [JSONDecodeError] where the text is no JSON
    document, [ValueError] at an integer literal of more digits than [int]
    converts, and [RecursionError] at an object or array nested deeper than
    the interpreter has room for, whichever it meets first from the left.
    The values are those of 8-bit strings: an escape [\uXXXX] above U+00FF
    names a code point no value of the embedding holds, and the embedding
    refuses the text where the library decodes it. *)
Definition is_json_space (c : ascii) : bool :=
  let n := char_code c in ((n =? 32) || (n =? 9) || (n =? 10) || (n =? 13))%N.

Fixpoint skip_ws (s : string) : string :=
  match s with
  | String c rest => if is_json_space c then skip_ws rest else s
  | EmptyString => s
  end.

Definition digit_value (c : ascii) : option Z :=
  let n := char_code c in
  if ((48 <=? n) && (n <=? 57))%N then Some (Z.of_N n - 48) else None.

Definition hex_value (c : ascii) : option Z :=
  let n := char_code c in
  if ((48 <=? n) && (n <=? 57))%N then Some (Z.of_N n - 48)
  else if ((65 <=? n) && (n <=? 70))%N then Some (Z.of_N n - 55)
  else if ((97 <=? n) && (n <=? 102))%N then Some (Z.of_N n - 87)
  else None.

(** The digits at the head of [s], their value, their number, the rest. *)
Fixpoint take_digits (s : string) (value : Z) (count : nat)
  : Z * nat * string :=
  match s with
  | String c rest =>
      match digit_value c with
      | Some d => take_digits rest (10 * value + d) (S count)
      | None => (value, count, s)
      end
  | EmptyString => (value, count, s)
  end.

Definition unescape (c : ascii) : option ascii :=
  let n := char_code c in
  if (n =? 34)%N then Some c            (* a quote *)
  else if (n =? 92)%N then Some c       (* a backslash *)
  else if (n =? 47)%N then Some c       (* a slash *)
  else if (n =? 98)%N then Some (ascii_of_N 8)
  else if (n =? 102)%N then Some (ascii_of_N 12)
  else if (n =? 110)%N then Some (ascii_of_N 10)
  else if (n =? 114)%N then Some (ascii_of_N 13)
  else if (n =? 116)%N then Some (ascii_of_N 9)
  else None.

(** [scanstring]: the text after an opening quote, up to the closing one. *)
Fixpoint scanstring (s : string) : option (string * string) :=
  match s with
  | EmptyString => None
  | String c rest =>
      if (char_code c =? 34)%N then Some (EmptyString, rest)
      else if (char_code c =? 92)%N then
        match rest with
        | String e rest' =>
            if (char_code e =? 117)%N then
              match rest' with
              | String h1 (String h2 (String h3 (String h4 rest''))) =>
                  match hex_value h1, hex_value h2, hex_value h3,
                        hex_value h4 with
                  | Some a, Some b, Some c', Some d =>
                      let n := ((a * 16 + b) * 16 + c') * 16 + d in
                      if n <? 256 then
                        match scanstring rest'' with
                        | Some (str, r) =>
                            Some (String (ascii_of_N (Z.to_N n)) str, r)
                        | None => None
                        end
                      else None
                  | _, _, _, _ => None
                  end
              | _ => None
              end
            else
              match unescape e, scanstring rest' with
              | Some ch, Some (str, r) => Some (String ch str, r)
              | _, _ => None
              end
        | EmptyString => None
        end
      else if (char_code c <? 32)%N then None
      else
        match scanstring rest with
        | Some (str, r) => Some (String c str, r)
        | None => None
        end
  end.

(** [float(text)] of a decimal [mantissa * 10^exponent], correctly
    rounded. *)
Definition decimal_float (negative : bool) (mantissa exponent : Z) : float :=
  match mantissa with
  | Z.pos m =>
      if 0 <=? exponent then
        let v := Z.pos m * 10 ^ exponent in
        nearest_float (if negative then - v else v)
      else
        SF2Prim (SFdiv prec emax (S754_finite negative m 0)
                   (S754_finite false (Z.to_pos (10 ^ (- exponent))) 0))
  | _ => if negative then PrimFloat.neg_zero else PrimFloat.zero
  end.

(** [NUMBER_RE]: an optional minus sign, then 0 or a digit string that does
    not start with 0, then optionally a point with digits, then optionally
    e or E with an optional sign and digits. The value is an int without
    fraction and exponent, a float otherwise. [None]: no number starts
    here. *)
Definition parse_number (py : interpreter) (s : string)
  : option (result (json * string)) :=
  let '(negative, s1) :=
    match s with
    | String "-" rest => (true, rest)
    | _ => (false, s)
    end in
  let int_part :=
    match s1 with
    | String "0" rest => Some (0, 1%nat, rest)
    | String c _ =>
        match digit_value c with
        | Some _ => Some (take_digits s1 0 0)
        | None => None
        end
    | EmptyString => None
    end in
  match int_part with
  | None => None
  | Some (int_value, int_count, s2) =>
      let '(frac, s3) :=
        match s2 with
        | String "." rest =>
            match take_digits rest int_value 0 with
            | (_, O, _) => (None, s2)
            | (v, n, rest') => (Some (v, n), rest')
            end
        | _ => (None, s2)
        end in
      let '(expo, s4) :=
        let digits_of (negative_exp : bool) (rest : string) :=
          match take_digits rest 0 0 with
          | (_, O, _) => (None, s3)
          | (v, _, rest') => (Some (if negative_exp then - v else v), rest')
          end in
        match s3 with
        | String c rest =>
            if ((char_code c =? 101) || (char_code c =? 69))%N then
              match rest with
              | String "+" rest' => digits_of false rest'
              | String "-" rest' => digits_of true rest'
              | _ => digits_of false rest
              end
            else (None, s3)
        | EmptyString => (None, s3)
        end in
      match frac, expo with
      | None, None =>
          Some (if too_many_digits py int_count then Raise ValueError
                else Ok (JInt (if negative then - int_value else int_value),
                         s4))
      | _, _ =>
          let '(mantissa, scale) :=
            match frac with
            | Some (v, n) => (v, Z.of_nat n)
            | None => (int_value, 0)
            end in
          Some (Ok (JFloat (decimal_float negative mantissa
                              (default_of expo 0 - scale)), s4))
      end
  end.

(** [null], [true], [false], then a number, then [NaN], [Infinity] and
    [-Infinity], in the order of the scanner. *)
Definition parse_scalar (py : interpreter) (s : string)
  : result (json * string) :=
  if str_prefix "null" s then Ok (JNull, str_drop 4 s)
  else if str_prefix "true" s then Ok (JBool true, str_drop 4 s)
  else if str_prefix "false" s then Ok (JBool false, str_drop 5 s)
  else
    match parse_number py s with
    | Some r => r
    | None =>
        if str_prefix "NaN" s then Ok (JFloat PrimFloat.nan, str_drop 3 s)
        else if str_prefix "Infinity" s
        then Ok (JFloat PrimFloat.infinity, str_drop 8 s)
        else if str_prefix "-Infinity" s
        then Ok (JFloat PrimFloat.neg_infinity, str_drop 9 s)
        else Raise JSONDecodeError
    end.

(** [scan_once], [JSONArray] and [JSONObject]; [room] is the number of
    objects and arrays the decoder may still enter, one inside the other.
    Every call either consumes a character or is followed by one that does,
    so twice the length of the text is fuel enough. *)
Fixpoint parse_value (py : interpreter) (fuel room : nat) (s : string)
  : result (json * string) :=
  match fuel with
  | O => Raise JSONDecodeError
  | S fuel' =>
      match s with
      | String c rest =>
          if (char_code c =? 34)%N then
            match scanstring rest with
            | Some (str, r) => Ok (JStr str, r)
            | None => Raise JSONDecodeError
            end
          else if (char_code c =? 123)%N then
            match room with
            | O => Raise RecursionError
            | S room' =>
                match skip_ws rest with
                | String "}" r => Ok (JObj [], r)
                | s1 => parse_members py fuel' room' s1 []
                end
            end
          else if (char_code c =? 91)%N then
            match room with
            | O => Raise RecursionError
            | S room' =>
                match skip_ws rest with
                | String "]" r => Ok (JArr [], r)
                | s1 => parse_elements py fuel' room' s1 []
                end
            end
          else parse_scalar py s
      | EmptyString => Raise JSONDecodeError
      end
  end
with parse_elements (py : interpreter) (fuel room : nat) (s : string)
    (acc : list json) : result (json * string) :=
  match fuel with
  | O => Raise JSONDecodeError
  | S fuel' =>
      match parse_value py fuel' room s with
      | Ok (v, r) =>
          match skip_ws r with
          | String "]" r' => Ok (JArr (rev (v :: acc)), r')
          | String "," r' =>
              parse_elements py fuel' room (skip_ws r') (v :: acc)
          | _ => Raise JSONDecodeError
          end
      | Raise e => Raise e
      end
  end
with parse_members (py : interpreter) (fuel room : nat) (s : string)
    (acc : list (string * json)) : result (json * string) :=
  match fuel with
  | O => Raise JSONDecodeError
  | S fuel' =>
      match s with
      | String c rest =>
          if (char_code c =? 34)%N then
            match scanstring rest with
            | Some (key, r1) =>
                match skip_ws r1 with
                | String ":" r2 =>
                    match parse_value py fuel' room (skip_ws r2) with
                    | Ok (v, r3) =>
                        let acc' := dict_set key v acc in
                        match skip_ws r3 with
                        | String "}" r4 => Ok (JObj acc', r4)
                        | String "," r4 =>
                            parse_members py fuel' room (skip_ws r4) acc'
                        | _ => Raise JSONDecodeError
                        end
                    | Raise e => Raise e
                    end
                | _ => Raise JSONDecodeError
                end
            | None => Raise JSONDecodeError
            end
          else Raise JSONDecodeError
      | EmptyString => Raise JSONDecodeError
      end
  end.

(** [json.loads(s)]: one value between optional whitespace. *)
Definition json_loads (py : interpreter) (s : string) : result json :=
  match parse_value py (2 * String.length s + 2) (recursion_room py)
          (skip_ws s) with
  | Ok (v, rest) =>
      match skip_ws rest with
      | EmptyString => Ok v
      | _ => Raise JSONDecodeError
      end
  | Raise e => Raise e
  end.

End JsonText.

(* ===================================================================== *)
(** * The backends: JSON recovery and the [/analyze] handlers *)
(* ===================================================================== *)
Module Llm.
Import Re JsonText Gateway.

(** [json_patterns], in the order of the source. *)
Definition json_patterns : list regex :=
  [json_fence; any_fence; raw_object; raw_array].

(** The dict returned when nothing parses. *)
Definition parse_failure (response : string) : json :=
  JObj [("error", JStr "Failed to parse LLM response");
        ("raw_response", JStr (str_take 500 response))].

Section Recovery.

(** [json.loads], the library function the recovery calls: whatever it
    returns or raises for a text. [JsonText.json_loads] is its embedding. *)
Variable loads : string -> result json.

(** [for match in matches: try: return json.loads(match.strip()) / except
    json.JSONDecodeError: continue]. [None]: the loop ran to its end. An
    exception of another class is not caught. *)
Fixpoint try_matches (matches : list string) : option (result json) :=
  match matches with
  | [] => None
  | m :: rest =>
      match loads (strip m) with
      | Ok parsed => Some (Ok parsed)
      | Raise JSONDecodeError => try_matches rest
      | Raise e => Some (Raise e)
      end
  end.

(** [for pattern in json_patterns: matches = re.findall(pattern, response,
    re.MULTILINE); ...]. The flag changes [^] and [$] only, which no pattern
    uses. *)
Fixpoint try_patterns (patterns : list regex) (response : string)
  : option (result json) :=
  match patterns with
  | [] => None
  | p :: rest =>
      match try_matches (findall p response) with
      | Some r => Some r
      | None => try_patterns rest response
      end
  end.

(** [extract_json_from_response] of ollama_utils.py and llm_client.py (the
    two copies are the same text). *)
Definition extract_json_from_response (response : string) : result json :=
  match try_patterns json_patterns response with
  | Some r => r
  | None =>
      match loads (strip response) with
      | Ok parsed => Ok parsed
      | Raise JSONDecodeError => Ok (parse_failure response)
      | Raise e => Raise e
      end
  end.

(** A text that [json.loads] rejects as no JSON document once stripped. *)
Definition rejected (text : string) : Prop :=
  loads (strip text) = Raise JSONDecodeError.

End Recovery.

(** The candidate texts in the order the function tries them: the matches
    of each pattern, then the whole response. *)
Definition candidates (response : string) : list string :=
  (List.concat (map (fun p => findall p response) json_patterns)
   ++ [response])%list.

(** [parsed.get(key, default)] for each field of an item of a list. *)
Definition item_of (spec : list (string * json)) (data : json)
  : result json :=
  fields ← map_result
             (fun kd => v ← py_get data (fst kd) (snd kd); Ok (fst kd, v))
             spec;
  Ok (JObj fields).

(** [for data in parsed.get(key, []): items.append(Item(...))] *)
Definition items_of (parsed : json) (key : string)
    (spec : list (string * json)) : result (list json) :=
  listed ← py_get parsed key (JArr []);
  entries ← py_iter listed;
  map_result (item_of spec) entries.

(** [min(100, max(0, int(parsed.get(key, 50))))] *)
Definition clamped_score (py : interpreter) (parsed : json) (key : string)
  : result Z :=
  v ← py_get parsed key (JInt 50);
  n ← py_int py v;
  Ok (Z.min 100 (Z.max 0 n)).

Definition parsing_error_summary : string :=
  "Analysis incomplete due to parsing error".

(** The key under which each backend lists its findings. *)
Definition findings_key (k : kind) : string :=
  match k with
  | CodeQuality => "issues"
  | Architecture => "dependency_issues"
  | EventLoop => "blocking_operations"
  | Cost => "cost_factors"
  end.

(** The response each handler returns from its ["error" in parsed and
    "raw_response" in parsed] branch; fields the constructor call leaves out
    take the defaults of the response model. *)
Definition degraded (k : kind) (model now : string) : json :=
  match k with
  | CodeQuality =>
      JObj [("score", JInt 50);
            ("issues",
             JArr [JObj [("type", JStr "analysis_error");
                         ("severity", JStr "medium");
                         ("line", JNull);
                         ("message",
                          JStr "Could not fully analyze code - LLM response parsing failed");
                         ("suggestion",
                          JStr "Try again or manually review the code")]]);
            ("summary", JStr parsing_error_summary);
            ("analyzed_at", JStr now);
            ("model_used", JStr model)]
  | Architecture =>
      JObj [("architecture_score", JInt 50);
            ("detected_layers", JArr []);
            ("dependency_issues",
             JArr [JObj [("type", JStr "analysis_error");
                         ("severity", JStr "medium");
                         ("source", JStr "unknown");
                         ("target", JNull);
                         ("message",
                          JStr "Could not fully analyze architecture - LLM response parsing failed");
                         ("suggestion", JStr "Try again or manually review")]]);
            ("circular_dependencies", JArr []);
            ("layer_violations", JArr []);
            ("summary", JStr parsing_error_summary);
            ("recommendations", JArr []);
            ("analyzed_at", JStr now);
            ("model_used", JStr model)]
  | EventLoop =>
      JObj [("event_loop_score", JInt 50);
            ("blocking_operations",
             JArr [JObj [("type", JStr "analysis_error");
                         ("severity", JStr "medium");
                         ("line", JNull);
                         ("operation", JStr "unknown");
                         ("blocking_time_estimate", JNull);
                         ("message",
                          JStr "Could not fully analyze - LLM response parsing failed");
                         ("async_alternative",
                          JStr "Try again or manually review")]]);
            ("total_blocking_calls", JInt 0);
            ("estimated_freeze_risk", JStr "unknown");
            ("async_patterns_used", JArr []);
            ("summary", JStr parsing_error_summary);
            ("recommendations", JArr []);
            ("analyzed_at", JStr now);
            ("model_used", JStr model)]
  | Cost =>
      JObj [("efficiency_score", JInt 50);
            ("overall_time_complexity", JStr "O(?)");
            ("overall_space_complexity", JStr "O(?)");
            ("complexity_breakdown", JArr []);
            ("cloud_cost_impact", JStr "Unknown");
            ("cost_factors", JArr []);
            ("estimated_monthly_impact", JNull);
            ("scalability_assessment", JStr "Unable to assess");
            ("summary", JStr parsing_error_summary);
            ("optimizations", JArr []);
            ("analyzed_at", JStr now);
            ("model_used", JStr model)]
  end.

(** The response built from the parsed content. The response models'
    per-field validation and coercion are the framework's and are not
    modelled: a field holds the value the constructor is given, where the
    framework may convert it or refuse it (and the handler then answers
    500). *)
Definition analysed (py : interpreter) (k : kind) (parsed : json)
    (model now : string) : result json :=
  match k with
  | CodeQuality =>
      issues ← items_of parsed "issues"
                 [("type", JStr "unknown"); ("severity", JStr "medium");
                  ("line", JNull); ("message", JStr "No description");
                  ("suggestion", JNull)];
      score ← clamped_score py parsed "score";
      summary ← py_get parsed "summary" (JStr "Analysis complete");
      Ok (JObj [("score", JInt score); ("issues", JArr issues);
                ("summary", summary); ("analyzed_at", JStr now);
                ("model_used", JStr model)])
  | Architecture =>
      layers ← items_of parsed "detected_layers"
                 [("name", JStr "unknown"); ("imports", JArr [])];
      issues ← items_of parsed "dependency_issues"
                 [("type", JStr "unknown"); ("severity", JStr "medium");
                  ("source", JStr "unknown"); ("target", JNull);
                  ("message", JStr "No description"); ("suggestion", JNull)];
      score ← clamped_score py parsed "architecture_score";
      circular ← py_get parsed "circular_dependencies" (JArr []);
      violations ← py_get parsed "layer_violations" (JArr []);
      summary ← py_get parsed "summary" (JStr "Analysis complete");
      recommendations ← py_get parsed "recommendations" (JArr []);
      Ok (JObj [("architecture_score", JInt score);
                ("detected_layers", JArr layers);
                ("dependency_issues", JArr issues);
                ("circular_dependencies", circular);
                ("layer_violations", violations);
                ("summary", summary);
                ("recommendations", recommendations);
                ("analyzed_at", JStr now);
                ("model_used", JStr model)])
  | EventLoop =>
      operations ← items_of parsed "blocking_operations"
                     [("type", JStr "unknown"); ("severity", JStr "medium");
                      ("line", JNull); ("operation", JStr "unknown");
                      ("blocking_time_estimate", JNull);
                      ("message", JStr "Blocking operation detected");
                      ("async_alternative", JNull)];
      score ← clamped_score py parsed "event_loop_score";
      total ← py_get parsed "total_blocking_calls"
                (JInt (Z.of_nat (List.length operations)));
      risk ← py_get parsed "estimated_freeze_risk" (JStr "unknown");
      patterns ← py_get parsed "async_patterns_used" (JArr []);
      summary ← py_get parsed "summary" (JStr "Analysis complete");
      recommendations ← py_get parsed "recommendations" (JArr []);
      Ok (JObj [("event_loop_score", JInt score);
                ("blocking_operations", JArr operations);
                ("total_blocking_calls", total);
                ("estimated_freeze_risk", risk);
                ("async_patterns_used", patterns);
                ("summary", summary);
                ("recommendations", recommendations);
                ("analyzed_at", JStr now);
                ("model_used", JStr model)])
  | Cost =>
      complexities ← items_of parsed "complexity_breakdown"
                       [("function_name", JStr "unknown");
                        ("time_complexity", JStr "O(?)");
                        ("space_complexity", JStr "O(?)");
                        ("explanation", JStr EmptyString); ("hotspot", JBool false)];
      factors ← items_of parsed "cost_factors"
                  [("category", JStr "compute"); ("impact", JStr "Medium");
                   ("description", JStr EmptyString); ("optimization", JNull)];
      score ← clamped_score py parsed "efficiency_score";
      time ← py_get parsed "overall_time_complexity" (JStr "O(?)");
      space ← py_get parsed "overall_space_complexity" (JStr "O(?)");
      impact ← py_get parsed "cloud_cost_impact" (JStr "Medium");
      monthly ← py_get parsed "estimated_monthly_impact" JNull;
      scalability ← py_get parsed "scalability_assessment" (JStr "Unknown");
      summary ← py_get parsed "summary" (JStr "Analysis complete");
      optimizations ← py_get parsed "optimizations" (JArr []);
      Ok (JObj [("efficiency_score", JInt score);
                ("overall_time_complexity", time);
                ("overall_space_complexity", space);
                ("complexity_breakdown", JArr complexities);
                ("cloud_cost_impact", impact);
                ("cost_factors", JArr factors);
                ("estimated_monthly_impact", monthly);
                ("scalability_assessment", scalability);
                ("summary", summary);
                ("optimizations", optimizations);
                ("analyzed_at", JStr now);
                ("model_used", JStr model)])
  end.

(** ["error" in parsed and "raw_response" in parsed] *)
Definition is_parse_failure (parsed : json) : result bool :=
  has_error ← py_in "error" parsed;
  if (has_error : bool) then py_in "raw_response" parsed else Ok false.

(** [POST /analyze] of the backend of kind [k] on the interpreter [py],
    from the text the LLM returned; [model] is [ollama_client.model], [now]
    the clock reading of [analyzed_at]. Whatever is raised inside the [try]
    leaves as a 500. *)
Definition analyze (py : interpreter) (k : kind)
    (raw_response model now : string) : result json :=
  match (parsed ← extract_json_from_response (json_loads py) raw_response;
         failure ← is_parse_failure parsed;
         if (failure : bool) then Ok (degraded k model now)
         else analysed py k parsed model now) with
  | Ok response => Ok response
  | Raise _ => Raise (HTTPException 500)
  end.

(** The findings a response lists, and those among them that report an
    analysis error of medium severity. *)
Definition findings (k : kind) (response : json) : list json :=
  match response with
  | JObj fields =>
      match dict_lookup (findings_key k) fields with
      | Some (JArr items) => items
      | _ => []
      end
  | _ => []
  end.

Definition is_analysis_error (item : json) : bool :=
  match item with
  | JObj fields =>
      match dict_lookup "type" fields, dict_lookup "severity" fields with
      | Some (JStr t), Some (JStr sev) =>
          String.eqb t "analysis_error" && String.eqb sev "medium"
      | _, _ => false
      end
  | _ => false
  end.

Definition response_field (key : string) (response : json) : option json :=
  match response with
  | JObj fields => dict_lookup key fields
  | _ => None
  end.

End Llm.

(* ===================================================================== *)
(** * Concrete worlds and requests used by the examples *)
(* ===================================================================== *)
Module Sample.
Import Gateway.

(** An interpreter with the default digit limit and room for 900 nested
    calls. *)
Definition cpython : interpreter :=
  {| int_max_str_digits := 4300; recursion_room := 900 |}.

(** A 200 response carrying the score of its kind. *)
Definition scoring (k : kind) (score : Z) : http_outcome :=
  Responded 200 (Ok (JObj [(score_key k, JInt score);
                           ("summary", JStr "Analysis complete")])).

Definition outcomes (cq ar el co : http_outcome) (k : kind) : http_outcome :=
  match k with
  | CodeQuality => cq
  | Architecture => ar
  | EventLoop => el
  | Cost => co
  end.

Definition latencies (cq ar el co : Z) (k : kind) : Z :=
  match k with
  | CodeQuality => cq
  | Architecture => ar
  | EventLoop => el
  | Cost => co
  end.

(** One user, levelled as the invariant demands: level(1000) = 5. *)
Definition one_user : database :=
  {| analysis_reports := ∅;
     users := {[ "u1" := {| xp_total := 1000; level := 5 |} ]} |}.

Definition world_of (o : kind -> http_outcome) (l : kind -> Z)
    (pool : option database) (fault : bool) : world :=
  {| backends := fun k => {| outcome := o k; latency := l k |};
     clock := 0; trace := [];
     db_pool := pool; insert_fault := fault; update_fault := false;
     utcnow_stamp := "20260101120000";
     utcnow_iso := "2026-01-01T12:00:00" |}.

Definition request_for (project user : option string) : AnalysisRequest :=
  {| code := "print(1)"; language := Some "python"; file_path := None;
     commit_id := None; project_id := project; user_id := user |}.

(** Four backends that all score 50, after 30, 20, 10 and 40 seconds. *)
Definition all_fifty : world :=
  world_of (fun k => scoring k 50) (latencies 30 20 10 40)
    (Some one_user) false.

(** The same backends with a database whose INSERT fails. *)
Definition all_fifty_insert_fails : world :=
  world_of (fun k => scoring k 50) (latencies 30 20 10 40)
    (Some one_user) true.

(** Code quality 90 and architecture 92; the two other backends are down. *)
Definition ninety_ninety_two : results :=
  {| r_code_quality := JObj [("score", JInt 90)];
     r_architecture := JObj [("architecture_score", JInt 92)];
     r_event_loop := JNull;
     r_cost := JNull |}.



(** Two submissions of one report identifier to [POST /api/reports]. *)
Definition first_submission : list (string * json) :=
  [("report_id", JStr "RPT-1"); ("overall_score", JInt 90);
   ("status", JStr "excellent");
   ("code_quality", JObj [("score", JInt 90)]);
   ("rpg_summary", JObj [("xp_earned", JInt 900);
                         ("badges_earned", JArr [JStr "Clean Coder"])])].

Definition second_submission : list (string * json) :=
  [("report_id", JStr "RPT-1"); ("overall_score", JInt 40);
   ("status", JStr "critical");
   ("code_quality", JObj [("score", JInt 40)]);
   ("rpg_summary", JObj [("xp_earned", JInt 400);
                         ("badges_earned", JArr [])])].

Definition empty_store : world :=
  world_of (fun _ => TimedOut) (latencies 0 0 0 0)
    (Some {| analysis_reports := ∅; users := ∅ |}) false.

(** Texts an LLM may return. *)
Definition newline : string := String (ascii_of_N 10) EmptyString.

Definition quoted (s : string) : string :=
  String (ascii_of_N 34) (s +:+ String (ascii_of_N 34) EmptyString).

Definition object_then_noise : string :=
  "{" +:+ quoted "a" +:+ ":1} extra {broken".

Definition fenced_object : string :=
  "prefix ```json" +:+ newline +:+ "{" +:+ quoted "a" +:+ ":1}"
  +:+ newline +:+ "``` suffix".

Definition two_objects : string :=
  "{" +:+ quoted "a" +:+ ":1} and {" +:+ quoted "b" +:+ ":2}".

Definition first_object : string := "{" +:+ quoted "a" +:+ ":1}".

Definition no_json : string := "no json here".

Fixpoint repeated (n : nat) (c : ascii) : string :=
  match n with
  | O => EmptyString
  | S n' => String c (repeated n' c)
  end.

(** An integer of 4301 digits, and 901 arrays one inside the other. *)
Definition long_integer : string := repeated 4301 "1".

Definition deep_array : string := repeated 901 "[" +:+ repeated 901 "]".

(** A well-formed analysis that happens to carry both marker keys. *)
Definition analysis_with_marker_keys : string :=
  "{" +:+ quoted "score" +:+ ": 95, "
  +:+ quoted "summary" +:+ ": " +:+ quoted "Clean" +:+ ", "
  +:+ quoted "error" +:+ ": " +:+ quoted "none" +:+ ", "
  +:+ quoted "raw_response" +:+ ": " +:+ quoted "n/a" +:+ "}".

End Sample.

(* ===================================================================== *)
(** * The gateway: health *)
(* ===================================================================== *)
Module Health.
Import Gateway.

(** [check_service_health]: 200 is healthy, any other answer degraded, and
    whatever the request raises unavailable. *)
Definition check_service_health (o : http_outcome) : string :=
  match o with
  | Responded status_code _ =>
      if status_code =? 200 then "healthy" else "degraded"
  | TimedOut | TransportFailed => "unavailable"
  end.

(** The keys of [MCP_SERVICES], in the order of the dict. *)
Inductive service : Type :=
| lighthouse | code_quality | architect | event_loop | cost.

Definition service_name (m : service) : string :=
  match m with
  | lighthouse => "lighthouse"
  | code_quality => "code_quality"
  | architect => "architect"
  | event_loop => "event_loop"
  | cost => "cost"
  end.

Definition MCP_SERVICES : list service :=
  [lighthouse; code_quality; architect; event_loop; cost].

(** What the probes of one health check meet. [select_one] is the outcome of
    [SELECT 1]: [None] when there is no pool, [Some false] when acquiring
    the connection or the statement raises. *)
Record probes : Type := {
  select_one : option bool;
  ollama_probe : http_outcome;
  mcp_probe : service -> http_outcome
}.

Record HealthStatus : Type := {
  hs_status : string;
  hs_service : string;
  hs_database : string;
  hs_ollama : string;
  hs_mcps : list (string * string);
  hs_timestamp : string
}.

(** [all(s == "unavailable" for s in mcp_statuses.values())] *)
Definition all_unavailable (statuses : list (string * string)) : bool :=
  forallb (fun s => String.eqb (snd s) "unavailable") statuses.

(** [GET /health] *)
Definition health_check (p : probes) (now : string) : HealthStatus :=
  let db_status :=
    match select_one p with
    | Some true => "healthy"
    | _ => "unavailable"
    end in
  let ollama_status := check_service_health (ollama_probe p) in
  let mcp_statuses :=
    map (fun m => (service_name m, check_service_health (mcp_probe p m)))
      MCP_SERVICES in
  let overall := "healthy" in
  let overall :=
    if negb (String.eqb db_status "healthy") then "degraded" else overall in
  let overall :=
    if all_unavailable mcp_statuses then "critical" else overall in
  {| hs_status := overall; hs_service := "dev_rpg_backend";
     hs_database := db_status; hs_ollama := ollama_status;
     hs_mcps := mcp_statuses; hs_timestamp := now |}.

(** A probe that got no answer at all. *)
Definition unreachable (o : http_outcome) : Prop :=
  o = TimedOut \/ o = TransportFailed.

End Health.

(* ===================================================================== *)
(** * The backends: the LLM client (llm_client.py) *)
(* ===================================================================== *)
Module Client.
Import Gateway Llm.

(** [str.lower] on the code points 0..255: A..Z and the capital letters of
    Latin-1 (all of 192..222 but the multiplication sign) move up by 32. *)
Definition lower_char (c : ascii) : ascii :=
  let n := char_code c in
  if ((65 <=? n) && (n <=? 90)
      || (192 <=? n) && (n <=? 222) && negb (n =? 215))%N
  then ascii_of_N (n + 32) else c.

Fixpoint lower (s : string) : string :=
  match s with
  | EmptyString => EmptyString
  | String c rest => String (lower_char c) (lower rest)
  end.

(** The module-level configuration, read from the environment at import. *)
Record settings : Type := {
  LLM_PROVIDER : string;
  GROQ_API_KEY : string;
  GROQ_MODEL : string;
  OLLAMA_URL : string;
  OLLAMA_MODEL : string
}.

Record LLMClient : Type := {
  provider : string;
  groq_api_key : string;
  groq_model : string;
  ollama_url : string;
  ollama_model : string
}.

(** [LLMClient.__init__]: the provider in lower case; groq without a key
    falls back to ollama. *)
Definition init (provider groq_api_key groq_model ollama_url ollama_model
                 : string) : LLMClient :=
  let p := lower provider in
  {| provider :=
       if String.eqb p "groq" && negb (truthy (JStr groq_api_key))
       then "ollama" else p;
     groq_api_key := groq_api_key;
     groq_model := groq_model;
     ollama_url := ollama_url;
     ollama_model := ollama_model |}.

(** [LLMClient()] with every argument at its default. *)
Definition default_client (env : settings) : LLMClient :=
  init (LLM_PROVIDER env) (GROQ_API_KEY env) (GROQ_MODEL env)
    (OLLAMA_URL env) (OLLAMA_MODEL env).

(** The property [model]. *)
Definition model (c : LLMClient) : string :=
  if String.eqb (provider c) "groq" then groq_model c else ollama_model c.

(** [get_model_info] *)
Definition get_model_info (c : LLMClient) : json :=
  JObj [("provider", JStr (provider c));
        ("model", JStr (if String.eqb (provider c) "groq"
                        then groq_model c else ollama_model c))].

(** The class [OllamaClient] of llm_client.py: [LLMClient(provider="groq")]
    when a Groq key is configured, else [LLMClient(provider="ollama",
    ollama_url=base_url, ollama_model=model)]. *)
Definition OllamaClient (env : settings) (base_url model : string)
  : LLMClient :=
  if truthy (JStr (GROQ_API_KEY env))
  then init "groq" (GROQ_API_KEY env) (GROQ_MODEL env)
         (OLLAMA_URL env) (OLLAMA_MODEL env)
  else init "ollama" (GROQ_API_KEY env) (GROQ_MODEL env) base_url model.

(** [OllamaClient()] as the backends call it. *)
Definition ollama_client (env : settings) : LLMClient :=
  OllamaClient env (OLLAMA_URL env) (OLLAMA_MODEL env).

(** [if "choices" in result and len(result["choices"]) > 0: return
    result["choices"][0]["message"]["content"]], else the empty text. The
    length test and the indexing are one match on the value under
    [choices]. *)
Definition groq_content (result : json) : Py.result json :=
  has ← py_in "choices" result;
  if (has : bool) then
    choices ← py_getitem result "choices";
    match choices with
    | JArr [] | JStr EmptyString | JObj [] => Ok (JStr EmptyString)
    | JArr (first :: _) =>
        message ← py_getitem first "message";
        py_getitem message "content"
    | JStr (String c _) =>
        message ← py_getitem (JStr (String c EmptyString)) "message";
        py_getitem message "content"
    | JObj (_ :: _) => Raise KeyError
    | _ => Raise TypeError
    end
  else Ok (JStr EmptyString).

(** [_generate_groq] and [_generate_ollama] from the outcome of the request
    ([client.post], [raise_for_status], [response.json()]): the decoded body
    or what was raised. *)
Definition generate_groq (fetched : Py.result json) : Py.result json :=
  result ← fetched; groq_content result.

Definition generate_ollama (fetched : Py.result json) : Py.result json :=
  result ← fetched; py_get result "response" (JStr EmptyString).

Definition generate_once (c : LLMClient) (fetched : Py.result json)
  : Py.result json :=
  if String.eqb (provider c) "groq" then generate_groq fetched
  else generate_ollama fetched.

(** What a call under [@retry(stop=stop_after_attempt(3), ...)] ends in: the
    value of the first attempt that returns, with the number of attempts
    made, or a [RetryError] after the last attempt. *)
Inductive retried (A : Type) : Type :=
| Returned (a : A) (attempts : nat)
| RetryError (attempts : nat).
Arguments Returned {A} a attempts.
Arguments RetryError {A} attempts.

Fixpoint retry {A} (left : nat) (attempt : nat -> Py.result A) (made : nat)
  : retried A :=
  match left with
  | O => RetryError made
  | S left' =>
      match attempt made with
      | Ok a => Returned a (S made)
      | Raise _ => retry left' attempt (S made)
      end
  end.

(** [generate]: [fetched i] is the outcome of the request of attempt [i]. *)
Definition generate (c : LLMClient) (fetched : nat -> Py.result json)
  : retried json :=
  retry 3 (fun i => generate_once c (fetched i)) 0.

(** A backend's [/analyze] from the outcomes of the LLM requests. A value
    that is not a [str] fails at [raw_response[:500]] or inside [re.findall];
    that and a [RetryError] leave through [except Exception] as a 500. *)
Definition respond (py : interpreter) (k : kind) (c : LLMClient)
    (fetched : nat -> Py.result json) (now : string) : Py.result json :=
  match generate c fetched with
  | Returned (JStr raw_response) _ =>
      analyze py k raw_response (model c) now
  | Returned _ _ | RetryError _ => Raise (HTTPException 500)
  end.

End Client.

(* ===================================================================== *)
(** * The Lighthouse backend (lighthouse_mcp/main.py) *)
(* ===================================================================== *)
Module Lighthouse.
Import JsonText.

(** The response models' validation of each field is the framework's and is
    not modelled: a field holds the value the constructor is given, where
    the framework may convert it or refuse it (and the handler then answers
    500). *)

(** [x or 0] *)
Definition or_zero (x : json) : json := if truthy x then x else JInt 0.

Fixpoint repeat_string (n : nat) (s : string) : string :=
  match n with
  | O => EmptyString
  | S n' => s +:+ repeat_string n' s
  end.

(** [x * 100]: arithmetic on numbers, repetition on strings and lists. *)
Definition py_mul_100 (x : json) : result json :=
  match x with
  | JInt z => Ok (JInt (z * 100))
  | JBool b => Ok (JInt ((if b then 1 else 0) * 100))
  | JFloat f => Ok (JFloat (fmul f (nearest_float 100)))
  | JStr s => Ok (JStr (repeat_string 100 s))
  | JArr items => Ok (JArr (List.concat (repeat items 100)))
  | JNull | JObj _ => Raise TypeError
  end.

(** [int((data.get("score", 0) or 0) * 100)] *)
Definition percent (py : interpreter) (data : json) : result Z :=
  score ← py_get data "score" (JInt 0);
  scaled ← py_mul_100 (or_zero score);
  py_int py scaled.

(** [d.items()] *)
Definition py_items (d : json) : result (list (string * json)) :=
  match d with
  | JObj fields => Ok fields
  | _ => Raise AttributeError
  end.

(** One [CategoryScore(name=cat_id, score=.., description=..)]. *)
Definition category_score (py : interpreter) (item : string * json)
  : result json :=
  score ← percent py (snd item);
  description ← py_get (snd item) "description" JNull;
  Ok (JObj [("name", JStr (fst item)); ("score", JInt score);
            ("description", description)]).

(** [key_metrics] with the key each is reported under
    ([metric.replace("-", "_")]). *)
Definition key_metrics : list (string * string) :=
  [("first-contentful-paint", "first_contentful_paint");
   ("largest-contentful-paint", "largest_contentful_paint");
   ("total-blocking-time", "total_blocking_time");
   ("cumulative-layout-shift", "cumulative_layout_shift");
   ("speed-index", "speed_index")].

(** [if metric in audits_data: performance_metrics[..] =
    audits_data[metric].get("displayValue", "N/A")] *)
Fixpoint collect_metrics (metrics : list (string * string))
    (audits_data : json) (acc : list (string * json))
  : result (list (string * json)) :=
  match metrics with
  | [] => Ok acc
  | (metric, key) :: rest =>
      present ← py_in metric audits_data;
      if (present : bool) then
        audit ← py_getitem audits_data metric;
        value ← py_get audit "displayValue" (JStr "N/A");
        collect_metrics rest audits_data (dict_set key value acc)
      else collect_metrics rest audits_data acc
  end.

(** The response built from the output of a Lighthouse run. *)
Definition lighthouse_response (py : interpreter) (url : string)
    (raw_result : json) (now : string) : result json :=
  listed ← py_get raw_result "categories" (JObj []);
  items ← py_items listed;
  categories ← map_result (category_score py) items;
  audits_data ← py_get raw_result "audits" (JObj []);
  performance_metrics ← collect_metrics key_metrics audits_data [];
  listed' ← py_get raw_result "categories" (JObj []);
  perf_category ← py_get listed' "performance" (JObj []);
  overall_score ← percent py perf_category;
  Ok (JObj [("url", JStr url); ("overall_score", JInt overall_score);
            ("categories", JArr categories);
            ("performance_metrics", JObj performance_metrics);
            ("audits", JArr []); ("analyzed_at", JStr now)]).

(** What [subprocess.run] ends in. *)
Inductive process : Type :=
| Exited (returncode : Z) (stdout : string)
| TimeoutExpired
| OtherError.                       (* the command is missing, and so on *)

(** [check_lighthouse_available] *)
Definition check_lighthouse_available (version : process) : bool :=
  match version with
  | Exited returncode _ => returncode =? 0
  | _ => false
  end.

(** [run_lighthouse]; every failure is an exception, whatever its class. *)
Definition run_lighthouse (py : interpreter) (run : process)
  : option json :=
  match run with
  | Exited returncode stdout =>
      if returncode =? 0 then
        match json_loads py stdout with
        | Ok raw_result => Some raw_result
        | Raise _ => None
        end
      else None
  | _ => None
  end.

(** The numbers [simulate_lighthouse_result] draws from [random], the five
    metrics as the texts the format strings make of them. *)
Record draws : Type := {
  drawn_overall : Z;                 (* randint(60, 95) *)
  drawn_performance : Z;             (* randint(50, 100) *)
  drawn_accessibility : Z;           (* randint(70, 100) *)
  drawn_best_practices : Z;          (* randint(60, 100) *)
  drawn_seo : Z;                     (* randint(80, 100) *)
  drawn_first_contentful_paint : string;
  drawn_largest_contentful_paint : string;
  drawn_total_blocking_time : string;
  drawn_cumulative_layout_shift : string;
  drawn_speed_index : string
}.

(** [POST /analyze] of the Lighthouse backend; whatever is raised inside
    the [try] leaves as a 500. *)
Definition analyze_url (py : interpreter) (url : string)
    (version run : process) (random : draws) (now : string) : result json :=
  if check_lighthouse_available version then
    match run_lighthouse py run with
    | Some raw_result =>
        match lighthouse_response py url raw_result now with
        | Ok response => Ok response
        | Raise _ => Raise (HTTPException 500)
        end
    | None => Raise (HTTPException 500)
    end
  else
    let category name score :=
      JObj [("name", JStr name); ("score", JInt score);
            ("description", JNull)] in
    Ok (JObj [("url", JStr url);
              ("overall_score", JInt (drawn_overall random));
              ("categories",
               JArr [category "performance" (drawn_performance random);
                     category "accessibility" (drawn_accessibility random);
                     category "best-practices" (drawn_best_practices random);
                     category "seo" (drawn_seo random)]);
              ("performance_metrics",
               JObj [("first_contentful_paint",
                      JStr (drawn_first_contentful_paint random));
                     ("largest_contentful_paint",
                      JStr (drawn_largest_contentful_paint random));
                     ("total_blocking_time",
                      JStr (drawn_total_blocking_time random));
                     ("cumulative_layout_shift",
                      JStr (drawn_cumulative_layout_shift random));
                     ("speed_index", JStr (drawn_speed_index random))]);
              ("audits", JArr []); ("analyzed_at", JStr now)]).

(** The score a response lists for a category, if it lists the category. *)
Fixpoint listed_score (name : string) (categories : list json)
  : option json :=
  match categories with
  | [] => None
  | c :: rest =>
      match c with
      | JObj fields =>
          if is_str name (default_of (dict_lookup "name" fields) JNull)
          then dict_lookup "score" fields
          else listed_score name rest
      | _ => listed_score name rest
      end
  end.

(** The Lighthouse score of [n] hundredths as [json.loads] reads it from
    the run's output. *)
Definition hundredths (n : Z) : json := JFloat (decimal_float false n (-2)).

(** Whether [percent] of [n] hundredths is [n], or is [n - 1] with [n]
    among the listed exceptions. *)
Definition percent_checked (py : interpreter) (exceptions : list Z) (n : Z)
  : bool :=
  match percent py (JObj [("score", hundredths n)]) with
  | Ok v => if existsb (Z.eqb n) exceptions then v =? n - 1 else v =? n
  | Raise _ => false
  end.

End Lighthouse.

(* ===================================================================== *)
(** * Further vocabulary of the statements *)
(* ===================================================================== *)
Module Notions.
Import Level Gateway.

(** The least xp of level [n + 1]: the sum of the first [n] thresholds. *)
Definition level_floor (n : nat) : Z :=
  fold_right Z.add 0 (map thr (seq 0 n)).

(** The sum of the [m] thresholds from the [i]-th on. *)
Definition thresholds_from (i m : nat) : Z :=
  fold_right Z.add 0 (map thr (seq i m)).

(** The four kinds in the order of the fan-out. *)
Definition kinds : list kind := [CodeQuality; Architecture; EventLoop; Cost].

(** The messages of the error entries of a log. *)
Definition error_log (t : list event) : list string :=
  flat_map (fun e => match e with LoggedError m => [m] | _ => [] end) t.

(** A call whose [try] block raises: a timeout, a transport failure, or a
    200 whose body [resp.json()] cannot decode. *)
Definition raised (o : http_outcome) : bool :=
  match o with
  | TimedOut | TransportFailed => true
  | Responded status_code (Raise _) => status_code =? 200
  | Responded _ (Ok _) => false
  end.

(** The report column and the score column of a kind in a stored row. *)
Definition report_column (k : kind) (row : report_row) : option json :=
  match k with
  | CodeQuality => row_code_quality_report row
  | Architecture => row_architecture_report row
  | EventLoop => row_event_loop_report row
  | Cost => row_cost_report row
  end.

Definition score_column (k : kind) (row : report_row) : json :=
  match k with
  | CodeQuality => row_code_quality_score row
  | Architecture => row_architecture_score row
  | EventLoop => row_event_loop_score row
  | Cost => row_efficiency_score row
  end.

(** The key of a kind's sub-report in a report document. *)
Definition report_key (k : kind) : string :=
  match k with
  | CodeQuality => "code_quality"
  | Architecture => "architecture"
  | EventLoop => "event_loop"
  | Cost => "cost_analysis"
  end.

Definition is_object (j : json) : bool :=
  match j with JObj _ => true | _ => false end.

(** What a document holds under a key, NULL when it holds nothing there. *)
Definition get_or_null (key : string) (j : json) : json :=
  match j with
  | JObj fields => default_of (dict_lookup key fields) JNull
  | _ => JNull
  end.

(** What a sub-report holds under its kind's score key. *)
Definition score_in (k : kind) (j : json) : json :=
  get_or_null (score_key k) j.

(** The user row after a credit of [xp] that stores level [lvl]. *)
Definition credited (xp lvl : Z) (u : user_row) : user_row :=
  {| xp_total := xp_total u + xp; level := lvl |}.

(** The literal character every match of a pattern starts with, if the
    pattern starts with one. *)
Fixpoint head_lit (r : Re.regex) : option ascii :=
  match r with
  | Re.Lit c => Some c
  | Re.Seq r1 _ => head_lit r1
  | Re.Group r1 => head_lit r1
  | _ => None
  end.

(** Whether a text starts with a character. *)
Definition starts_with (c : ascii) (s : string) : bool :=
  match s with
  | String a _ => Ascii.eqb a c
  | EmptyString => false
  end.

(** The index of the last occurrence of a character in a text. *)
Fixpoint last_index (c : ascii) (s : string) : option nat :=
  match s with
  | EmptyString => None
  | String a rest =>
      match last_index c rest with
      | Some p => Some (S p)
      | None => if Ascii.eqb a c then Some 0%nat else None
      end
  end.

(** The character does not occur in the text. *)
Definition lacks (c : ascii) (s : string) : Prop := last_index c s = None.

(** The part of a text from the first [opening] to the last [closing]
    after it. *)
Fixpoint brace_span (opening closing : ascii) (s : string) : option string :=
  match s with
  | EmptyString => None
  | String a rest =>
      if Ascii.eqb a opening then
        match last_index closing rest with
        | Some p => Some (String a (str_take (S p) rest))
        | None => None
        end
      else brace_span opening closing rest
  end.

(** [\o[\s\S]*\c] for two characters: the shape of the object and of the
    array pattern. *)
Definition greedy_span (opening closing : ascii) : Re.regex :=
  Re.Seq (Re.Lit opening) (Re.Seq (Re.Star Re.any_char) (Re.Lit closing)).

(** Whether a text starts with white space, and whether it ends with a
    character that is not white space. *)
Definition head_space (s : string) : bool :=
  match s with
  | String c _ => is_space c
  | EmptyString => false
  end.

Fixpoint ends_nonspace (s : string) : bool :=
  match s with
  | EmptyString => false
  | String c EmptyString => negb (is_space c)
  | String _ rest => ends_nonspace rest
  end.

(** The shape of the two fence patterns: an opening text, [\s*], the lazy
    group, [\s*] and three backticks. *)
Definition fence (opening : string) : Re.regex :=
  Re.Seq (Re.lits opening)
    (Re.Seq (Re.Star is_space)
       (Re.Seq (Re.Group (Re.LazyStar Re.any_char))
          (Re.Seq (Re.Star is_space) (Re.lits "```")))).

(** The non-empty sets of present kinds, in the order of the source. *)
Definition patterns : list (list kind) :=
  (ScoreRange.partial_patterns ++ [kinds])%list.

(** The scores a single present kind composes to one point less than
    itself. *)
Definition short_scores (k : kind) : list Z :=
  match k with
  | CodeQuality => [31; 57; 62]
  | EventLoop => [43; 81; 86; 91]
  | Architecture | Cost => []
  end.

(** Whether the composition of the same score [s] for each kind of [ks] is
    [s] or [s - 1], and, for a single kind, is [s - 1] exactly at that
    kind's [short_scores]. *)
Definition unanimous_checked (ks : list kind) (s : Z) : bool :=
  match truncated_weighted_mean (map (fun k => (k, s)) ks) with
  | Ok v =>
      ((v =? s) || (v =? s - 1))
      && match ks with
         | [k] => Bool.eqb (v =? s - 1) (existsb (Z.eqb s) (short_scores k))
         | _ => true
         end
  | Raise _ => false
  end.

(** Text made of white space only (the empty text included). *)
Fixpoint blank (s : string) : bool :=
  match s with
  | EmptyString => true
  | String c rest => is_space c && blank rest
  end.

End Notions.

(* ===================================================================== *)
(** * The values of the sum of the products *)
(* ===================================================================== *)
Module ScoreSums.
Import Gateway ScoreRange Notions.

(** Whether two floats are the same float. *)
Definition same (x y : float) : bool := PrimFloat.Leibniz.eqb x y.

(** The merge of two lists, ascending where they are, with one copy of a
    float both start with. *)
Fixpoint merge (l1 : list float) : list float -> list float :=
  fix merge_into (l2 : list float) : list float :=
    match l1, l2 with
    | [], _ => l2
    | _, [] => l1
    | x :: rest1, y :: rest2 =>
        if PrimFloat.ltb x y then x :: merge rest1 l2
        else if PrimFloat.ltb y x then y :: merge_into rest2
        else if same x y then x :: merge rest1 rest2
        else x :: y :: merge rest1 rest2
    end.

(** A list without the repetitions of a float next to itself. *)
Fixpoint squeeze (l : list float) : list float :=
  match l with
  | x :: (y :: _) as rest =>
      if same x y then squeeze rest else x :: squeeze rest
  | _ => l
  end.

(** The sums [acc + p] of the accumulators and the products of one kind. *)
Definition add_all (accs ps : list float) : list float :=
  fold_left
    (fun out p => merge out (squeeze (map (fun acc => fadd acc p) accs)))
    ps [].

(** The values the running sum of the products can take after the kinds
    [ks], from the given values on. *)
Definition sums_from (accs : list float) (ks : list kind) : list float :=
  fold_left (fun accs k => add_all accs (products k)) ks accs.

(** Whether [tw] is not zero and every sum [acc + p] of one of [accs] and
    one of [last], divided by [tw], is a float in [0, bound). *)
Definition quotients_ok (tw bound : float) (last accs : list float) : bool :=
  negb (PrimFloat.is_zero tw)
  && forallb (fun acc =>
                forallb (fun p => in_range bound
                                    (PrimFloat.div (fadd acc p) tw)) last)
       accs.

End ScoreSums.

(* ===================================================================== *)
(** * Further concrete worlds and documents *)
(* ===================================================================== *)
Module Cases.
Import Gateway Sample.

(** The architecture backend answers 200 with a JSON array. *)
Definition array_body : world :=
  world_of (outcomes (scoring CodeQuality 80)
              (Responded 200 (Ok (JArr [JInt 1])))
              (scoring EventLoop 80) (scoring Cost 80))
    (latencies 1 1 1 1) (Some one_user) false.

(** The world after one analysis of [all_fifty]: its report is stored, and
    the clock reading of the identifier has not moved on. *)
Definition same_second : world :=
  match analyze_code (request_for (Some "p1") (Some "u1")) all_fifty with
  | Some (_, w') => w'
  | None => all_fifty
  end.

(** A report document whose event-loop backend had failed. *)
Definition report_with_null : list (string * json) :=
  [("report_id", JStr "RPT-2"); ("overall_score", JInt 80);
   ("code_quality", JObj [("score", JInt 80)]); ("event_loop", JNull)].

(** An LLM answer that is a JSON array. *)
Definition array_answer : string := "[1, 2]".

(** A report document as the gateway returns it, every backend present. *)
Definition gateway_report : list (string * json) :=
  [("report_id", JStr "RPT-3"); ("overall_score", JInt 50);
   ("status", JStr "needs_improvement");
   ("code_quality", Llm.degraded CodeQuality "llama3" "2026-01-01T12:00:00");
   ("architecture", Llm.degraded Architecture "llama3" "2026-01-01T12:00:00");
   ("event_loop", Llm.degraded EventLoop "llama3" "2026-01-01T12:00:00");
   ("cost_analysis", Llm.degraded Cost "llama3" "2026-01-01T12:00:00")].

(** An object between two lines of prose. *)
Definition object_in_prose : string :=
  "Here is the result: {" +:+ quoted "score" +:+ ": 70} Hope it helps.".

(** The database is up, Ollama is down and four of the five services are
    unreachable; the fifth answers 500. *)
Definition one_service_answers : Health.probes :=
  {| Health.select_one := Some true;
     Health.ollama_probe := TransportFailed;
     Health.mcp_probe := fun m =>
       match m with
       | Health.cost => Responded 500 (Raise JSONDecodeError)
       | _ => TimedOut
       end |}.

(** A Groq completion without choices, and a client configured for Groq. *)
Definition no_choices : json :=
  JObj [("id", JStr "cmpl-1"); ("choices", JArr [])].

Definition groq_settings : Client.settings :=
  {| Client.LLM_PROVIDER := "Groq"; Client.GROQ_API_KEY := "gsk-key";
     Client.GROQ_MODEL := "llama-3.1-8b-instant";
     Client.OLLAMA_URL := "http://ollama:11434";
     Client.OLLAMA_MODEL := "llama3" |}.

(** Requests that fail twice and then return an Ollama body. *)
Definition third_time_lucky (i : nat) : Py.result json :=
  match i with
  | 2%nat => Ok (JObj [("response", JStr no_json)])
  | _ => Raise DatabaseError
  end.

(** A working Lighthouse whose run audited performance only, with score
    0.29. *)
Definition version_ok : Lighthouse.process :=
  Lighthouse.Exited 0 "10.4.0".

Definition run_printed_performance_only : Lighthouse.process :=
  Lighthouse.Exited 0
    ("{" +:+ quoted "categories" +:+ ": {" +:+ quoted "performance"
     +:+ ": {" +:+ quoted "score" +:+ ": 0.29}}}").

Definition some_draws : Lighthouse.draws :=
  {| Lighthouse.drawn_overall := 95;
     Lighthouse.drawn_performance := 50;
     Lighthouse.drawn_accessibility := 70;
     Lighthouse.drawn_best_practices := 60;
     Lighthouse.drawn_seo := 80;
     Lighthouse.drawn_first_contentful_paint := "1.2s";
     Lighthouse.drawn_largest_contentful_paint := "2.5s";
     Lighthouse.drawn_total_blocking_time := "120ms";
     Lighthouse.drawn_cumulative_layout_shift := "0.100";
     Lighthouse.drawn_speed_index := "3.0s" |}.

(** A fenced object between prose with braces of its own. *)
Definition fenced_in_prose : string :=
  "Use {braces} freely. ```json" +:+ newline +:+ "{" +:+ quoted "score"
  +:+ ": 70}" +:+ newline +:+ "``` Or {not}.".

(** Every backend is down; the user is stored at level 5. *)
Definition all_down : world :=
  world_of (fun _ => TimedOut) (latencies 120 120 120 120)
    (Some one_user) false.

(** Only the code-quality backend answers, with score 31. *)
Definition only_thirty_one : results :=
  {| r_code_quality := JObj [("score", JInt 31)];
     r_architecture := JNull; r_event_loop := JNull; r_cost := JNull |}.

(** Four backends that each answer with their degraded response. *)
Definition all_degraded : world :=
  world_of (fun k => Responded 200
                       (Ok (Llm.degraded k "llama3" "2026-01-01T12:00:00")))
    (latencies 1 1 1 1) (Some one_user) false.

(** Four backends of which each answers what its handler makes of an
    LLM text. *)
Definition own_backends : world :=
  world_of
    (fun k => match Llm.analyze cpython k analysis_with_marker_keys "llama3"
                      "2026-01-01T12:00:00" with
              | Ok j => Responded 200 (Ok j)
              | Raise _ => Responded 500 (Raise JSONDecodeError)
              end)
    (latencies 1 1 1 1) (Some one_user) false.

End Cases.

(*PART2*)

(* ===================================================================== *)
(** * Facts: levelling *)
(* ===================================================================== *)
Module LevelFacts.
Import Level.

Lemma thr_succ i : thr (S i) = thr i * 3 / 2.
Proof. reflexivity. Qed.

Lemma thr_lower i : 100 <= thr i.
Proof.
  induction i as [|i IH]; [cbn; lia|].
  rewrite thr_succ. etransitivity; [exact IH|].
  apply Z.div_le_lower_bound; lia.
Qed.

Lemma thr_step_le i : thr i <= thr (S i).
Proof.
  rewrite thr_succ. pose proof (thr_lower i).
  apply Z.div_le_lower_bound; lia.
Qed.

Lemma thr_mono i j : (i <= j)%nat -> thr i <= thr j.
Proof.
  induction 1 as [|j _ IH]; [lia|].
  etransitivity; [exact IH | apply thr_step_le].
Qed.

Lemma thresholds_agree_80 : thresholds_agree 80 = true.
Proof. vm_compute. reflexivity. Qed.

Lemma next_threshold_thr i :
  (i < 80)%nat -> next_threshold (thr i) = Ok (thr (S i)).
Proof.
  intros Hi. pose proof thresholds_agree_80 as H.
  unfold thresholds_agree in H. rewrite forallb_forall in H.
  specialize (H i). destruct (next_threshold (thr i)) as [t|e].
  - f_equal. apply Z.eqb_eq, H, in_seq. lia.
  - discriminate H. apply in_seq. lia.
Qed.

Lemma thr_80_large : 2 ^ 53 <= thr 80.
Proof. vm_compute. discriminate. Qed.

Lemma thr_small_index i : thr i < 2 ^ 53 -> (i < 80)%nat.
Proof.
  intros H. destruct (le_lt_dec 80 i) as [Hge|]; [|assumption].
  pose proof (thr_mono _ _ Hge). pose proof thr_80_large. lia.
Qed.

(** Below 2^53 the float round trip of [calculate_level] is exact, and the
    loop follows the reference loop step for step. *)
Lemma loops_agree fuel : forall i level r,
  r < 2 ^ 53 ->
  calculate_level_loop fuel level (thr i) r
  = Ok <$> level_ref_loop fuel level (thr i) r.
Proof.
  induction fuel as [|fuel IH]; intros i level r Hr; [reflexivity|].
  cbn [calculate_level_loop level_ref_loop].
  destruct (r >=? thr i) eqn:Hge; [|reflexivity].
  apply Z.geb_le in Hge.
  rewrite next_threshold_thr by (apply thr_small_index; lia).
  rewrite <- thr_succ. apply IH. pose proof (thr_lower i). lia.
Qed.

Lemma level_ref_fuel_mono fuel : forall fuel' level t r v,
  level_ref_loop fuel level t r = Some v ->
  (fuel <= fuel')%nat ->
  level_ref_loop fuel' level t r = Some v.
Proof.
  induction fuel as [|fuel IH]; intros fuel' level t r v H Hle;
    [discriminate|].
  destruct fuel' as [|fuel']; [lia|].
  cbn [level_ref_loop] in *.
  destruct (r >=? t); [|assumption].
  apply IH; [assumption | lia].
Qed.

Lemma level_ref_ge_start fuel : forall level t r v,
  level_ref_loop fuel level t r = Some v -> level <= v.
Proof.
  induction fuel as [|fuel IH]; intros level t r v H; [discriminate|].
  cbn [level_ref_loop] in H. destruct (r >=? t).
  - apply IH in H. lia.
  - injection H as <-. lia.
Qed.

(** More remaining xp never gives a lower level. *)
Lemma level_ref_loop_mono fuel : forall level t r1 r2 v1 v2,
  r1 <= r2 ->
  level_ref_loop fuel level t r1 = Some v1 ->
  level_ref_loop fuel level t r2 = Some v2 ->
  v1 <= v2.
Proof.
  induction fuel as [|fuel IH]; intros level t r1 r2 v1 v2 Hle H1 H2;
    [discriminate|].
  cbn [level_ref_loop] in H1, H2.
  destruct (r1 >=? t) eqn:G1, (r2 >=? t) eqn:G2.
  - eapply IH; [|exact H1|exact H2]. lia.
  - apply Z.geb_le in G1. rewrite Z.geb_leb in G2.
    apply Z.leb_gt in G2. lia.
  - injection H1 as <-. apply level_ref_ge_start in H2. lia.
  - injection H1 as <-. injection H2 as <-. lia.
Qed.

(** Two rounds at least double the threshold, so [2k+1] rounds settle every
    remaining xp below [t * 2^k]. *)
Lemma level_ref_terminates k : forall level t r,
  5 <= t -> r < t * 2 ^ Z.of_nat k ->
  exists v, level_ref_loop (S (2 * k)) level t r = Some v.
Proof.
  induction k as [|k IH]; intros level t r Ht Hr.
  - cbn [Nat.mul level_ref_loop]. cbn in Hr.
    destruct (r >=? t) eqn:G; [|eauto].
    apply Z.geb_le in G. lia.
  - replace (S (2 * S k)) with (S (S (S (2 * k)))) by lia.
    cbn [level_ref_loop].
    destruct (r >=? t) eqn:G1; [|eauto].
    destruct (r - t >=? t * 3 / 2) eqn:G2; [|eauto].
    apply Z.geb_le in G1, G2.
    assert (Ht1 : t <= t * 3 / 2) by (apply Z.div_le_lower_bound; lia).
    assert (Ht2 : 2 * t <= t * 3 / 2 * 3 / 2).
    { apply Z.div_le_lower_bound; [lia|].
      assert (3 * t - 1 <= 2 * (t * 3 / 2)); [|lia].
      pose proof (Z.div_mod (t * 3) 2 ltac:(lia)).
      pose proof (Z.mod_pos_bound (t * 3) 2 ltac:(lia)). lia. }
    apply IH; [lia|].
    rewrite Nat2Z.inj_succ, Z.pow_succ_r in Hr by lia.
    assert (0 < 2 ^ Z.of_nat k) by (apply Z.pow_pos_nonneg; lia).
    nia.
Qed.

Lemma level_ref_total xp : exists v, level_ref xp = Some v.
Proof.
  unfold level_ref, level_fuel. apply level_ref_terminates; [lia|].
  destruct (Z.le_gt_cases xp 0) as [Hn|Hp].
  - assert (0 < 2 ^ Z.of_nat (Z.to_nat (Z.log2 xp)))
      by (apply Z.pow_pos_nonneg; lia). lia.
  - rewrite Z2Nat.id by apply Z.log2_nonneg.
    pose proof (Z.log2_spec xp Hp) as [_ Hlt].
    rewrite Z.pow_succ_r in Hlt by apply Z.log2_nonneg. lia.
Qed.

Lemma calculate_level_ref xp :
  xp < 2 ^ 53 -> calculate_level xp = Ok <$> level_ref xp.
Proof. intros H. apply (loops_agree _ 0%nat). exact H. Qed.

Lemma level_ref_mono x y vx vy :
  x <= y -> level_ref x = Some vx -> level_ref y = Some vy -> vx <= vy.
Proof.
  unfold level_ref. intros Hle Hx Hy.
  set (f := Nat.max (level_fuel x) (level_fuel y)).
  apply (level_ref_fuel_mono _ f) in Hx; [|lia].
  apply (level_ref_fuel_mono _ f) in Hy; [|lia].
  eapply level_ref_loop_mono; eauto.
Qed.

Lemma thr_sum_succ i n : thr_sum i (S n) = thr i + thr_sum (S i) n.
Proof. reflexivity. Qed.

(** The first threshold that binary64 gets wrong: 1.5 times the 81st is a
    tie, rounded up by two. *)
Lemma next_threshold_80 : next_threshold (thr 80) = Ok (thr 81 + 2).
Proof. vm_compute. reflexivity. Qed.

(** While the remaining xp is below the sum of the reference thresholds up
    to the 82nd, the loop of [calculate_level] follows the reference loop:
    the 82nd threshold, the first that differs, is never reached. *)
Lemma loops_agree_below_83 fuel : forall i n level r,
  (i <= 80)%nat -> (i + n = 82)%nat -> r < thr_sum i n ->
  calculate_level_loop fuel level (thr i) r
  = Ok <$> level_ref_loop fuel level (thr i) r.
Proof.
  induction fuel as [|fuel IH]; intros i n level r Hi Hn Hr; [reflexivity|].
  cbn [calculate_level_loop level_ref_loop].
  destruct (r >=? thr i) eqn:Hge; [|reflexivity].
  apply Z.geb_le in Hge.
  destruct n as [|n]; [lia|]. rewrite thr_sum_succ in Hr.
  destruct (decide (i = 80)%nat) as [->|Hne].
  - rewrite next_threshold_80.
    assert (n = 1%nat) as -> by lia.
    change (thr_sum 81 1) with (thr 81 + 0) in Hr.
    rewrite <- thr_succ.
    destruct fuel as [|fuel]; [reflexivity|].
    cbn [calculate_level_loop level_ref_loop].
    replace (r - thr 80 >=? thr 81 + 2) with false
      by (symmetry; rewrite Z.geb_leb; apply Z.leb_gt; lia).
    replace (r - thr 80 >=? thr 81) with false
      by (symmetry; rewrite Z.geb_leb; apply Z.leb_gt; lia).
    reflexivity.
  - rewrite next_threshold_thr by lia.
    rewrite <- thr_succ. apply (IH _ n); lia.
Qed.

Lemma thr_sum_82 : thr_sum 0 82 = 54787833284357819.
Proof. vm_compute. reflexivity. Qed.

Lemma calculate_level_ref_below_83 xp :
  xp < 54787833284357819 -> calculate_level xp = Ok <$> level_ref xp.
Proof.
  intros H. rewrite <- thr_sum_82 in H.
  unfold calculate_level, level_ref. change 100 with (thr 0).
  apply (loops_agree_below_83 _ 0%nat 82%nat); [lia|reflexivity|exact H].
Qed.

Lemma calculate_level_fuel_mono fuel : forall fuel' level t r v,
  calculate_level_loop fuel level t r = Some v ->
  (fuel <= fuel')%nat ->
  calculate_level_loop fuel' level t r = Some v.
Proof.
  induction fuel as [|fuel IH]; intros fuel' level t r v H Hle;
    [discriminate|].
  destruct fuel' as [|fuel']; [lia|].
  cbn [calculate_level_loop] in *.
  destruct (r >=? t); [|assumption].
  destruct (next_threshold t); [|assumption].
  apply IH; [assumption | lia].
Qed.

Lemma calculate_level_ge_start fuel : forall level t r v,
  calculate_level_loop fuel level t r = Some (Ok v) -> level <= v.
Proof.
  induction fuel as [|fuel IH]; intros level t r v H; [discriminate|].
  cbn [calculate_level_loop] in H. destruct (r >=? t).
  - destruct (next_threshold t); [|discriminate]. apply IH in H. lia.
  - injection H as <-. lia.
Qed.

(** The thresholds of the loop do not depend on the xp: more remaining xp
    passes every threshold that less xp passes. *)
Lemma calculate_level_loop_mono fuel : forall level t r1 r2 v1 v2,
  r1 <= r2 ->
  calculate_level_loop fuel level t r1 = Some (Ok v1) ->
  calculate_level_loop fuel level t r2 = Some (Ok v2) ->
  v1 <= v2.
Proof.
  induction fuel as [|fuel IH]; intros level t r1 r2 v1 v2 Hle H1 H2;
    [discriminate|].
  cbn [calculate_level_loop] in H1, H2.
  destruct (r1 >=? t) eqn:G1, (r2 >=? t) eqn:G2.
  - destruct (next_threshold t); [|discriminate].
    eapply IH; [|exact H1|exact H2]. lia.
  - apply Z.geb_le in G1. rewrite Z.geb_leb in G2.
    apply Z.leb_gt in G2. lia.
  - injection H1 as <-. destruct (next_threshold t); [|discriminate].
    apply calculate_level_ge_start in H2. lia.
  - injection H1 as <-. injection H2 as <-. lia.
Qed.

Lemma calculate_level_mono x y lx ly :
  x <= y -> calculate_level x = Some (Ok lx) ->
  calculate_level y = Some (Ok ly) -> lx <= ly.
Proof.
  unfold calculate_level. intros Hle Hx Hy.
  set (f := Nat.max (level_fuel x) (level_fuel y)).
  apply (calculate_level_fuel_mono _ f) in Hx; [|lia].
  apply (calculate_level_fuel_mono _ f) in Hy; [|lia].
  eapply calculate_level_loop_mono; eauto.
Qed.

Lemma table_chained : chained 100 threshold_table = true.
Proof. vm_compute. reflexivity. Qed.

Lemma table_fuel_ok : fuel_ok 0 0 100 threshold_table = true.
Proof. vm_compute. reflexivity. Qed.

Lemma table_nonneg : forallb (fun t => 0 <=? t) threshold_table = true.
Proof. vm_compute. reflexivity. Qed.

Lemma overflow_xp_sum :
  overflow_xp = 100 + fold_right Z.add 0 threshold_table.
Proof. vm_compute. reflexivity. Qed.

(** With fuel for the rounds the loop goes through the thresholds. *)
Lemma loop_chained rest : forall t level r fuel,
  chained t rest = true -> (rounds t rest r < fuel)%nat ->
  calculate_level_loop fuel level t r = Some (level_after t rest level r).
Proof.
  induction rest as [|t' rest IH]; intros t level r fuel C F;
    (destruct fuel as [|fuel]; [lia|]);
    cbn [calculate_level_loop level_after rounds chained] in *;
    destruct (r >=? t); try reflexivity.
  - destruct (next_threshold t) as [u|[]]; try discriminate C. reflexivity.
  - destruct (next_threshold t) as [u|e]; [|discriminate C].
    apply andb_prop in C as [E C]. apply Z.eqb_eq in E. subst u.
    apply IH; [exact C | lia].
Qed.

(** The rounds of an xp are at most twice its bit length. *)
Lemma rounds_bound rest : forall t j cum r,
  fuel_ok j cum t rest = true ->
  rounds t rest r = 0%nat
  \/ Z.of_nat (j + rounds t rest r) <= 2 * Z.log2 (cum + r).
Proof.
  induction rest as [|t' rest IH]; intros t j cum r F;
    cbn [rounds fuel_ok] in *; apply andb_prop in F as [F1 F2];
    apply Z.leb_le in F1;
    (destruct (r >=? t) eqn:G; [apply Z.geb_le in G | left; reflexivity]);
    right;
    assert (L : Z.log2 (cum + t) <= Z.log2 (cum + r))
      by (apply Z.log2_le_mono; lia).
  - lia.
  - destruct (IH t' (S j) (cum + t) (r - t) F2) as [R|R].
    + rewrite R. lia.
    + replace (cum + t + (r - t)) with (cum + r) in R by lia. lia.
Qed.

(** [calculate_level] on every xp: the level after the thresholds the xp
    passes, or the [OverflowError] of the threshold beyond the last float. *)
Lemma calculate_level_outcome xp :
  calculate_level xp = Some (level_after 100 threshold_table 1 xp).
Proof.
  unfold calculate_level. apply loop_chained; [apply table_chained|].
  destruct (rounds_bound threshold_table 100 0%nat 0 xp table_fuel_ok)
    as [R|R]; unfold level_fuel.
  - rewrite R. lia.
  - rewrite Z.add_0_l, Nat.add_0_l in R. pose proof (Z.log2_nonneg xp).
    lia.
Qed.

Lemma level_after_below rest : forall t level r,
  r < t + fold_right Z.add 0 rest ->
  exists l, level_after t rest level r = Ok l.
Proof.
  induction rest as [|t' rest IH]; intros t level r H;
    cbn [level_after fold_right] in *;
    (destruct (r >=? t) eqn:G; [apply Z.geb_le in G | eauto]).
  - lia.
  - apply IH. lia.
Qed.

Lemma level_after_beyond rest : forall t level r,
  t + fold_right Z.add 0 rest <= r -> List.Forall (fun t => 0 <= t) rest ->
  level_after t rest level r = Raise OverflowError.
Proof.
  induction rest as [|t' rest IH]; intros t level r H P;
    cbn [level_after fold_right] in *.
  - replace (r >=? t) with true by (symmetry; apply Z.geb_le; lia).
    reflexivity.
  - inversion P as [|? ? P1 P2]. subst.
    assert (0 <= fold_right Z.add 0 rest).
    { clear -P2. induction P2; cbn; lia. }
    replace (r >=? t) with true by (symmetry; apply Z.geb_le; lia).
    apply IH; [lia | exact P2].
Qed.

Lemma calculate_level_returns_below xp :
  xp < overflow_xp -> exists l, calculate_level xp = Some (Ok l).
Proof.
  rewrite overflow_xp_sum. intros H. rewrite calculate_level_outcome.
  destruct (level_after_below threshold_table 100 1 xp H) as [l ->]. eauto.
Qed.

Lemma calculate_level_overflows xp :
  overflow_xp <= xp -> calculate_level xp = Some (Raise OverflowError).
Proof.
  rewrite overflow_xp_sum. intros H. rewrite calculate_level_outcome.
  f_equal. apply level_after_beyond; [exact H|].
  apply List.Forall_forall. intros t Ht.
  pose proof table_nonneg as P. rewrite forallb_forall in P.
  apply Z.leb_le, P, Ht.
Qed.

Lemma level_83_below_overflow : 54787833284357819 < overflow_xp.
Proof. vm_compute. reflexivity. Qed.

(** C9 (as stated): [calculate_level] equals the reference definition, as
    the claim has it for every xp. It does not: at the sum of the first 82
    reference thresholds (about 5.5e16) the reference reaches level 83, while
    the code's 82nd threshold, int(12175074063190660 * 1.5), is a tie that
    binary64 rounds up by two, so the code stays at level 82. *)
Lemma calculate_level_differs_beyond_2_53 :
  xp_level_83 = 54787833284357819 /\
  calculate_level xp_level_83 = Some (Ok 82) /\
  level_ref xp_level_83 = Some 83.
Proof. vm_compute. repeat split. Qed.

(** C9 (amended): for every xp below 54787833284357819, the least xp of
    level 83, [calculate_level] returns the level of the reference
    definition (level 1, threshold 100; while the remaining xp is at least
    the threshold: subtract it, increment the level, threshold :=
    floor(threshold * 1.5)); the bound is sharp. [calculate_level] returns a
    level for every xp below the sum of its 1740 thresholds (about
    4.99e308) and raises [OverflowError] from there on, where the next
    threshold is beyond the floats; over the xp for which it returns it is
    monotonic non-decreasing, with no other bound, because its thresholds
    do not depend on the xp. And calculate_level(0) = 1,
    calculate_level(100) = 2, calculate_level(250) = 3. *)
Theorem calculate_level_reference (x y : Z) :
  (x < 54787833284357819 ->
   exists l, calculate_level x = Some (Ok l) /\ level_ref x = Some l) /\
  (x <= y -> y < overflow_xp ->
   exists lx ly,
     calculate_level x = Some (Ok lx) /\ calculate_level y = Some (Ok ly) /\
     lx <= ly) /\
  (overflow_xp <= x -> calculate_level x = Some (Raise OverflowError)) /\
  54787833284357819 < overflow_xp /\
  calculate_level 0 = Some (Ok 1) /\
  calculate_level 100 = Some (Ok 2) /\
  calculate_level 250 = Some (Ok 3).
Proof.
  split; [|split; [|split; [|split; [|vm_compute; repeat split]]]].
  - intros Hx. destruct (level_ref_total x) as [l Hl]. exists l.
    rewrite calculate_level_ref_below_83 by exact Hx. rewrite Hl.
    split; reflexivity.
  - intros Hxy Hy.
    destruct (calculate_level_returns_below x) as [lx Hx]; [lia|].
    destruct (calculate_level_returns_below y Hy) as [ly Hly].
    exists lx, ly. split; [exact Hx|]. split; [exact Hly|].
    exact (calculate_level_mono x y lx ly Hxy Hx Hly).
  - apply calculate_level_overflows.
  - exact level_83_below_overflow.
Qed.

Lemma calculate_level_reference_witness :
  (exists l, calculate_level 54787833284357818 = Some (Ok l)
             /\ level_ref 54787833284357818 = Some l) /\
  (exists lx ly,
     calculate_level 54787833284357818 = Some (Ok lx) /\
     calculate_level 54787833284357819 = Some (Ok ly) /\ lx <= ly).
Proof.
  pose proof (calculate_level_reference
                54787833284357818 54787833284357819) as (A & M & _ & B & _).
  split; [apply A; lia|].
  apply M; [lia | exact B].
Defined.

End LevelFacts.

(* ===================================================================== *)
(** * Facts: the fan-out *)
(* ===================================================================== *)
Module FanOutFacts.
Import Gateway Sample.

(** What one call leaves behind, whatever its outcome. *)
Lemma post_spec k w :
  fst (post k w) = delivered (outcome (backends w k)) /\
  backends (snd (post k w)) = backends w /\
  clock (snd (post k w)) = clock w + latency (backends w k) /\
  db_pool (snd (post k w)) = db_pool w /\
  insert_fault (snd (post k w)) = insert_fault w /\
  update_fault (snd (post k w)) = update_fault w /\
  utcnow_stamp (snd (post k w)) = utcnow_stamp w /\
  utcnow_iso (snd (post k w)) = utcnow_iso w /\
  timeline (snd (post k w))
  = (timeline w ++ [Issued k (clock w);
                    Settled k (clock w + latency (backends w k))])%list.
Proof.
  unfold post, timeline.
  destruct (outcome (backends w k)) as [| |status_code [j|e]]; cbn;
    try destruct (status_code =? 200); cbn;
    rewrite ?List.filter_app; cbn; rewrite <- ?app_assoc, ?app_nil_r;
    repeat split; reflexivity.
Qed.

Lemma post_without_pool k w :
  post k (without_pool w)
  = (fst (post k w), without_pool (snd (post k w))).
Proof.
  unfold post. cbn.
  destruct (outcome (backends w k)) as [| |status_code [j|e]]; cbn;
    try destruct (status_code =? 200); reflexivity.
Qed.

(** The results of the fan-out and the world after it. *)
Lemma fan_out_spec w :
  let b := backends w in
  let t1 := clock w + latency (b CodeQuality) in
  let t2 := t1 + latency (b Architecture) in
  let t3 := t2 + latency (b EventLoop) in
  let t4 := t3 + latency (b Cost) in
  (forall k, result_of k (fst (fan_out w)) = delivered (outcome (b k))) /\
  clock (snd (fan_out w)) = t4 /\
  db_pool (snd (fan_out w)) = db_pool w /\
  insert_fault (snd (fan_out w)) = insert_fault w /\
  update_fault (snd (fan_out w)) = update_fault w /\
  utcnow_stamp (snd (fan_out w)) = utcnow_stamp w /\
  utcnow_iso (snd (fan_out w)) = utcnow_iso w /\
  timeline (snd (fan_out w))
  = (timeline w ++
     [Issued CodeQuality (clock w); Settled CodeQuality t1;
      Issued Architecture t1; Settled Architecture t2;
      Issued EventLoop t2; Settled EventLoop t3;
      Issued Cost t3; Settled Cost t4])%list.
Proof.
  cbv zeta. unfold fan_out.
  pose proof (post_spec CodeQuality w) as H1.
  destruct (post CodeQuality w) as [cq w1]. cbn [fst snd] in H1.
  pose proof (post_spec Architecture w1) as H2.
  destruct (post Architecture w1) as [ar w2]. cbn [fst snd] in H2.
  pose proof (post_spec EventLoop w2) as H3.
  destruct (post EventLoop w2) as [el w3]. cbn [fst snd] in H3.
  pose proof (post_spec Cost w3) as H4.
  destruct (post Cost w3) as [co w4]. cbn [fst snd] in H4.
  destruct H1 as (R1 & B1 & C1 & D1 & I1 & U1 & S1 & O1 & T1).
  destruct H2 as (R2 & B2 & C2 & D2 & I2 & U2 & S2 & O2 & T2).
  destruct H3 as (R3 & B3 & C3 & D3 & I3 & U3 & S3 & O3 & T3).
  destruct H4 as (R4 & B4 & C4 & D4 & I4 & U4 & S4 & O4 & T4).
  rewrite B3, B2, B1 in R4, C4, T4. rewrite B2, B1 in R3, C3, T3.
  rewrite B1 in R2, C2, T2.
  cbn [fst snd]. repeat split; try congruence.
  - intros []; cbn; assumption.
  - rewrite T4, T3, T2, T1, C3, C2, C1. rewrite <- !app_assoc. reflexivity.
Qed.

Lemma fan_out_without_pool w :
  fan_out (without_pool w)
  = (fst (fan_out w), without_pool (snd (fan_out w))).
Proof.
  unfold fan_out.
  rewrite (post_without_pool CodeQuality w).
  destruct (post CodeQuality w) as [cq w1]. cbn [fst snd].
  rewrite (post_without_pool Architecture w1).
  destruct (post Architecture w1) as [ar w2]. cbn [fst snd].
  rewrite (post_without_pool EventLoop w2).
  destruct (post EventLoop w2) as [el w3]. cbn [fst snd].
  rewrite (post_without_pool Cost w3).
  destruct (post Cost w3) as [co w4]. reflexivity.
Qed.

(** C6: the claim has the four backend calls of one request issued
    concurrently, the wall time being about the largest latency. The code
    awaits each call before it issues the next (under a comment that says
    "in parallel"): for every world the request takes the sum of the four
    latencies, and each call is issued at the instant the previous one
    settles; with latencies 30, 20, 10 and 40 the fan-out takes 100, not
    40. *)
Theorem fan_out_awaits_each_call_in_turn (w : world) :
  let b := backends w in
  let t1 := clock w + latency (b CodeQuality) in
  let t2 := t1 + latency (b Architecture) in
  let t3 := t2 + latency (b EventLoop) in
  let t4 := t3 + latency (b Cost) in
  clock (snd (fan_out w)) = t4 /\
  timeline (snd (fan_out w))
  = (timeline w ++
     [Issued CodeQuality (clock w); Settled CodeQuality t1;
      Issued Architecture t1; Settled Architecture t2;
      Issued EventLoop t2; Settled EventLoop t3;
      Issued Cost t3; Settled Cost t4])%list /\
  clock (snd (fan_out all_fifty)) - clock all_fifty = 100 /\
  Z.max (Z.max 30 20) (Z.max 10 40) = 40.
Proof.
  cbv zeta. pose proof (fan_out_spec w) as H. cbv zeta in H.
  destruct H as (_ & C & _ & _ & _ & _ & _ & T).
  repeat split; [exact C | exact T].
Qed.

End FanOutFacts.

(* ===================================================================== *)
(** * Facts: score composition *)
(* ===================================================================== *)
Module ScoreFacts.
Import Gateway Sample.

#[local] Opaque float_of_int weights fmul fadd fdiv int_of_float.

Lemma dict_lookup_nonempty key fields v :
  dict_lookup key fields = Some v -> fields <> [].
Proof. destruct fields; [discriminate | discriminate]. Qed.

(** The [if results[k] and key in results[k]] test picks exactly the
    sub-reports that carry a score. *)
Lemma score_entry_scored k r :
  result_of k r = JNull \/ is_Some (score_of k r) ->
  score_entry k r = Ok (map entry_of (present_score k r)).
Proof.
  unfold score_entry, present_score, score_of.
  intros [H|[s H]].
  - rewrite H. reflexivity.
  - destruct (result_of k r) as [| | | | |items|fields]; try discriminate.
    destruct (dict_lookup (score_key k) fields) as [v|] eqn:L;
      [|discriminate].
    destruct v; try discriminate. injection H as ->.
    destruct fields as [|field fields]; [discriminate|].
    cbn [truthy py_in py_getitem mbind result_bind].
    rewrite L. reflexivity.
Qed.

Lemma collect_scores_scored r :
  scored r -> collect_scores r = Ok (map entry_of (present_scores r)).
Proof.
  intros H. unfold collect_scores, present_scores.
  rewrite !score_entry_scored by apply H.
  cbn [mbind result_bind]. rewrite !map_app. reflexivity.
Qed.

Lemma products_of_entries present :
  map_result (fun s => py_mul_float (snd (fst s)) (snd s))
    (map entry_of present)
  = map_result (fun p => f ← float_of_int (snd p);
                         Ok (fmul f (weights (fst p)))) present.
Proof.
  induction present as [|p present IH]; [reflexivity|].
  cbn [map map_result]. rewrite IH. reflexivity.
Qed.

Lemma overall_score_of_entries present :
  overall_score_of (map entry_of present) = truncated_weighted_mean present.
Proof.
  destruct present as [|p present]; [reflexivity|].
  set (l := p :: present).
  transitivity
    (products ← map_result (fun s => py_mul_float (snd (fst s)) (snd s))
                  (map entry_of l);
     q ← fdiv (py_sum products) (py_sum (map snd (map entry_of l)));
     int_of_float q); [reflexivity|].
  rewrite products_of_entries, map_map. reflexivity.
Qed.

(** The score of a request is the truncated weighted mean of the scores
    its sub-reports carry. *)
Lemma overall_score_formula r :
  scored r ->
  collect_scores r ≫= overall_score_of
  = truncated_weighted_mean (present_scores r).
Proof.
  intros H. rewrite collect_scores_scored by exact H.
  cbn [mbind result_bind]. apply overall_score_of_entries.
Qed.

(** C2 (as stated): with code quality 90 and architecture 92 present the
    renormalised weighted mean is 50/0.55 = 90.9, which rounds to 91; the
    code returns 90. *)
Lemma overall_score_is_not_rounded :
  present_scores ninety_ninety_two
  = [(CodeQuality, 90); (Architecture, 92)] /\
  collect_scores ninety_ninety_two ≫= overall_score_of = Ok 90 /\
  rounded_weighted_mean (present_scores ninety_ninety_two) = 91.
Proof. vm_compute. repeat split. Qed.

(** C2 (amended): for every subset of present sub-reports carrying integer
    scores, [overall_score] is int(sum(score_i * weight_i) / sum(weight_i
    of the present kinds)) with the weights 0.3, 0.25, 0.2, 0.25: the
    quotient is taken in binary64 and truncated toward zero, not rounded;
    when no sub-report is present, [overall_score] is 0. *)
Theorem overall_score_truncates (r : results) :
  scored r ->
  collect_scores r ≫= overall_score_of
  = truncated_weighted_mean (present_scores r) /\
  (present_scores r = [] -> collect_scores r ≫= overall_score_of = Ok 0).
Proof.
  intros H. split; [apply overall_score_formula, H|].
  intros E. rewrite overall_score_formula, E by exact H. reflexivity.
Qed.

Lemma overall_score_truncates_witness :
  collect_scores ninety_ninety_two ≫= overall_score_of
  = truncated_weighted_mean [(CodeQuality, 90); (Architecture, 92)].
Proof.
  refine (proj1 (overall_score_truncates ninety_ninety_two _)).
  intros []; cbn; eauto.
Defined.

End ScoreFacts.

(* ===================================================================== *)
(** * Facts: persistence of an analysis *)
(* ===================================================================== *)
Module PersistFacts.
Import Level Gateway Sample.

Lemma calculate_level_returns xp :
  xp < 2 ^ 53 -> exists lvl, calculate_level xp = Some (Ok lvl).
Proof.
  intros H. rewrite LevelFacts.calculate_level_ref by exact H.
  destruct (LevelFacts.level_ref_total xp) as [lvl ->]. eauto.
Qed.

(** The database block always hands a world back: nothing it raises leaves
    the [try]. *)
Lemma save_report_returns request r id overall stat xp badges w :
  xp < 2 ^ 53 ->
  exists w', save_report request r id overall stat xp badges w = Some w' /\
             utcnow_iso w' = utcnow_iso w.
Proof.
  intros Hxp. destruct (calculate_level_returns xp Hxp) as [lvl Hl].
  unfold save_report. rewrite Hl.
  repeat case_match; eauto.
Qed.

(** With a failing INSERT the block logs and leaves the database alone. *)
Lemma save_report_insert_fails request r id overall stat xp badges w d :
  db_pool w = Some d ->
  truthy_str (project_id request) = true ->
  insert_fault w = true ->
  save_report request r id overall stat xp badges w
  = Some (emit save_failed w).
Proof.
  intros Hd Hp Hf. unfold save_report. rewrite Hd, Hp, Hf.
  destruct (score_param CodeQuality r); [|reflexivity].
  destruct (score_param Architecture r); [|reflexivity].
  destruct (score_param EventLoop r); [|reflexivity].
  destruct (score_param Cost r); reflexivity.
Qed.

Lemma save_report_without_pool request r id overall stat xp badges w :
  save_report request r id overall stat xp badges (without_pool w)
  = Some (without_pool w).
Proof. reflexivity. Qed.

(** C1: crediting a user must recompute the level from the new cumulative
    total. The UPDATE of [analyze_code] adds xp_earned to xp_total but
    stores calculate_level(xp_earned): a level-5 user with 1000 xp who earns
    500 ends with 1500 xp and level 4 = level(500), while level(1500) = 6. *)
Theorem credit_stores_level_of_the_delta :
  exists report w',
    analyze_code (request_for (Some "p1") (Some "u1")) all_fifty
    = Some (Ok report, w') /\
    xp_earned (rpg report) = 500 /\
    stored_users all_fifty !! "u1" = Some {| xp_total := 1000; level := 5 |} /\
    calculate_level 1000 = Some (Ok 5) /\
    stored_users w' !! "u1" = Some {| xp_total := 1500; level := 4 |} /\
    calculate_level 500 = Some (Ok 4) /\
    calculate_level 1500 = Some (Ok 6).
Proof. do 2 eexists. vm_compute. repeat split. Qed.

(** C8 (as stated): with [project_id] set and a failing write the endpoint
    is to raise. It returns the ordinary report; the failure is only
    logged. *)
Lemma failed_write_still_answers_normally :
  exists report w',
    analyze_code (request_for (Some "p1") (Some "u1")) all_fifty_insert_fails
    = Some (Ok report, w') /\
    overall_score report = 50 /\
    status report = "needs_improvement" /\
    stored_reports w' = ∅ /\
    last (trace w') = Some save_failed.
Proof. do 2 eexists. vm_compute. repeat split. Qed.

(** C8 (amended): when [POST /api/analyze] is called with [project_id] set
    and the persistence write fails, the endpoint catches the error, logs
    it, and answers exactly as it answers a request that asked for no
    persistence; the database is left as it was. *)
Theorem failed_write_is_logged_not_raised
    (request : AnalysisRequest) (w : world) (d : database) :
  db_pool w = Some d ->
  truthy_str (project_id request) = true ->
  insert_fault w = true ->
  exists x w',
    analyze_code request w = Some (x, w') /\
    fst <$> analyze_code request (without_pool w) = Some x /\
    db_pool w' = Some d /\
    (is_ok (score_results (fst (fan_out w))) = true ->
     last (trace w') = Some save_failed).
Proof.
  intros Hd Hp Hf. unfold analyze_code.
  rewrite FanOutFacts.fan_out_without_pool.
  pose proof (FanOutFacts.fan_out_spec w) as S. cbv zeta in S.
  destruct S as (_ & _ & D & I & _ & _ & _ & _).
  destruct (fan_out w) as [r w1]. cbn [fst snd] in *.
  destruct (score_results r) as [[[[overall stat] xp] badges]|e].
  - rewrite (save_report_insert_fails _ _ _ _ _ _ _ _ d) by congruence.
    rewrite save_report_without_pool. cbn.
    do 2 eexists. repeat split; [cbn; congruence|].
    intros _. unfold emit. cbn. apply last_snoc.
  - do 2 eexists. repeat split; [cbn; congruence | discriminate].
Qed.

Lemma failed_write_is_logged_not_raised_witness :
  exists x w',
    analyze_code (request_for (Some "p1") (Some "u1")) all_fifty_insert_fails
    = Some (x, w') /\
    fst <$> analyze_code (request_for (Some "p1") (Some "u1"))
              (without_pool all_fifty_insert_fails) = Some x /\
    db_pool w' = Some one_user /\
    (is_ok (score_results (fst (fan_out all_fifty_insert_fails))) = true ->
     last (trace w') = Some save_failed).
Proof.
  apply (failed_write_is_logged_not_raised
           (request_for (Some "p1") (Some "u1")) all_fifty_insert_fails
           one_user); reflexivity.
Defined.

End PersistFacts.

(* ===================================================================== *)
(** * Facts: the composition is defined on the scores 0..100 *)
(* ===================================================================== *)
Module RangeFacts.
Import Gateway ScoreRange.

Lemma digits2_pos_bound m : Z.pos m < 2 ^ Z.pos (digits2_pos m).
Proof.
  induction m as [m IH|m IH|]; cbn [digits2_pos];
    rewrite ?Pos2Z.inj_succ, ?Z.pow_succ_r by lia; lia.
Qed.

(** A valid binary64 mantissa is below 2^53. *)
Lemma valid_mantissa_bound m e :
  bounded prec emax m e = true -> Z.pos m < 2 ^ 53.
Proof.
  unfold bounded, canonical_mantissa, fexp, emin, prec, emax.
  intros H. apply andb_prop in H as [H _]. apply Z.eqb_eq in H.
  pose proof (digits2_pos_bound m) as D.
  assert (Z.pos (digits2_pos m) <= 53) by lia.
  eapply Z.lt_le_trans; [exact D|]. apply Z.pow_le_mono_r; lia.
Qed.

Lemma Prim2SF_zero : Prim2SF PrimFloat.zero = S754_zero false.
Proof. reflexivity. Qed.

Lemma Prim2SF_101 :
  Prim2SF (nearest_float 101)
  = S754_finite false (Z.to_pos (101 * 2 ^ 46)) (-46).
Proof. vm_compute. reflexivity. Qed.

(** A float in [0, 101) truncates to an integer between 0 and 100. *)
Lemma int_of_float_in_range q :
  in_range (nearest_float 101) q = true ->
  exists v, int_of_float q = Ok v /\ 0 <= v <= 100.
Proof.
  unfold in_range. intros H. apply andb_prop in H as [Hle Hlt].
  rewrite leb_spec, Prim2SF_zero in Hle.
  rewrite ltb_spec, Prim2SF_101 in Hlt.
  pose proof (Prim2SF_valid q) as Hv.
  unfold int_of_float.
  destruct (Prim2SF q) as [s|s| |s m e].
  - exists 0. split; [reflexivity | lia].
  - destruct s; discriminate.
  - discriminate.
  - destruct s; [discriminate|].
    cbn [valid_binary] in Hv. apply valid_mantissa_bound in Hv.
    unfold SFltb, SFcompare in Hlt.
    assert (He : e < -46 \/ e = -46 /\ Z.pos m < 101 * 2 ^ 46).
    { destruct (Z.compare_spec e (-46)) as [E|E|E];
        [right; split; [exact E|] | left; exact E | discriminate].
      change (Pos.compare_cont Eq m (Z.to_pos (101 * 2 ^ 46)))
        with (Pos.compare m (Z.to_pos (101 * 2 ^ 46))) in Hlt.
      destruct (Pos.compare_spec m (Z.to_pos (101 * 2 ^ 46))) as [C|C|C];
        try discriminate.
      apply Pos2Z.pos_lt_pos in C. rewrite Z2Pos.id in C by reflexivity.
      exact C. }
    assert (Hneg : (0 <=? e) = false) by (apply Z.leb_gt; lia).
    rewrite Hneg. eexists. split; [reflexivity|].
    rewrite Z.shiftr_div_pow2 by lia.
    assert (P : 0 < 2 ^ (- e)) by (apply Z.pow_pos_nonneg; lia).
    split; [apply Z.div_pos; lia|].
    apply Z.lt_succ_r. apply Z.div_lt_upper_bound; [exact P|].
    destruct He as [He|[-> Hm]]; [|exact Hm].
    assert (2 ^ 47 <= 2 ^ (- e)) by (apply Z.pow_le_mono_r; lia).
    change (2 ^ 53) with (2 ^ 47 * 64) in Hv. nia.
Qed.

Lemma in_all_scores s : 0 <= s <= 100 -> In s all_scores.
Proof.
  intros H. unfold all_scores. apply in_map_iff.
  exists (Z.to_nat s). split; [lia|]. apply in_seq. lia.
Qed.

Lemma scores_convert_holds : scores_convert = true.
Proof. vm_compute. reflexivity. Qed.

Lemma float_of_int_score s :
  0 <= s <= 100 -> float_of_int s = Ok (nearest_float s).
Proof.
  intros H. pose proof scores_convert_holds as C.
  unfold scores_convert in C. rewrite forallb_forall in C.
  specialize (C s (in_all_scores s H)). unfold float_of_int.
  destruct (PrimFloat.is_infinity (nearest_float s)); [discriminate|].
  reflexivity.
Qed.

Lemma all_in_range_sound pss : forall bound tw acc choice,
  all_in_range pss bound tw acc = true ->
  Forall2 (fun p ps => In p ps) choice pss ->
  in_range bound (PrimFloat.div (fold_left fadd choice acc) tw) = true.
Proof.
  induction pss as [|ps pss IH]; intros bound tw acc choice H F.
  - inversion F. subst. exact H.
  - inversion F as [|p ps' choice' pss' Hp F']. subst.
    cbn [all_in_range] in H. rewrite forallb_forall in H.
    cbn [fold_left]. apply IH; [apply H, Hp | exact F'].
Qed.

(** Every weighted mean of at most three scores, computed as the code
    computes it. *)
Lemma partial_patterns_ok : forallb pattern_ok partial_patterns = true.
Proof. vm_compute. reflexivity. Qed.

Lemma products_of_scores present :
  Forall (fun p => 0 <= snd p <= 100) present ->
  map_result (fun p => f ← float_of_int (snd p);
                       Ok (fmul f (weights (fst p)))) present
  = Ok (map (fun p => product (fst p) (snd p)) present).
Proof.
  induction 1 as [|p present Hp _ IH]; [reflexivity|].
  cbn [map_result map]. rewrite float_of_int_score by exact Hp.
  cbn [mbind result_bind]. rewrite IH. reflexivity.
Qed.

Lemma products_are_listed present :
  Forall (fun p => 0 <= snd p <= 100) present ->
  Forall2 (fun p ps => In p ps)
    (map (fun p => product (fst p) (snd p)) present)
    (map products (map fst present)).
Proof.
  induction 1 as [|p present Hp _ IH]; [constructor|].
  cbn [map]. constructor; [|exact IH].
  unfold products. apply in_map, in_all_scores, Hp.
Qed.

(** With at most three kinds present and scores between 0 and 100 the
    truncated weighted mean is defined and lies between 0 and 100. *)
Lemma mean_of_partial_pattern present :
  In (map fst present) partial_patterns ->
  Forall (fun p => 0 <= snd p <= 100) present ->
  exists v, truncated_weighted_mean present = Ok v /\ 0 <= v <= 100.
Proof.
  intros Hin Hrange.
  pose proof partial_patterns_ok as P. rewrite forallb_forall in P.
  specialize (P _ Hin). unfold pattern_ok in P.
  apply andb_prop in P as [Hz Ha]. apply negb_true_iff in Hz.
  pose proof (all_in_range_sound _ _ _ _ _ Ha (products_are_listed _ Hrange))
    as R.
  apply int_of_float_in_range in R. destruct R as (v & Hv & Hb).
  exists v. split; [|exact Hb].
  destruct present as [|p present].
  { exfalso. cbn in Hin. repeat destruct Hin as [Hin|Hin]; congruence. }
  set (l := p :: present) in *.
  transitivity
    (products ← map_result (fun p => f ← float_of_int (snd p);
                                     Ok (fmul f (weights (fst p)))) l;
     q ← fdiv (py_sum products)
              (py_sum (map (fun p => weights (fst p)) l));
     int_of_float q); [reflexivity|].
  rewrite products_of_scores by exact Hrange. cbn [mbind result_bind].
  rewrite <- (map_map fst weights). unfold fdiv. rewrite Hz.
  cbn [mbind result_bind]. exact Hv.
Qed.

End RangeFacts.

(* ===================================================================== *)
(** * Facts: isolation of backend failures *)
(* ===================================================================== *)
Module IsolationFacts.
Import Level Gateway ScoreRange Sample.

Lemma failed_delivers_nothing o : failed o -> delivered o = JNull.
Proof.
  destruct o as [| |status_code [j|e]]; try reflexivity.
  cbn. intros H. destruct (Z.eqb_spec status_code 200); [lia | reflexivity].
Qed.


Lemma carries_score_of k r :
  carries_score k (result_of k r) ->
  exists s, score_of k r = Some s /\ 0 <= s <= 100.
Proof.
  intros (fields & s & E & L & B). unfold score_of. rewrite E, L. eauto.
Qed.

Lemma absent_score k r : result_of k r = JNull -> score_of k r = None.
Proof. unfold score_of. intros ->. reflexivity. Qed.

Lemma badge_for_scored k r :
  result_of k r = JNull \/ carries_score k (result_of k r) ->
  exists b, badge_for k r = Ok b.
Proof.
  unfold badge_for, badge_due.
  intros [E|(fields & s & E & L & _)]; rewrite E.
  - cbn. eauto.
  - destruct fields as [|field fields]; [discriminate|].
    cbn [truthy py_get mbind result_bind]. rewrite L. cbn. eauto.
Qed.

Lemma badges_of_scored r overall :
  (forall k, result_of k r = JNull \/ carries_score k (result_of k r)) ->
  exists b, badges_of r overall = Ok b.
Proof.
  intros H. unfold badges_of.
  destruct (badge_for_scored CodeQuality r (H _)) as [a ->].
  destruct (badge_for_scored Architecture r (H _)) as [b ->].
  destruct (badge_for_scored EventLoop r (H _)) as [c ->].
  destruct (badge_for_scored Cost r (H _)) as [d ->].
  cbn. eauto.
Qed.

Lemma optional_dict_scored k r :
  result_of k r = JNull \/ carries_score k (result_of k r) ->
  optional_dict (result_of k r) = Ok (result_of k r).
Proof. intros [E|(fields & s & E & _)]; rewrite E; reflexivity. Qed.

(** The scores present when one kind is absent: none, or one of the
    patterns of at most three kinds, each score between 0 and 100. *)
Lemma present_scores_partial r k :
  result_of k r = JNull ->
  (forall k', result_of k' r = JNull \/ carries_score k' (result_of k' r)) ->
  Forall (fun p => 0 <= snd p <= 100) (present_scores r) /\
  (present_scores r = [] \/ In (map fst (present_scores r)) partial_patterns).
Proof.
  intros Hk Hr. apply absent_score in Hk.
  assert (Hs : forall k', score_of k' r = None
                          \/ exists s, score_of k' r = Some s
                                       /\ 0 <= s <= 100).
  { intros k'. destruct (Hr k') as [E|E];
      [left; apply absent_score, E | right; apply carries_score_of, E]. }
  unfold present_scores, present_score.
  destruct (Hs CodeQuality) as [E1|(s1 & E1 & B1)];
    destruct (Hs Architecture) as [E2|(s2 & E2 & B2)];
    destruct (Hs EventLoop) as [E3|(s3 & E3 & B3)];
    destruct (Hs Cost) as [E4|(s4 & E4 & B4)];
    try (destruct k; congruence);
    rewrite E1, E2, E3, E4; cbn [app map fst];
    (split; [repeat (apply Forall_cons_2; [assumption|]); apply Forall_nil_2|]);
    first [left; reflexivity | right; cbn; auto 20].
Qed.

(** The arithmetic of a request with one failed backend never raises. *)
Lemma mean_with_an_absent_kind r k :
  result_of k r = JNull ->
  (forall k', result_of k' r = JNull \/ carries_score k' (result_of k' r)) ->
  exists v, truncated_weighted_mean (present_scores r) = Ok v
            /\ 0 <= v <= 100.
Proof.
  intros Hk Hr.
  destruct (present_scores_partial r k Hk Hr) as [Hrange [->|Hin]].
  - exists 0. split; [reflexivity | lia].
  - apply RangeFacts.mean_of_partial_pattern; assumption.
Qed.




End IsolationFacts.

(* ===================================================================== *)
(** * Facts: the report store *)
(* ===================================================================== *)
Module StoreFacts.
Import Gateway Sample.

(** The parameters [store_report] reads off a posted report. *)
Lemma store_params_fields report id row :
  store_params report = Ok (id, row) ->
  id = default_of (dict_lookup "report_id" report) JNull /\
  row_overall_score row
  = default_of (dict_lookup "overall_score" report) (JInt 0) /\
  row_status row
  = default_of (dict_lookup "status" report) (JStr "unknown") /\
  row_code_quality_report row
  = Some (default_of (dict_lookup "code_quality" report) JNull) /\
  row_architecture_report row
  = Some (default_of (dict_lookup "architecture" report) JNull) /\
  row_event_loop_report row
  = Some (default_of (dict_lookup "event_loop" report) JNull) /\
  row_cost_report row
  = Some (default_of (dict_lookup "cost_analysis" report) JNull).
Proof.
  unfold store_params.
  destruct (sub_score report "code_quality"); [|discriminate].
  destruct (sub_score report "architecture"); [|discriminate].
  destruct (sub_score report "event_loop"); [|discriminate].
  destruct (sub_score report "cost_analysis"); [|discriminate].
  cbn [mbind result_bind].
  destruct (py_get _ "xp_earned" _); [|discriminate].
  destruct (py_get _ "badges_earned" _); [|discriminate].
  cbn [mbind result_bind]. intros H. injection H as <- <-.
  repeat split.
Qed.

(** One accepted submission: the row stored under its identifier. *)
Lemma store_report_accepted report w d id row :
  db_pool w = Some d ->
  insert_fault w = false ->
  store_params report = Ok (JStr id, row) ->
  snd (store_report report w)
  = with_db w
      {| analysis_reports :=
           <[id := match analysis_reports d !! id with
                   | Some old => on_conflict_update old row
                   | None => row
                   end]> (analysis_reports d);
         users := users d |}.
Proof.
  intros Hd Hf Hp. unfold store_report. rewrite Hd, Hp, Hf. reflexivity.
Qed.

(** C3 (as stated): after two submissions of RPT-1 the stored badge field is
    to equal the second submission's. The second submission carries no
    badge, 400 xp and a code-quality score of 40; the stored row takes its
    overall score and status, and keeps the first submission's badge, xp
    and code-quality score. *)
Lemma resubmission_keeps_first_badges :
  let w2 := snd (store_report second_submission
                   (snd (store_report first_submission empty_store))) in
  exists row,
    stored_reports w2 !! "RPT-1" = Some row /\
    row_overall_score row = JInt 40 /\
    row_status row = JStr "critical" /\
    row_badges_earned row = JArr [JStr "Clean Coder"] /\
    row_xp_earned row = JInt 900 /\
    row_code_quality_score row = JInt 90 /\
    exists submitted,
      store_params second_submission = Ok (JStr "RPT-1", submitted) /\
      row_badges_earned submitted = JArr [] /\
      row_xp_earned submitted = JInt 400 /\
      row_code_quality_score submitted = JInt 40.
Proof.
  cbv zeta. eexists. vm_compute. repeat split.
  eexists. repeat split.
Qed.

(** C3 (amended): for every two accepted submissions to [POST /api/reports]
    carrying the same report_id, the store afterwards holds one report for
    that identifier (the second submission adds no row); its overall score,
    status and four sub-report documents are the second submission's, while
    its xp, badge and per-kind score columns are those stored by the first
    submission (the first submission's own values when the identifier was
    new). *)
Theorem resubmission_overwrites_listed_columns
    (first second : list (string * json)) (w : world) (d : database)
    (id : string) (row1 row2 : report_row) :
  db_pool w = Some d ->
  insert_fault w = false ->
  store_params first = Ok (JStr id, row1) ->
  store_params second = Ok (JStr id, row2) ->
  let w1 := snd (store_report first w) in
  let w2 := snd (store_report second w1) in
  exists mid fin,
    stored_reports w1 !! id = Some mid /\
    stored_reports w2 !! id = Some fin /\
    dom (stored_reports w2) = dom (stored_reports w1) /\
    dom (stored_reports w1) = {[id]} ∪ dom (analysis_reports d) /\
    (forall other, other <> id ->
       stored_reports w2 !! other = analysis_reports d !! other) /\
    row_overall_score fin
    = default_of (dict_lookup "overall_score" second) (JInt 0) /\
    row_status fin
    = default_of (dict_lookup "status" second) (JStr "unknown") /\
    row_code_quality_report fin
    = Some (default_of (dict_lookup "code_quality" second) JNull) /\
    row_architecture_report fin
    = Some (default_of (dict_lookup "architecture" second) JNull) /\
    row_event_loop_report fin
    = Some (default_of (dict_lookup "event_loop" second) JNull) /\
    row_cost_report fin
    = Some (default_of (dict_lookup "cost_analysis" second) JNull) /\
    row_xp_earned fin = row_xp_earned mid /\
    row_badges_earned fin = row_badges_earned mid /\
    row_code_quality_score fin = row_code_quality_score mid /\
    row_architecture_score fin = row_architecture_score mid /\
    row_event_loop_score fin = row_event_loop_score mid /\
    row_efficiency_score fin = row_efficiency_score mid /\
    (analysis_reports d !! id = None -> mid = row1).
Proof.
  intros Hd Hf H1 H2. cbv zeta.
  rewrite (store_report_accepted first w d id row1 Hd Hf H1).
  set (mid := match analysis_reports d !! id with
              | Some old => on_conflict_update old row1
              | None => row1
              end).
  set (d1 := {| analysis_reports := <[id := mid]> (analysis_reports d);
                users := users d |}).
  rewrite (store_report_accepted second (with_db w d1) d1 id row2
             eq_refl Hf H2).
  cbn [stored_reports with_db db_pool analysis_reports d1].
  rewrite lookup_insert_eq.
  destruct (store_params_fields _ _ _ H2) as (_ & F1 & F2 & F3 & F4 & F5 & F6).
  exists mid, (on_conflict_update mid row2).
  rewrite !lookup_insert_eq. repeat split; try assumption.
  - rewrite !dom_insert_L, (assoc_L (∪)), (idemp_L (∪)). reflexivity.
  - apply dom_insert_L.
  - intros other Hne. rewrite !lookup_insert_ne by congruence. reflexivity.
  - intros Hnew. subst mid. rewrite Hnew. reflexivity.
Qed.

Lemma resubmission_overwrites_listed_columns_witness :
  exists mid fin,
    stored_reports (snd (store_report first_submission empty_store))
      !! "RPT-1" = Some mid /\
    stored_reports
      (snd (store_report second_submission
              (snd (store_report first_submission empty_store))))
      !! "RPT-1" = Some fin /\
    row_overall_score fin = JInt 40 /\
    row_badges_earned fin = row_badges_earned mid.
Proof.
  destruct (resubmission_overwrites_listed_columns
              first_submission second_submission empty_store
              {| analysis_reports := ∅; users := ∅ |} "RPT-1"
              _ _ eq_refl eq_refl eq_refl eq_refl)
    as (mid & fin & A & B & _ & _ & _ & C & _ & _ & _ & _ & _ & _ & D & _).
  exists mid, fin. repeat split; assumption.
Defined.

End StoreFacts.

(* ===================================================================== *)
(** * Facts: JSON recovery and the degraded response *)
(* ===================================================================== *)
Module LlmFacts.
Import Re JsonText Gateway Llm Sample.

Section Recovery.
Variable loads : string -> result json.

Lemma try_matches_app a b :
  try_matches loads (a ++ b)
  = match try_matches loads a with
    | Some r => Some r
    | None => try_matches loads b
    end.
Proof.
  induction a as [|t a IH]; [reflexivity|].
  cbn [app try_matches].
  destruct (loads (strip t)) as [v|[]]; try reflexivity. exact IH.
Qed.

Lemma try_patterns_matches patterns response :
  try_patterns loads patterns response
  = try_matches loads
      (List.concat (map (fun p => findall p response) patterns)).
Proof.
  induction patterns as [|p rest IH]; [reflexivity|].
  cbn [try_patterns map List.concat].
  rewrite try_matches_app, IH. reflexivity.
Qed.

(** The function gives what [json.loads] makes of the first candidate it
    does not reject, and the parse-failure dict when it rejects them all. *)
Lemma extract_first_decoded response :
  extract_json_from_response loads response
  = default_of (try_matches loads (candidates response))
      (Ok (parse_failure response)).
Proof.
  unfold extract_json_from_response, candidates.
  rewrite try_patterns_matches, try_matches_app.
  destruct (try_matches loads (List.concat _)) as [r|]; [reflexivity|].
  cbn [try_matches].
  destruct (loads (strip response)) as [v|[]]; reflexivity.
Qed.

Lemma try_matches_none texts :
  (forall t, In t texts -> rejected loads t) ->
  try_matches loads texts = None.
Proof.
  induction texts as [|t rest IH]; intros H; [reflexivity|].
  cbn [try_matches]. rewrite (H t) by (left; reflexivity).
  apply IH. intros t' Ht'. apply H. right. exact Ht'.
Qed.

Lemma try_matches_at before c after r :
  (forall b, In b before -> rejected loads b) ->
  loads (strip c) = r -> r <> Raise JSONDecodeError ->
  try_matches loads (before ++ c :: after) = Some r.
Proof.
  intros Hb Hc Hr. rewrite try_matches_app, try_matches_none by exact Hb.
  cbn [try_matches]. rewrite Hc.
  destruct r as [v|[]]; try reflexivity. congruence.
Qed.

Lemma try_matches_raises texts e :
  try_matches loads texts = Some (Raise e) ->
  e <> JSONDecodeError /\
  exists t, In t texts /\ loads (strip t) = Raise e.
Proof.
  induction texts as [|t rest IH]; [discriminate|].
  cbn [try_matches].
  destruct (loads (strip t)) as [v|e'] eqn:E; [discriminate|].
  assert (Hthis : Some (Raise e' : result json) = Some (Raise e) ->
                  e' <> JSONDecodeError ->
                  e <> JSONDecodeError /\
                  exists t0, In t0 (t :: rest) /\ loads (strip t0) = Raise e).
  { intros H Hne. injection H as <-. split; [exact Hne|].
    exists t. split; [left; reflexivity | exact E]. }
  destruct e'; try (intros H; apply Hthis; [exact H | discriminate]).
  intros H. destruct (IH H) as (Hne & t0 & Hin & Ht0).
  split; [exact Hne|]. exists t0. split; [right; exact Hin | exact Ht0].
Qed.

End Recovery.

Lemma str_take_length n s : (String.length (str_take n s) <= n)%nat.
Proof.
  revert s. induction n as [|n IH]; intros [|c s]; cbn; try lia.
  specialize (IH s). lia.
Qed.

(** C4 (as stated): every input that contains a valid JSON document
    somewhere, for one as a {...} span, is to yield a parsed value. The
    text of two objects joined by a word starts with the valid document
    [{"a":1}]; the greedy object pattern offers only the span from the
    first brace to the last, which does not decode, and the function
    returns the parse-failure dict. *)
Lemma two_objects_are_not_recovered :
  str_take 7 two_objects = first_object /\
  json_loads cpython first_object = Ok (JObj [("a", JInt 1)]) /\
  candidates two_objects = [two_objects; two_objects] /\
  extract_json_from_response (json_loads cpython) two_objects
  = Ok (parse_failure two_objects).
Proof. vm_compute. repeat split. Qed.

(** C4 (amended): the candidates of [extract_json_from_response] are, in
    this order, the bodies of the json-tagged fenced blocks, the bodies of
    all fenced blocks, the span matched by the greedy object pattern, the
    span matched by the greedy array pattern, and the whole input, each
    stripped. Whatever [json.loads] is, the function ends with what
    [json.loads] makes of the first candidate it does not reject with
    [JSONDecodeError]: the decoded value, or the exception of another
    class, which the function does not catch. A document that is only a
    proper part of a candidate is not recovered. In particular, on an
    interpreter that lets the decoder enter an object, the object followed
    by [ extra {broken] yields the object, and the fenced object yields the
    object. *)
Theorem extract_returns_first_decodable_candidate
    (loads : string -> result json) (response : string) :
  candidates response
  = (findall json_fence response ++ findall any_fence response
     ++ findall raw_object response ++ findall raw_array response
     ++ [response])%list /\
  (forall before c after r,
     candidates response = (before ++ c :: after)%list ->
     (forall b, In b before -> rejected loads b) ->
     loads (strip c) = r -> r <> Raise JSONDecodeError ->
     extract_json_from_response loads response = r) /\
  (forall py, (0 < recursion_room py)%nat ->
     extract_json_from_response (json_loads py) object_then_noise
     = Ok (JObj [("a", JInt 1)]) /\
     extract_json_from_response (json_loads py) fenced_object
     = Ok (JObj [("a", JInt 1)])).
Proof.
  split; [|split].
  - unfold candidates, json_patterns. cbn [map List.concat].
    rewrite app_nil_r, <- !app_assoc. reflexivity.
  - intros before c after r Hc Hb Hl Hr.
    rewrite extract_first_decoded, Hc.
    rewrite (try_matches_at loads before c after r Hb Hl Hr). reflexivity.
  - intros [digits [|room]] Hroom; [cbn in Hroom; lia|].
    split; vm_compute; reflexivity.
Qed.

Lemma extract_returns_first_decodable_candidate_witness :
  extract_json_from_response (json_loads cpython) object_then_noise
  = Ok (JObj [("a", JInt 1)]).
Proof.
  refine (proj1 (proj2 (proj2 (extract_returns_first_decodable_candidate
                                 (json_loads cpython) no_json)) cpython _)).
  cbn. lia.
Defined.

(** C5 (as stated): the function is never to throw, and the sentinel's
    error field is to be "parse_failed". On an interpreter with the default
    digit limit an answer that is an integer of 4301 digits leaves the
    function as the [ValueError] of [json.loads], arrays nested beyond the
    interpreter's room leave it as a [RecursionError], and the dict
    returned for [no json here] carries "Failed to parse LLM response". *)
Lemma extract_raises_on_a_long_integer :
  extract_json_from_response (json_loads cpython) long_integer
  = Raise ValueError /\
  extract_json_from_response (json_loads cpython) deep_array
  = Raise RecursionError /\
  extract_json_from_response (json_loads cpython) no_json
  = Ok (JObj [("error", JStr "Failed to parse LLM response");
              ("raw_response", JStr no_json)]) /\
  extract_json_from_response (json_loads cpython) no_json
  <> Ok (JObj [("error", JStr "parse_failed");
               ("raw_response", JStr no_json)]).
Proof.
  split; [vm_compute; reflexivity|].
  split; [vm_compute; reflexivity|].
  split; [vm_compute; reflexivity | vm_compute; discriminate].
Qed.

(** C5 (amended): [extract_json_from_response] raises nothing of its own
    and catches [json.JSONDecodeError] only. Whatever [json.loads] is: if it
    rejects every candidate with [JSONDecodeError], the function returns the
    dict whose error field is "Failed to parse LLM response" and whose
    raw_response field is the input cut to its first 500 characters; if the
    function raises, the exception is not a [JSONDecodeError] and is one
    that [json.loads] raised on a candidate; and if [json.loads] raises
    nothing but [JSONDecodeError] on the candidates, the function
    returns. *)
Theorem extract_falls_back_and_raises_only_what_json_loads_raises
    (loads : string -> result json) (response : string) :
  ((forall c, In c (candidates response) -> rejected loads c) ->
   extract_json_from_response loads response
   = Ok (JObj [("error", JStr "Failed to parse LLM response");
               ("raw_response", JStr (str_take 500 response))])) /\
  (String.length (str_take 500 response) <= 500)%nat /\
  (forall e, extract_json_from_response loads response = Raise e ->
     e <> JSONDecodeError /\
     exists c, In c (candidates response) /\ loads (strip c) = Raise e) /\
  ((forall c e, In c (candidates response) -> loads (strip c) = Raise e ->
                e = JSONDecodeError) ->
   exists v, extract_json_from_response loads response = Ok v).
Proof.
  split; [|split; [|split]].
  - intros H. rewrite extract_first_decoded, try_matches_none by exact H.
    reflexivity.
  - apply str_take_length.
  - intros e. rewrite extract_first_decoded.
    destruct (try_matches loads (candidates response)) as [r|] eqn:T;
      cbn [default_of]; [|discriminate].
    intros ->. exact (try_matches_raises loads _ _ T).
  - intros H. rewrite extract_first_decoded.
    destruct (try_matches loads (candidates response)) as [[v|e]|] eqn:T;
      cbn [default_of]; eauto.
    destruct (try_matches_raises loads _ _ T) as (Hne & c & Hin & Hc).
    exfalso. apply Hne. exact (H c e Hin Hc).
Qed.

Lemma extract_falls_back_and_raises_only_what_json_loads_raises_witness :
  extract_json_from_response (json_loads cpython) no_json
  = Ok (JObj [("error", JStr "Failed to parse LLM response");
              ("raw_response", JStr (str_take 500 no_json))]).
Proof.
  refine (proj1 (extract_falls_back_and_raises_only_what_json_loads_raises
                   (json_loads cpython) no_json) _).
  intros c Hc. vm_compute in Hc. destruct Hc as [<-|[]].
  vm_compute. reflexivity.
Defined.

Lemma is_parse_failure_marker_keys fields :
  is_Some (dict_lookup "error" fields) ->
  is_Some (dict_lookup "raw_response" fields) ->
  is_parse_failure (JObj fields) = Ok true.
Proof.
  intros [a Ha] [b Hb]. unfold is_parse_failure. cbn [py_in].
  rewrite Ha, Hb. reflexivity.
Qed.

(** C10 (as stated): every backend answers a marked object with score 50,
    one analysis_error issue of medium severity and the fixed summary. The
    cost backend's degraded response lists no finding at all. *)
Lemma cost_degraded_response_lists_no_issue :
  exists response,
    analyze cpython Cost analysis_with_marker_keys "llama3"
      "2026-01-01T12:00:00"
    = Ok response /\
    response_field "efficiency_score" response = Some (JInt 50) /\
    findings Cost response = [] /\
    response_field "issues" response = None /\
    response_field "complexity_breakdown" response = Some (JArr []).
Proof. eexists. vm_compute. repeat split. Qed.

(** C10 (amended): for every backend [/analyze] call whose LLM output
    parses to a JSON object containing both an "error" key and a
    "raw_response" key, whatever their values and the other keys, the
    backend returns its fixed degraded response instead of the parsed
    content: score 50 and the summary "Analysis incomplete due to parsing
    error", with a single analysis_error finding of medium severity in the
    code-quality, architecture and event-loop backends and with no finding
    in the cost backend. *)
Theorem marker_keys_select_the_degraded_response
    (py : interpreter) (k : kind) (raw_response model now : string)
    (fields : list (string * json)) :
  extract_json_from_response (json_loads py) raw_response
  = Ok (JObj fields) ->
  is_Some (dict_lookup "error" fields) ->
  is_Some (dict_lookup "raw_response" fields) ->
  analyze py k raw_response model now = Ok (degraded k model now) /\
  response_field (score_key k) (degraded k model now) = Some (JInt 50) /\
  response_field "summary" (degraded k model now)
  = Some (JStr "Analysis incomplete due to parsing error") /\
  (k <> Cost ->
   exists item, findings k (degraded k model now) = [item]
                /\ is_analysis_error item = true) /\
  (k = Cost -> findings k (degraded k model now) = []).
Proof.
  intros Hparsed Herror Hraw. split.
  - unfold analyze. rewrite Hparsed. cbn [mbind result_bind].
    rewrite is_parse_failure_marker_keys by assumption. reflexivity.
  - destruct k; repeat split; try reflexivity;
      try (intros _; eexists; split; reflexivity);
      try (intros H; exfalso; apply H; reflexivity);
      try discriminate.
Qed.

Lemma marker_keys_select_the_degraded_response_witness :
  analyze cpython CodeQuality analysis_with_marker_keys "llama3"
    "2026-01-01T12:00:00"
  = Ok (degraded CodeQuality "llama3" "2026-01-01T12:00:00").
Proof.
  refine (proj1 (marker_keys_select_the_degraded_response
                   cpython CodeQuality analysis_with_marker_keys "llama3"
                   "2026-01-01T12:00:00"
                   [("score", JInt 95); ("summary", JStr "Clean");
                    ("error", JStr "none"); ("raw_response", JStr "n/a")]
                   _ _ _)).
  - vm_compute. reflexivity.
  - eexists. reflexivity.
  - eexists. reflexivity.
Defined.

End LlmFacts.

(* ===================================================================== *)
(** * Facts: the level table *)
(* ===================================================================== *)
Module LevelTableFacts.
Import Level Notions.

Lemma thresholds_from_succ i m :
  thresholds_from i (S m) = thr i + thresholds_from (S i) m.
Proof. reflexivity. Qed.

Lemma thresholds_from_last i m :
  thresholds_from i (S m) = thresholds_from i m + thr (i + m).
Proof.
  revert i. induction m as [|m IH]; intros i.
  - cbn. rewrite Nat.add_0_r. lia.
  - rewrite thresholds_from_succ, IH, thresholds_from_succ.
    replace (S i + m)%nat with (i + S m)%nat by lia. lia.
Qed.

Lemma level_floor_step n : level_floor (S n) = level_floor n + thr n.
Proof. apply (thresholds_from_last 0). Qed.

Lemma level_floor_lt n : level_floor n < level_floor (S n).
Proof. rewrite level_floor_step. pose proof (LevelFacts.thr_lower n). lia. Qed.

Lemma level_floor_mono n m : (n <= m)%nat -> level_floor n <= level_floor m.
Proof.
  induction 1 as [|m _ IH]; [lia|].
  pose proof (level_floor_lt m). lia.
Qed.

(** The reference loop started at the [i]-th threshold stops after as many
    rounds as thresholds fit into the remaining xp. *)
Lemma level_ref_loop_rounds fuel : forall i level r v,
  0 <= r ->
  level_ref_loop fuel level (thr i) r = Some v ->
  exists m, v = level + Z.of_nat m /\
            thresholds_from i m <= r < thresholds_from i (S m).
Proof.
  induction fuel as [|fuel IH]; intros i level r v Hr H; [discriminate|].
  cbn [level_ref_loop] in H.
  destruct (r >=? thr i) eqn:G.
  - apply Z.geb_le in G. rewrite <- LevelFacts.thr_succ in H.
    apply IH in H; [|lia]. destruct H as (m & -> & Hm).
    exists (S m). rewrite !(thresholds_from_succ i). split; lia.
  - rewrite Z.geb_leb in G. apply Z.leb_gt in G. injection H as <-.
    exists 0%nat. cbn. split; lia.
Qed.

Lemma level_ref_interval xp v :
  0 <= xp -> level_ref xp = Some v ->
  exists n, v = Z.of_nat n + 1 /\ level_floor n <= xp < level_floor (S n).
Proof.
  intros Hxp H. apply (level_ref_loop_rounds _ 0%nat) in H; [|exact Hxp].
  destruct H as (m & -> & Hm). exists m. split; [lia | exact Hm].
Qed.

(** X1: for every xp from 0 up to 2^53, [calculate_level] returns level
    [n + 1] exactly when xp lies between the sum of the first [n]
    thresholds and the sum of the first [n + 1], the thresholds being 100,
    150, 225, 337, 505, ... (each the floor of one and a half times the one
    before): level 2 starts at 100 xp, level 3 at 250, level 4 at 475,
    level 5 at 812 and level 6 at 1317. *)
Theorem level_is_the_number_of_thresholds_passed (n : nat) (xp : Z) :
  0 <= xp -> xp < 2 ^ 53 ->
  (calculate_level xp = Some (Ok (Z.of_nat n + 1))
   <-> level_floor n <= xp < level_floor (S n)) /\
  map level_floor [1; 2; 3; 4; 5]%nat = [100; 250; 475; 812; 1317].
Proof.
  intros H0 H53. split; [|reflexivity].
  rewrite LevelFacts.calculate_level_ref by exact H53.
  destruct (LevelFacts.level_ref_total xp) as [v Hv]. rewrite Hv.
  destruct (level_ref_interval xp v H0 Hv) as (m & -> & Hm).
  cbn [fmap option_fmap option_map]. split.
  - intros E. assert (m = n) by (injection E; lia). subst m. exact Hm.
  - intros Hn. assert (m = n); [|subst m; reflexivity].
    destruct (Nat.lt_trichotomy m n) as [L|[E|L]]; [|exact E|].
    + pose proof (level_floor_mono (S m) n L). lia.
    + pose proof (level_floor_mono (S n) m L). lia.
Qed.

Lemma level_is_the_number_of_thresholds_passed_witness :
  calculate_level 1000 = Some (Ok 5).
Proof.
  refine (proj2 (proj1 (level_is_the_number_of_thresholds_passed 4 1000 _ _))
            _).
  - lia.
  - reflexivity.
  - vm_compute. split; [discriminate | reflexivity].
Defined.

End LevelTableFacts.

(* ===================================================================== *)
(** * Facts: further behaviour of [POST /api/analyze] *)
(* ===================================================================== *)
Module AnalyzeFacts.
Import Level Gateway Notions Sample Cases.

Lemma error_log_app a b : error_log (a ++ b) = (error_log a ++ error_log b)%list.
Proof. apply flat_map_app. Qed.

Lemma post_error_log k w :
  error_log (trace (snd (post k w)))
  = (error_log (trace w)
     ++ (if raised (outcome (backends w k)) then [failure_message k]
         else []))%list.
Proof.
  unfold post.
  destruct (outcome (backends w k)) as [| |status_code [j|e]]; cbn;
    try destruct (status_code =? 200); cbn;
    rewrite ?error_log_app; cbn; rewrite ?app_nil_r; reflexivity.
Qed.

(** X2: the error entries a fan-out adds to the log are the failure
    messages of exactly the calls that raised (timeout, transport failure,
    undecodable 200 body), in the order of the calls. A backend that
    answers with a status other than 200 is dropped without any log
    entry. *)
Theorem fan_out_logs_only_raised_calls (w : world) :
  error_log (trace (snd (fan_out w)))
  = (error_log (trace w)
     ++ flat_map (fun k => if raised (outcome (backends w k))
                           then [failure_message k] else []) kinds)%list.
Proof.
  unfold fan_out.
  pose proof (post_error_log CodeQuality w) as L1.
  pose proof (FanOutFacts.post_spec CodeQuality w) as (_ & B1 & _).
  destruct (post CodeQuality w) as [cq w1]. cbn [fst snd] in *.
  pose proof (post_error_log Architecture w1) as L2.
  pose proof (FanOutFacts.post_spec Architecture w1) as (_ & B2 & _).
  destruct (post Architecture w1) as [ar w2]. cbn [fst snd] in *.
  pose proof (post_error_log EventLoop w2) as L3.
  pose proof (FanOutFacts.post_spec EventLoop w2) as (_ & B3 & _).
  destruct (post EventLoop w2) as [el w3]. cbn [fst snd] in *.
  pose proof (post_error_log Cost w3) as L4.
  destruct (post Cost w3) as [co w4]. cbn [fst snd] in *.
  rewrite L4, L3, L2, L1, B3, B2, B1. cbn [kinds flat_map].
  rewrite app_nil_r, <- !app_assoc. reflexivity.
Qed.

Lemma badge_for_raises_on_non_object k r :
  truthy (result_of k r) = true -> is_object (result_of k r) = false ->
  badge_for k r = Raise AttributeError.
Proof.
  unfold badge_for, badge_due. intros T O. rewrite T.
  destruct (result_of k r); try discriminate; reflexivity.
Qed.

Lemma badges_of_raises k r overall :
  badge_for k r = Raise AttributeError ->
  exists e, badges_of r overall = Raise e.
Proof.
  intros H. unfold badges_of.
  destruct k; rewrite ?H;
    repeat (match goal with
            | |- context [badge_for ?k' r] =>
                destruct (badge_for k' r); cbn [mbind result_bind]
            end; eauto);
    rewrite ?H; cbn [mbind result_bind]; eauto.
Qed.

(** X3: a backend that answers 200 with a body that is not a JSON object
    and is not empty (a non-empty array or string, a non-zero number,
    [true]) is not isolated: the handler's [in] test or its [.get] raises,
    no report is returned, and nothing is written to the database. *)
Theorem non_object_body_breaks_the_request
    (request : AnalysisRequest) (w : world) (k : kind) (j : json) :
  outcome (backends w k) = Responded 200 (Ok j) ->
  truthy j = true -> is_object j = false ->
  exists e w',
    analyze_code request w = Some (Raise e, w') /\ db_pool w' = db_pool w.
Proof.
  intros Ho T O.
  pose proof (FanOutFacts.fan_out_spec w) as S. cbv zeta in S.
  destruct S as (R & _ & D & _).
  unfold analyze_code. destruct (fan_out w) as [r w1]. cbn [fst snd] in *.
  assert (Hj : result_of k r = j) by (rewrite R, Ho; reflexivity).
  assert (Hb : badge_for k r = Raise AttributeError)
    by (apply badge_for_raises_on_non_object; rewrite Hj; assumption).
  unfold score_results.
  destruct (collect_scores r) as [scores|e]; cbn [mbind result_bind];
    [|eauto].
  destruct (overall_score_of scores) as [overall|e];
    cbn [mbind result_bind]; [|eauto].
  destruct (badges_of_raises k r overall Hb) as [e ->].
  cbn [mbind result_bind]. eauto.
Qed.

Lemma non_object_body_breaks_the_request_witness :
  exists e w',
    analyze_code (request_for (Some "p1") (Some "u1")) array_body
    = Some (Raise e, w') /\ db_pool w' = db_pool array_body.
Proof.
  apply (non_object_body_breaks_the_request
           (request_for (Some "p1") (Some "u1")) array_body Architecture
           (JArr [JInt 1])); reflexivity.
Defined.

Lemma score_results_ok r overall stat xp badges :
  score_results r = Ok (overall, stat, xp, badges) ->
  stat = status_of overall /\ xp = overall * 10 /\
  badges_of r overall = Ok badges.
Proof.
  unfold score_results.
  destruct (collect_scores r) as [scores|e]; cbn [mbind result_bind];
    [|discriminate].
  destruct (overall_score_of scores) as [o|e];
    cbn [mbind result_bind]; [|discriminate].
  destruct (badges_of r o) as [b|e] eqn:B;
    cbn [mbind result_bind]; [|discriminate].
  intros H. injection H as <- <- <- <-. auto.
Qed.

(** What a returned report was built from. *)
Lemma analyze_code_returned request w report w' :
  analyze_code request w = Some (Ok report, w') ->
  exists r w1 overall badges,
    fan_out w = (r, w1) /\
    score_results r = Ok (overall, status_of overall, overall * 10, badges) /\
    badges_of r overall = Ok badges /\
    save_report request r ("RPT-" +:+ utcnow_stamp w) overall
      (status_of overall) (overall * 10) badges w1 = Some w' /\
    build_report r ("RPT-" +:+ utcnow_stamp w) overall (status_of overall)
      (overall * 10) badges (utcnow_iso w') = Ok report.
Proof.
  pose proof (FanOutFacts.fan_out_spec w) as S. cbv zeta in S.
  destruct S as (_ & _ & _ & _ & _ & St & _).
  unfold analyze_code. destruct (fan_out w) as [r w1]. cbn [fst snd] in *.
  rewrite St.
  destruct (score_results r) as [[[[overall stat] xp] badges]|e] eqn:SR;
    [|discriminate].
  destruct (score_results_ok _ _ _ _ _ SR) as (-> & -> & B).
  destruct (save_report _ _ _ _ _ _ _ _) as [w2|] eqn:Sv; [|discriminate].
  intros H. injection H as H <-.
  exists r, w1, overall, badges. repeat split; assumption.
Qed.

Lemma build_report_fields r id overall stat xp badges now report :
  build_report r id overall stat xp badges now = Ok report ->
  report_id report = id /\ overall_score report = overall /\
  status report = stat /\ xp_earned (rpg report) = xp /\
  badges_earned (rpg report) = badges /\
  level_up (rpg report) = (overall >=? 90) /\
  (forall k, sub_report k report = result_of k r) /\
  (forall k, result_of k r = JNull \/ is_object (result_of k r) = true).
Proof.
  unfold build_report, optional_dict. intros H.
  destruct (r_code_quality r) eqn:E1; try discriminate;
    destruct (r_architecture r) eqn:E2; try discriminate;
    destruct (r_event_loop r) eqn:E3; try discriminate;
    destruct (r_cost r) eqn:E4; try discriminate;
    cbn [mbind result_bind] in H; injection H as <-; cbn;
    repeat split;
    intros []; cbn; rewrite ?E1, ?E2, ?E3, ?E4; auto.
Qed.

Lemma badge_for_cases k r b :
  badge_for k r = Ok b -> b = [] \/ b = [badge_name k].
Proof.
  unfold badge_for. destruct (badge_due k r) as [[|]|]; cbn;
    intros H; try discriminate; injection H as <-; auto.
Qed.

Lemma legend_badge r overall badges :
  badges_of r overall = Ok badges ->
  (In "Code Legend" badges <-> 95 <= overall).
Proof.
  unfold badges_of. intros H.
  destruct (badge_for CodeQuality r) as [a|] eqn:A; [|discriminate].
  destruct (badge_for Architecture r) as [b|] eqn:B; [|discriminate].
  destruct (badge_for EventLoop r) as [c|] eqn:C; [|discriminate].
  destruct (badge_for Cost r) as [d|] eqn:D; [|discriminate].
  cbn [mbind result_bind] in H. injection H as <-.
  apply badge_for_cases in A, B, C, D.
  rewrite !in_app_iff.
  destruct (overall >=? 95) eqn:G;
    [apply Z.geb_le in G | rewrite Z.geb_leb in G; apply Z.leb_gt in G].
  - split; [intros _; exact G | intros _; do 4 right; left; reflexivity].
  - split; [|lia].
    destruct A as [-> | ->], B as [-> | ->], C as [-> | ->], D as [-> | ->];
      cbn; intros H; repeat destruct H as [H|H]; try discriminate H;
      try contradiction.
Qed.

(** X4: in every report [POST /api/analyze] returns, the rpg summary and
    the status are functions of the overall score alone, whatever the
    database holds: xp_earned is ten times the score, level_up says that the
    score is at least 90 (not that the user's level rose), a level_up report
    has status excellent, the Code Legend badge is listed exactly from 95
    on and only in level_up reports, and status critical means fewer than
    500 xp. *)
Theorem rpg_summary_follows_the_score
    (request : AnalysisRequest) (w w' : world) (report : AnalysisReport) :
  analyze_code request w = Some (Ok report, w') ->
  xp_earned (rpg report) = overall_score report * 10 /\
  (level_up (rpg report) = true <-> 90 <= overall_score report) /\
  (level_up (rpg report) = true -> status report = "excellent") /\
  (In "Code Legend" (badges_earned (rpg report))
   <-> 95 <= overall_score report) /\
  (In "Code Legend" (badges_earned (rpg report))
   -> level_up (rpg report) = true) /\
  (status report = "critical" <-> xp_earned (rpg report) < 500).
Proof.
  intros H. apply analyze_code_returned in H.
  destruct H as (r & w1 & overall & badges & _ & _ & B & _ & H).
  apply build_report_fields in H.
  destruct H as (_ & -> & -> & -> & -> & -> & _).
  pose proof (legend_badge r overall badges B) as L.
  assert (G : (overall >=? 90) = true <-> 90 <= overall)
    by (rewrite Z.geb_leb; apply Z.leb_le).
  repeat split; try (apply G); try (apply L).
  - intros U. apply G in U. unfold status_of.
    destruct (Z.geb_spec overall 85); [reflexivity | lia].
  - intros I. apply G. apply L in I. lia.
  - unfold status_of.
    destruct (Z.geb_spec overall 85); [discriminate|].
    destruct (Z.geb_spec overall 70); [discriminate|].
    destruct (Z.geb_spec overall 50); [discriminate|]. lia.
  - intros X. unfold status_of.
    destruct (Z.geb_spec overall 85); [lia|].
    destruct (Z.geb_spec overall 70); [lia|].
    destruct (Z.geb_spec overall 50); [lia|]. reflexivity.
Qed.

Lemma rpg_summary_follows_the_score_witness :
  exists report w',
    analyze_code (request_for (Some "p1") (Some "u1")) all_fifty
    = Some (Ok report, w') /\
    xp_earned (rpg report) = overall_score report * 10.
Proof.
  eexists _, _. split; [vm_compute; reflexivity|].
  refine (proj1 (rpg_summary_follows_the_score
                   (request_for (Some "p1") (Some "u1")) all_fifty _ _ _)).
  vm_compute. reflexivity.
Defined.

Lemma score_param_value k r :
  result_of k r = JNull \/ is_object (result_of k r) = true ->
  score_param k r = Ok (score_in k (result_of k r)).
Proof.
  unfold score_param, score_in, get_or_null. intros [->|H]; [reflexivity|].
  destruct (result_of k r) as [| | | | | |fields]; try discriminate.
  destruct fields; reflexivity.
Qed.

(** The database block on a fresh identifier with a working INSERT: the row
    it writes, and what becomes of the users. *)
Lemma save_report_stores request r id overall stat xp badges w d w' :
  db_pool w = Some d -> insert_fault w = false ->
  truthy_str (project_id request) = true ->
  analysis_reports d !! id = None ->
  (forall k, result_of k r = JNull \/ is_object (result_of k r) = true) ->
  save_report request r id overall stat xp badges w = Some w' ->
  stored_reports w'
  = <[id := {| row_project_id := project_id request;
               row_commit_id := commit_id request;
               row_file_path := file_path request;
               row_overall_score := JInt overall;
               row_status := JStr stat;
               row_code_quality_score := score_in CodeQuality (r_code_quality r);
               row_architecture_score := score_in Architecture (r_architecture r);
               row_event_loop_score := score_in EventLoop (r_event_loop r);
               row_efficiency_score := score_in Cost (r_cost r);
               row_code_quality_report := report_param CodeQuality r;
               row_architecture_report := report_param Architecture r;
               row_event_loop_report := report_param EventLoop r;
               row_cost_report := report_param Cost r;
               row_xp_earned := JInt xp;
               row_badges_earned := JArr (map JStr badges) |}]>
      (analysis_reports d) /\
  (stored_users w' = users d \/
   exists uid lvl,
     user_id request = Some uid /\ calculate_level xp = Some (Ok lvl) /\
     stored_users w' = alter (credited xp lvl) uid (users d)).
Proof.
  intros Hd Hf Hp Hid Hr. unfold save_report.
  rewrite Hd, Hp, Hf.
  rewrite !score_param_value by apply Hr. cbn [mbind result_bind result_of].
  unfold insert_report. rewrite Hid. cbn [analysis_reports users].
  destruct (user_id request) as [uid|].
  - destruct (negb (String.eqb uid EmptyString)).
    + destruct (calculate_level xp) as [[lvl|e]|]; [| |discriminate].
      * unfold update_user.
        destruct (update_fault w); cbn [analysis_reports users];
          intros H; injection H as <-; cbn; split; try reflexivity;
          [left; reflexivity | right; eauto].
      * intros H; injection H as <-; cbn. split; [reflexivity | auto].
    + intros H; injection H as <-; cbn. split; [reflexivity | auto].
  - intros H; injection H as <-; cbn. split; [reflexivity | auto].
Qed.

Lemma fan_out_keeps w r w1 :
  fan_out w = (r, w1) ->
  db_pool w1 = db_pool w /\ insert_fault w1 = insert_fault w /\
  utcnow_stamp w1 = utcnow_stamp w.
Proof.
  intros E. pose proof (FanOutFacts.fan_out_spec w) as S. cbv zeta in S.
  rewrite E in S. cbn [fst snd] in S.
  destruct S as (_ & _ & D & I & _ & St & _). auto.
Qed.

(** X5: when [POST /api/analyze] returns a report for a request with a
    project_id, the INSERT works and the report identifier is new, the
    stored row is the returned report: same identifier, overall score,
    status, xp and badges, the request's project, commit and file path, and
    for each kind the returned sub-report as its document (SQL NULL for an
    absent or empty one) and the sub-report's own score as its score
    column; no other row changes. *)
Theorem saved_row_matches_the_response
    (request : AnalysisRequest) (w w' : world) (d : database)
    (report : AnalysisReport) :
  db_pool w = Some d -> insert_fault w = false ->
  truthy_str (project_id request) = true ->
  analysis_reports d !! ("RPT-" +:+ utcnow_stamp w) = None ->
  analyze_code request w = Some (Ok report, w') ->
  exists row,
    stored_reports w' !! report_id report = Some row /\
    row_project_id row = project_id request /\
    row_commit_id row = commit_id request /\
    row_file_path row = file_path request /\
    row_overall_score row = JInt (overall_score report) /\
    row_status row = JStr (status report) /\
    row_xp_earned row = JInt (xp_earned (rpg report)) /\
    row_badges_earned row = JArr (map JStr (badges_earned (rpg report))) /\
    (forall k, report_column k row
               = if truthy (sub_report k report)
                 then Some (sub_report k report) else None) /\
    (forall k, score_column k row = score_in k (sub_report k report)) /\
    (forall other, other <> report_id report ->
       stored_reports w' !! other = analysis_reports d !! other).
Proof.
  intros Hd Hf Hp Hid H. apply analyze_code_returned in H.
  destruct H as (r & w1 & overall & badges & F & _ & _ & Sv & B).
  destruct (fan_out_keeps _ _ _ F) as (D1 & I1 & _).
  apply build_report_fields in B.
  destruct B as (-> & -> & -> & -> & -> & _ & Sub & Shape).
  apply (save_report_stores _ _ _ _ _ _ _ _ d) in Sv;
    [|congruence|congruence|assumption|assumption|assumption].
  destruct Sv as [-> _]. eexists. rewrite lookup_insert_eq.
  split; [reflexivity|]. repeat split.
  - intros k. pose proof (Sub k) as E.
    destruct k; cbn in E |- *; rewrite E; reflexivity.
  - intros k. pose proof (Sub k) as E.
    destruct k; cbn in E |- *; rewrite E; reflexivity.
  - intros other Hne. apply lookup_insert_ne. congruence.
Qed.

Lemma saved_row_matches_the_response_witness :
  exists report w' row,
    analyze_code (request_for (Some "p1") (Some "u1")) all_fifty
    = Some (Ok report, w') /\
    stored_reports w' !! report_id report = Some row /\
    row_overall_score row = JInt (overall_score report).
Proof.
  assert (H : {x | analyze_code (request_for (Some "p1") (Some "u1"))
                     all_fifty = Some (Ok (fst x), snd x)}).
  { eexists (_, _). vm_compute. reflexivity. }
  destruct H as [[report w'] H]. cbn [fst snd] in H.
  destruct (saved_row_matches_the_response
              (request_for (Some "p1") (Some "u1")) all_fifty w' one_user
              report eq_refl eq_refl eq_refl eq_refl H)
    as (row & A & _ & _ & _ & B & _).
  exists report, w', row. auto.
Defined.

(** X6: a credit touches the named user only. Under the conditions of a
    successful save, every user the request does not name keeps xp and
    level, and a [user_id] that names no stored user changes no user and
    raises nothing: the report is stored and returned all the same. *)
Theorem credit_touches_only_the_named_user
    (request : AnalysisRequest) (w w' : world) (d : database)
    (report : AnalysisReport) :
  db_pool w = Some d -> insert_fault w = false ->
  truthy_str (project_id request) = true ->
  analysis_reports d !! ("RPT-" +:+ utcnow_stamp w) = None ->
  analyze_code request w = Some (Ok report, w') ->
  (forall other, user_id request <> Some other ->
     stored_users w' !! other = users d !! other) /\
  (forall uid, user_id request = Some uid -> users d !! uid = None ->
     stored_users w' = users d) /\
  is_Some (stored_reports w' !! report_id report).
Proof.
  intros Hd Hf Hp Hid H. apply analyze_code_returned in H.
  destruct H as (r & w1 & overall & badges & F & _ & _ & Sv & B).
  destruct (fan_out_keeps _ _ _ F) as (D1 & I1 & _).
  apply build_report_fields in B.
  destruct B as (-> & _ & _ & _ & _ & _ & Sub & Shape).
  apply (save_report_stores _ _ _ _ _ _ _ _ d) in Sv;
    [|congruence|congruence|assumption|assumption|assumption].
  destruct Sv as [Rs Us]. rewrite Rs, lookup_insert_eq.
  repeat split; [| |eauto].
  - intros other Hne.
    destruct Us as [->|(uid & lvl & U & _ & ->)]; [reflexivity|].
    apply lookup_alter_ne. congruence.
  - intros uid U Hnone.
    destruct Us as [->|(uid' & lvl & U' & _ & ->)]; [reflexivity|].
    assert (uid' = uid) by congruence. subst uid'.
    apply map_eq. intros u. destruct (decide (uid = u)) as [<-|Hne].
    + rewrite lookup_alter_eq, Hnone. reflexivity.
    + apply lookup_alter_ne. exact Hne.
Qed.

Lemma credit_touches_only_the_named_user_witness :
  exists report w',
    analyze_code (request_for (Some "p1") (Some "nobody")) all_fifty
    = Some (Ok report, w') /\
    stored_users w' = users one_user.
Proof.
  assert (H : {x | analyze_code (request_for (Some "p1") (Some "nobody"))
                     all_fifty = Some (Ok (fst x), snd x)}).
  { eexists (_, _). vm_compute. reflexivity. }
  destruct H as [[report w'] H]. cbn [fst snd] in H.
  destruct (credit_touches_only_the_named_user
              (request_for (Some "p1") (Some "nobody")) all_fifty w' one_user
              report eq_refl eq_refl eq_refl eq_refl H)
    as (_ & U & _).
  exists report, w'. split; [exact H|].
  apply (U "nobody"); reflexivity.
Defined.

Lemma save_report_id_taken request r id overall stat xp badges w d old :
  db_pool w = Some d ->
  truthy_str (project_id request) = true ->
  analysis_reports d !! id = Some old ->
  save_report request r id overall stat xp badges w
  = Some (emit save_failed w).
Proof.
  intros Hd Hp Hid. unfold save_report. rewrite Hd, Hp.
  destruct (score_param CodeQuality r); [|reflexivity].
  destruct (score_param Architecture r); [|reflexivity].
  destruct (score_param EventLoop r); [|reflexivity].
  destruct (score_param Cost r); [|reflexivity].
  cbn [mbind result_bind]. unfold insert_report. rewrite Hid.
  destruct (insert_fault w); reflexivity.
Qed.

(** X7: the report identifier is RPT- followed by the clock reading to the
    second, and the INSERT is a plain one. When a report with that
    identifier is already stored (a second analysis within the same
    second), the request is answered exactly as without a database, but
    its report is not stored, the stored report stays as it was, no xp is
    credited, and the only trace is an error entry in the log. *)
Theorem second_report_of_a_second_is_not_saved
    (request : AnalysisRequest) (w : world) (d : database)
    (old : report_row) :
  db_pool w = Some d ->
  truthy_str (project_id request) = true ->
  analysis_reports d !! ("RPT-" +:+ utcnow_stamp w) = Some old ->
  exists x w',
    analyze_code request w = Some (x, w') /\
    fst <$> analyze_code request (without_pool w) = Some x /\
    db_pool w' = Some d /\
    (forall report, x = Ok report ->
       report_id report = "RPT-" +:+ utcnow_stamp w /\
       last (trace w') = Some save_failed).
Proof.
  intros Hd Hp Hid. unfold analyze_code.
  rewrite FanOutFacts.fan_out_without_pool.
  pose proof (FanOutFacts.fan_out_spec w) as S. cbv zeta in S.
  destruct S as (_ & _ & D & _ & _ & St & _).
  destruct (fan_out w) as [r w1]. cbn [fst snd] in *.
  destruct (score_results r) as [[[[overall stat] xp] badges]|e].
  - rewrite (save_report_id_taken _ _ _ _ _ _ _ _ d old) by congruence.
    rewrite PersistFacts.save_report_without_pool. cbn.
    do 2 eexists. repeat split; [cbn; congruence| |].
    + apply build_report_fields in H. destruct H as (-> & _). congruence.
    + unfold emit. cbn. apply last_snoc.
  - do 2 eexists. repeat split; [cbn; congruence|discriminate|discriminate].
Qed.

Lemma second_report_of_a_second_is_not_saved_witness :
  exists x w',
    analyze_code (request_for (Some "p1") (Some "u1")) same_second
    = Some (x, w') /\
    db_pool w' = db_pool same_second.
Proof.
  assert (D : {d | db_pool same_second = Some d}).
  { eexists. vm_compute. reflexivity. }
  destruct D as [d D].
  assert (O : {old | analysis_reports d !! ("RPT-" +:+ utcnow_stamp same_second)
                     = Some old}).
  { revert D. vm_compute. intros D. injection D as <-. eexists. reflexivity. }
  destruct O as [old O].
  destruct (second_report_of_a_second_is_not_saved
              (request_for (Some "p1") (Some "u1")) same_second d old
              D eq_refl O) as (x & w' & A & _ & B & _).
  exists x, w'. split; [exact A | congruence].
Defined.

(** X8: xp is credited and a report stored only when the request names a
    project. For a request without [project_id] (or with an empty one),
    whatever its [user_id] and whatever the backends answer, the handler
    returns or raises without touching the database. *)
Theorem no_project_no_write (request : AnalysisRequest) (w : world) :
  truthy_str (project_id request) = false ->
  exists x w',
    analyze_code request w = Some (x, w') /\ db_pool w' = db_pool w /\
    trace w' = trace (snd (fan_out w)).
Proof.
  intros Hp. unfold analyze_code.
  pose proof (FanOutFacts.fan_out_spec w) as S. cbv zeta in S.
  destruct S as (_ & _ & D & _).
  destruct (fan_out w) as [r w1]. cbn [fst snd] in *.
  destruct (score_results r) as [[[[overall stat] xp] badges]|e].
  - unfold save_report. rewrite Hp.
    destruct (db_pool w1) eqn:E; do 2 eexists;
      repeat split; first [reflexivity | congruence].
  - do 2 eexists. repeat split; first [assumption | reflexivity].
Qed.

Lemma no_project_no_write_witness :
  exists x w',
    analyze_code (request_for None (Some "u1")) all_fifty = Some (x, w') /\
    db_pool w' = Some one_user.
Proof.
  destruct (no_project_no_write (request_for None (Some "u1")) all_fifty
              eq_refl) as (x & w' & A & B & _).
  exists x, w'. split; [exact A | exact B].
Defined.

End AnalyzeFacts.

(* ===================================================================== *)
(** * Facts: further behaviour of [POST /api/reports] *)
(* ===================================================================== *)
Module StoreMoreFacts.
Import Gateway Llm Notions Sample Cases.

Lemma on_conflict_update_again old row :
  on_conflict_update (on_conflict_update old row) row
  = on_conflict_update old row.
Proof. reflexivity. Qed.

Lemma on_conflict_update_same row : on_conflict_update row row = row.
Proof. destruct row. reflexivity. Qed.

(** X9: [POST /api/reports] is idempotent: an accepted submission posted a
    second time gets the same answer and leaves the database exactly as the
    first posting left it. *)
Theorem resubmitting_the_same_report_changes_nothing
    (report : list (string * json)) (w : world) (d : database)
    (id : string) (row : report_row) :
  db_pool w = Some d -> insert_fault w = false ->
  store_params report = Ok (JStr id, row) ->
  let w1 := snd (store_report report w) in
  db_pool (snd (store_report report w1)) = db_pool w1 /\
  fst (store_report report w1) = fst (store_report report w) /\
  response_field "status" (fst (store_report report w))
  = Some (JStr "success").
Proof.
  intros Hd Hf Hp. cbv zeta.
  rewrite (StoreFacts.store_report_accepted report w d id row Hd Hf Hp).
  set (stored := match analysis_reports d !! id with
                 | Some old => on_conflict_update old row
                 | None => row
                 end).
  set (d1 := {| analysis_reports := <[id := stored]> (analysis_reports d);
                users := users d |}).
  rewrite (StoreFacts.store_report_accepted report (with_db w d1) d1 id row
             eq_refl Hf Hp).
  repeat split.
  - cbn [db_pool with_db]. f_equal. subst d1.
    cbn [analysis_reports users]. rewrite lookup_insert_eq, insert_insert_eq.
    f_equal. f_equal. subst stored.
    destruct (analysis_reports d !! id);
      [apply on_conflict_update_again | apply on_conflict_update_same].
  - unfold store_report. cbn [db_pool with_db]. rewrite Hd, Hp.
    cbn [mbind result_bind fst snd insert_fault with_db].
    unfold upsert_report. rewrite Hf. reflexivity.
  - unfold store_report. rewrite Hd, Hp.
    cbn [mbind result_bind fst snd]. unfold upsert_report. rewrite Hf.
    reflexivity.
Qed.

Lemma resubmitting_the_same_report_changes_nothing_witness :
  db_pool (snd (store_report first_submission
                  (snd (store_report first_submission empty_store))))
  = db_pool (snd (store_report first_submission empty_store)).
Proof.
  refine (proj1 (resubmitting_the_same_report_changes_nothing
                   first_submission empty_store
                   {| analysis_reports := ∅; users := ∅ |} "RPT-1" _
                   eq_refl eq_refl _)).
  vm_compute. reflexivity.
Defined.

(** X10: [POST /api/reports] never credits anything: whatever is posted,
    also an rpg summary with xp, the users table is left as it was; and
    without a connection pool the reports are left as they were too. *)
Theorem store_report_never_touches_users
    (report : list (string * json)) (w : world) :
  stored_users (snd (store_report report w)) = stored_users w /\
  (db_pool w = None ->
   db_pool (snd (store_report report w)) = None /\
   response_field "status" (fst (store_report report w))
   = Some (JStr "warning")).
Proof.
  unfold store_report, stored_users. split.
  - destruct (db_pool w) as [d|] eqn:Hd; [|cbn; rewrite Hd; reflexivity].
    destruct (store_params report) as [[id row]|e];
      cbn [mbind result_bind fst snd]; [|cbn; rewrite Hd; reflexivity].
    unfold upsert_report.
    destruct (insert_fault w); [cbn; rewrite Hd; reflexivity|].
    destruct id; cbn; rewrite ?Hd; reflexivity.
  - intros Hd. rewrite Hd. cbn. split; [exact Hd | reflexivity].
Qed.

Lemma sub_score_raises report k v :
  dict_lookup (report_key k) report = Some v -> is_object v = false ->
  sub_score report (report_key k) = Raise AttributeError.
Proof.
  intros L O. unfold sub_score. rewrite L. cbn [default_of].
  destruct v; try discriminate; reflexivity.
Qed.

Lemma store_params_raises report k v :
  dict_lookup (report_key k) report = Some v -> is_object v = false ->
  exists e, store_params report = Raise e.
Proof.
  intros L O. pose proof (sub_score_raises report k v L O) as R.
  unfold store_params.
  destruct k; cbn [report_key] in R; rewrite ?R;
    repeat (match goal with
            | |- context [sub_score report ?key] =>
                destruct (sub_score report key); cbn [mbind result_bind]
            end; eauto);
    rewrite ?R; cbn [mbind result_bind]; eauto.
Qed.

(** X11: a posted report in which one of the four sub-reports is present
    but is not an object (for one, the null that [POST /api/analyze] returns
    for a failed backend) is refused: reading its score raises inside the
    [try], the answer has status error, and nothing is stored. *)
Theorem null_sub_report_is_refused
    (report : list (string * json)) (w : world) (d : database)
    (k : kind) (v : json) :
  db_pool w = Some d ->
  dict_lookup (report_key k) report = Some v -> is_object v = false ->
  response_field "status" (fst (store_report report w))
  = Some (JStr "error") /\
  db_pool (snd (store_report report w)) = Some d.
Proof.
  intros Hd L O. destruct (store_params_raises report k v L O) as [e E].
  unfold store_report. rewrite Hd, E. cbn. split; [reflexivity | exact Hd].
Qed.

Lemma null_sub_report_is_refused_witness :
  response_field "status" (fst (store_report report_with_null empty_store))
  = Some (JStr "error").
Proof.
  refine (proj1 (null_sub_report_is_refused report_with_null empty_store
                   {| analysis_reports := ∅; users := ∅ |} EventLoop JNull
                   eq_refl eq_refl eq_refl)).
Defined.

End StoreMoreFacts.

(* ===================================================================== *)
(** * Facts: the backends' [/analyze] handlers *)
(* ===================================================================== *)
Module BackendFacts.
Import Re JsonText Gateway Llm Notions Sample Cases.

Ltac bind_inv H :=
  repeat match type of H with
         | mbind _ ?x = Ok _ =>
             let E := fresh "E" in
             destruct x eqn:E; cbn [mbind result_bind] in H;
             [|discriminate H]
         end.

Lemma clamped_score_range py parsed key s :
  clamped_score py parsed key = Ok s -> 0 <= s <= 100.
Proof.
  unfold clamped_score. intros H. bind_inv H. injection H as <-. lia.
Qed.

(** The shape of a response built from parsed content: the clamped score
    first, under the kind's own key. *)
Lemma analysed_shape py k parsed model now response :
  analysed py k parsed model now = Ok response ->
  exists s rest,
    response = JObj ((score_key k, JInt s) :: rest) /\ 0 <= s <= 100 /\
    (k <> CodeQuality -> dict_lookup "score" rest = None).
Proof.
  destruct k; unfold analysed; intros H; bind_inv H; injection H as <-;
    match goal with
    | E : clamped_score _ _ _ = Ok _ |- _ => apply clamped_score_range in E
    end;
    do 2 eexists; (split; [reflexivity|]); (split; [assumption|]);
    intros Hk; first [reflexivity | exfalso; apply Hk; reflexivity].
Qed.

Lemma degraded_shape k model now :
  exists rest,
    degraded k model now = JObj ((score_key k, JInt 50) :: rest) /\
    (k <> CodeQuality -> dict_lookup "score" rest = None).
Proof.
  destruct k; eexists; (split; [reflexivity|]);
    intros Hk; first [reflexivity | exfalso; apply Hk; reflexivity].
Qed.

Lemma analyze_cases py k raw model now :
  analyze py k raw model now = Raise (HTTPException 500) \/
  analyze py k raw model now = Ok (degraded k model now) \/
  exists parsed response,
    extract_json_from_response (json_loads py) raw = Ok parsed /\
    is_parse_failure parsed = Ok false /\
    analysed py k parsed model now = Ok response /\
    analyze py k raw model now = Ok response.
Proof.
  unfold analyze.
  destruct (extract_json_from_response (json_loads py) raw) as [parsed|e];
    cbn [mbind result_bind]; [|left; reflexivity].
  destruct (is_parse_failure parsed) as [[|]|e] eqn:F;
    cbn [mbind result_bind];
    [right; left; reflexivity| |left; reflexivity].
  destruct (analysed py k parsed model now) as [response|e] eqn:A;
    [|left; reflexivity].
  right. right. exists parsed, response. repeat split; assumption.
Qed.

Lemma analyze_shape py k raw model now response :
  analyze py k raw model now = Ok response ->
  exists s rest,
    response = JObj ((score_key k, JInt s) :: rest) /\ 0 <= s <= 100 /\
    (k <> CodeQuality -> dict_lookup "score" rest = None).
Proof.
  intros H.
  destruct (analyze_cases py k raw model now)
    as [E|[E|(parsed & r & _ & _ & A & E)]];
    rewrite E in H; [discriminate| |]; injection H as <-.
  - destruct (degraded_shape k model now) as (rest & -> & N).
    exists 50, rest. repeat split; [lia | lia | exact N].
  - eapply analysed_shape, A.
Qed.

Lemma score_key_eqb k : String.eqb (score_key k) (score_key k) = true.
Proof. apply String.eqb_refl. Qed.

(** X12: whatever text the LLM returns, a backend's [/analyze] either
    answers with an object that carries an integer score between 0 and 100
    under its kind's key (which is what the gateway's composition reads), or
    fails with HTTP 500; no other exception leaves the handler and no score
    leaves the range. *)
Theorem backend_answers_a_score_in_range_or_500
    (py : interpreter) (k : kind) (raw_response model now : string) :
  (exists response,
      analyze py k raw_response model now = Ok response /\
      carries_score k response) \/
  analyze py k raw_response model now = Raise (HTTPException 500).
Proof.
  destruct (analyze py k raw_response model now) as [response|e] eqn:E.
  - left. exists response. split; [reflexivity|].
    destruct (analyze_shape _ _ _ _ _ _ E) as (s & rest & -> & B & _).
    exists ((score_key k, JInt s) :: rest), s.
    split; [reflexivity|]. split; [|exact B].
    cbn [dict_lookup]. rewrite score_key_eqb. reflexivity.
  - right. destruct (analyze_cases py k raw_response model now)
      as [H|[H|(parsed & r & _ & _ & _ & H)]];
      rewrite H in E; [symmetry; exact E | discriminate | discriminate].
Qed.

Lemma analysed_needs_an_object py k parsed model now :
  is_object parsed = false ->
  analysed py k parsed model now = Raise AttributeError.
Proof.
  intros O. destruct parsed; try discriminate; destruct k; reflexivity.
Qed.

(** X13: valid JSON that is not an object is no analysis. When the text
    recovered from the LLM answer is an array, a string, a number, a boolean
    or null, the handler never builds a response from it: it answers with
    the degraded response if the value happens to contain both marker
    words (as array items or inside a string), and fails with HTTP 500
    otherwise. *)
Theorem non_object_answer_is_degraded_or_500
    (py : interpreter) (k : kind) (raw_response model now : string)
    (parsed : json) :
  extract_json_from_response (json_loads py) raw_response = Ok parsed ->
  is_object parsed = false ->
  analyze py k raw_response model now
  = match is_parse_failure parsed with
    | Ok true => Ok (degraded k model now)
    | _ => Raise (HTTPException 500)
    end.
Proof.
  intros E O. unfold analyze. rewrite E. cbn [mbind result_bind].
  destruct (is_parse_failure parsed) as [[|]|e];
    cbn [mbind result_bind]; try reflexivity.
  rewrite analysed_needs_an_object by exact O. reflexivity.
Qed.

Lemma non_object_answer_is_degraded_or_500_witness :
  analyze cpython CodeQuality array_answer "llama3" "2026-01-01T12:00:00"
  = Raise (HTTPException 500).
Proof.
  refine (non_object_answer_is_degraded_or_500 cpython CodeQuality
            array_answer "llama3" "2026-01-01T12:00:00"
            (JArr [JInt 1; JInt 2]) _ _).
  - vm_compute. reflexivity.
  - reflexivity.
Defined.

Lemma sub_score_value report key v :
  sub_score report key = Ok v ->
  v = get_or_null "score" (default_of (dict_lookup key report) (JObj [])).
Proof.
  unfold sub_score, py_get, get_or_null.
  destruct (default_of (dict_lookup key report) (JObj [])); try discriminate.
  intros H. injection H as <-. reflexivity.
Qed.

Lemma store_params_scores report id row :
  store_params report = Ok (id, row) ->
  forall k v, dict_lookup (report_key k) report = Some v ->
              score_column k row = get_or_null "score" v.
Proof.
  unfold store_params. intros H. bind_inv H. injection H as <- <-.
  intros k v L.
  destruct k; cbn [score_column report_key] in *;
    match goal with
    | E : sub_score report ?key = Ok ?j |- ?j = _ =>
        apply sub_score_value in E; rewrite L in E; exact E
    end.
Qed.

(** X14: [POST /api/reports] fills each of the four score columns from the
    key [score] of the sub-report. Only the code-quality backend answers
    under that key: a report that carries the architecture, event-loop or
    cost backend's own response is stored with that response as its
    document and with NULL in that kind's score column, although the
    response carries the score under the kind's key. *)
Theorem score_columns_read_the_key_score
    (py : interpreter)
    (report : list (string * json)) (w : world) (d : database)
    (id : string) (row : report_row) (k : kind) (response : json)
    (raw_response model now : string) :
  db_pool w = Some d -> insert_fault w = false ->
  analysis_reports d !! id = None ->
  store_params report = Ok (JStr id, row) ->
  dict_lookup (report_key k) report = Some response ->
  analyze py k raw_response model now = Ok response ->
  k <> CodeQuality ->
  exists stored s,
    stored_reports (snd (store_report report w)) !! id = Some stored /\
    report_column k stored = Some response /\
    score_in k response = JInt s /\
    score_column k stored = JNull /\
    (forall k' v, dict_lookup (report_key k') report = Some v ->
                  score_column k' stored = get_or_null "score" v).
Proof.
  intros Hd Hf Hid Hp L A Hk.
  rewrite (StoreFacts.store_report_accepted report w d id row Hd Hf Hp).
  rewrite Hid. cbn [stored_reports with_db db_pool analysis_reports].
  rewrite lookup_insert_eq.
  destruct (analyze_shape _ _ _ _ _ _ A) as (s & rest & -> & _ & N).
  pose proof (store_params_scores _ _ _ Hp) as Sc.
  exists row, s. split; [reflexivity|]. repeat split.
  - destruct (StoreFacts.store_params_fields _ _ _ Hp)
      as (_ & _ & _ & F1 & F2 & F3 & F4).
    destruct k; cbn [report_column report_key] in *;
      rewrite ?F1, ?F2, ?F3, ?F4, L; reflexivity.
  - unfold score_in, get_or_null. cbn [dict_lookup].
    rewrite score_key_eqb. reflexivity.
  - rewrite (Sc k _ L). unfold get_or_null. cbn [dict_lookup].
    destruct k; cbn [score_key String.eqb Ascii.eqb Bool.eqb];
      try (exfalso; apply Hk; reflexivity);
      rewrite (N Hk); reflexivity.
  - exact Sc.
Qed.

Lemma score_columns_read_the_key_score_witness :
  exists stored s,
    stored_reports (snd (store_report gateway_report empty_store))
      !! "RPT-3" = Some stored /\
    score_in Architecture
      (degraded Architecture "llama3" "2026-01-01T12:00:00") = JInt s /\
    score_column Architecture stored = JNull.
Proof.
  assert (P : {row | store_params gateway_report = Ok (JStr "RPT-3", row)}).
  { eexists. vm_compute. reflexivity. }
  destruct P as [row P].
  destruct (score_columns_read_the_key_score cpython gateway_report
              empty_store
              {| analysis_reports := ∅; users := ∅ |} "RPT-3" row
              Architecture
              (degraded Architecture "llama3" "2026-01-01T12:00:00")
              no_json "llama3" "2026-01-01T12:00:00"
              eq_refl eq_refl eq_refl P eq_refl)
    as (stored & s & A & _ & B & C & _).
  - vm_compute. reflexivity.
  - discriminate.
  - exists stored, s. auto.
Defined.

Lemma lstrip_blank s : blank s = true -> lstrip s = EmptyString.
Proof.
  induction s as [|c s IH]; [reflexivity|]. cbn [blank lstrip].
  intros H. apply andb_prop in H as [-> H]. apply IH, H.
Qed.

Lemma rmatch_head_lit {R} r : forall c s i cap (k : _ -> _ -> _ -> option R),
  head_lit r = Some c -> starts_with c s = false ->
  rmatch r s i cap k = None.
Proof.
  induction r as [|a|r1 IH1 r2 _| | |r1 IH1]; intros c s i cap k Hh Hs;
    try discriminate; cbn [head_lit] in Hh; cbn [rmatch].
  - injection Hh as ->. destruct s as [|b s]; [reflexivity|].
    cbn [starts_with] in Hs. rewrite Hs. reflexivity.
  - eapply IH1; eassumption.
  - eapply IH1; eassumption.
Qed.

Lemma blank_starts_with c s :
  is_space c = false -> blank s = true -> starts_with c s = false.
Proof.
  intros Hc Hs. destruct s as [|a s]; [reflexivity|].
  cbn [blank] in Hs. apply andb_prop in Hs as [Ha _]. cbn [starts_with].
  destruct (Ascii.eqb_spec a c) as [->|]; [congruence | reflexivity].
Qed.

Lemma findall_from_blank c r whole fuel : forall s i,
  head_lit r = Some c -> is_space c = false -> blank s = true ->
  findall_from fuel r whole s i = [].
Proof.
  induction fuel as [|fuel IH]; intros s i Hh Hc Hs; [reflexivity|].
  cbn [findall_from]. unfold match_at.
  rewrite (rmatch_head_lit r c) by (auto using blank_starts_with).
  destruct s as [|a s]; [reflexivity|].
  cbn [blank] in Hs. apply andb_prop in Hs as [_ Hs]. apply IH; assumption.
Qed.

Lemma candidates_blank s : blank s = true -> candidates s = [s].
Proof.
  intros H. unfold candidates, json_patterns. cbn [map List.concat].
  unfold findall.
  rewrite (findall_from_blank "`" json_fence),
    (findall_from_blank "`" any_fence),
    (findall_from_blank "{" raw_object),
    (findall_from_blank "[" raw_array) by (exact H || reflexivity).
  reflexivity.
Qed.

Lemma blank_answer_degraded py k raw_response model now :
  blank raw_response = true ->
  extract_json_from_response (json_loads py) raw_response
  = Ok (parse_failure raw_response) /\
  analyze py k raw_response model now = Ok (degraded k model now).
Proof.
  intros H.
  assert (E : extract_json_from_response (json_loads py) raw_response
              = Ok (parse_failure raw_response)).
  { rewrite LlmFacts.extract_first_decoded, candidates_blank by exact H.
    cbn [try_matches]. unfold strip. rewrite lstrip_blank by exact H.
    reflexivity. }
  split; [exact E|]. unfold analyze. rewrite E. cbn [mbind result_bind].
  unfold parse_failure.
  rewrite LlmFacts.is_parse_failure_marker_keys; [reflexivity| |];
    eexists; reflexivity.
Qed.

(** X15: an empty or all-blank LLM answer is no error: no pattern finds a
    candidate in it, the text does not decode, and every backend answers
    with its degraded response (score 50). *)
Theorem blank_answer_gets_the_degraded_response
    (py : interpreter) (k : kind) (raw_response model now : string) :
  blank raw_response = true ->
  extract_json_from_response (json_loads py) raw_response
  = Ok (parse_failure raw_response) /\
  analyze py k raw_response model now = Ok (degraded k model now).
Proof. apply blank_answer_degraded. Qed.

Lemma blank_answer_gets_the_degraded_response_witness :
  analyze cpython Cost EmptyString "llama3" "2026-01-01T12:00:00"
  = Ok (degraded Cost "llama3" "2026-01-01T12:00:00").
Proof.
  refine (proj2 (blank_answer_gets_the_degraded_response cpython Cost
                   EmptyString "llama3" "2026-01-01T12:00:00" _)).
  reflexivity.
Defined.

End BackendFacts.

(* ===================================================================== *)
(** * Facts: what the greedy patterns of the JSON recovery match *)
(* ===================================================================== *)
Module SpanFacts.
Import Re JsonText Llm Notions Sample Cases.

Lemma substring_take_drop whole : forall i n,
  String.substring i n whole = str_take n (str_drop i whole).
Proof.
  induction whole as [|a whole IH]; intros [|i] [|n]; cbn;
    try reflexivity; try apply IH.
  - f_equal. apply (IH 0%nat n).
Qed.

Lemma str_drop_next whole : forall i a rest,
  str_drop i whole = String a rest -> str_drop (S i) whole = rest.
Proof.
  induction whole as [|b whole IH]; intros [|i] a rest H; cbn in *;
    try discriminate.
  - injection H as _ ->. reflexivity.
  - destruct whole as [|b' whole']; [destruct i; discriminate|].
    apply (IH i a rest H).
Qed.

(** The greedy star followed by the closing character stops at the last
    occurrence of that character. *)
Lemma star_greedy_last c t : forall j,
  star_greedy any_char t j
    (fun s' i' => rmatch (Lit c) s' i' None (fun _ e cap => Some (e, cap)))
  = match last_index c t with
    | Some p => Some ((j + p + 1)%nat, None)
    | None => None
    end.
Proof.
  induction t as [|a t IH]; intros j; [reflexivity|].
  cbn [star_greedy any_char last_index]. rewrite IH.
  destruct (last_index c t) as [p|].
  - do 2 f_equal. lia.
  - cbn [rmatch]. destruct (Ascii.eqb a c); [|reflexivity].
    do 2 f_equal. lia.
Qed.

Lemma match_at_greedy_span o c s i :
  match_at (greedy_span o c) s i
  = match s with
    | String a rest =>
        if Ascii.eqb a o then
          match last_index c rest with
          | Some p => Some ((S i + p + 1)%nat, None)
          | None => None
          end
        else None
    | EmptyString => None
    end.
Proof.
  unfold match_at, greedy_span. cbn [rmatch].
  destruct s as [|a rest]; [reflexivity|].
  destruct (Ascii.eqb a o); [|reflexivity].
  apply (star_greedy_last c rest (S i)).
Qed.

Lemma last_index_tail c a t : last_index c (String a t) = None ->
  last_index c t = None.
Proof. cbn. destruct (last_index c t); [discriminate | reflexivity]. Qed.

(** Where the closing character does not occur, the pattern matches
    nowhere. *)
Lemma findall_from_no_closing o c whole fuel : forall t i,
  last_index c t = None ->
  findall_from fuel (greedy_span o c) whole t i = [].
Proof.
  induction fuel as [|fuel IH]; intros t i H; [reflexivity|].
  cbn [findall_from]. rewrite match_at_greedy_span.
  destruct t as [|a t]; [reflexivity|].
  pose proof (last_index_tail _ _ _ H) as Ht. rewrite Ht.
  destruct (Ascii.eqb a o); apply IH, Ht.
Qed.

Lemma last_index_after c t : forall p,
  last_index c t = Some p -> last_index c (str_drop (S p) t) = None.
Proof.
  induction t as [|a t IH]; intros p H; [discriminate|].
  cbn [last_index] in H. cbn [str_drop].
  destruct (last_index c t) as [q|] eqn:L.
  - injection H as <-. apply IH. reflexivity.
  - destruct (Ascii.eqb a c); [|discriminate]. injection H as <-.
    destruct t; exact L.
Qed.

Lemma findall_from_span o c whole fuel : forall s i,
  str_drop i whole = s -> (String.length s < fuel)%nat ->
  findall_from fuel (greedy_span o c) whole s i
  = option_list (brace_span o c s).
Proof.
  induction fuel as [|fuel IH]; intros s i Hs Hf; [lia|].
  cbn [findall_from]. rewrite match_at_greedy_span.
  destruct s as [|a rest]; [reflexivity|].
  cbn [brace_span]. cbn [String.length] in Hf.
  destruct (Ascii.eqb a o).
  - destruct (last_index c rest) as [p|] eqn:L.
    + replace (S i + p + 1 =? i)%nat with false
        by (symmetry; apply Nat.eqb_neq; lia).
      replace (S i + p + 1 - i)%nat with (S (S p)) by lia.
      rewrite substring_take_drop, Hs. cbn [str_take str_drop].
      rewrite findall_from_no_closing by (apply last_index_after, L).
      reflexivity.
    + apply findall_from_no_closing, L.
  - apply IH; [eapply str_drop_next, Hs | lia].
Qed.

Lemma findall_greedy_spans response :
  findall raw_object response = option_list (brace_span "{" "}" response) /\
  findall raw_array response = option_list (brace_span "[" "]" response).
Proof.
  unfold findall. split;
    apply (findall_from_span _ _ response _ response 0%nat);
    (reflexivity || lia).
Qed.

(** X16: each of the two greedy patterns of the JSON recovery offers at most
    one candidate, whatever the text: the object pattern the part from the
    first opening brace to the last closing brace after it, the array
    pattern the part from the first opening bracket to the last closing
    bracket after it; when no closing character follows the first opening
    one, it offers none. *)
Theorem greedy_patterns_offer_one_span (response : string) :
  findall raw_object response = option_list (brace_span "{" "}" response) /\
  findall raw_array response = option_list (brace_span "[" "]" response).
Proof. apply findall_greedy_spans. Qed.

Lemma lacks_starts_with c s : lacks c s -> starts_with c s = false.
Proof.
  unfold lacks. destruct s as [|a s]; [reflexivity|]. cbn.
  destruct (last_index c s); [discriminate|].
  destruct (Ascii.eqb a c); [discriminate | reflexivity].
Qed.

Lemma findall_from_lacks c r whole fuel : forall s i,
  head_lit r = Some c -> lacks c s ->
  findall_from fuel r whole s i = [].
Proof.
  induction fuel as [|fuel IH]; intros s i Hh Hs; [reflexivity|].
  cbn [findall_from]. unfold match_at.
  rewrite (BackendFacts.rmatch_head_lit r c)
    by (auto using lacks_starts_with).
  destruct s as [|a s]; [reflexivity|].
  apply IH; [exact Hh | eapply last_index_tail, Hs].
Qed.

(** Without a backtick there is no fenced block. *)
Lemma candidates_without_fence response :
  lacks "`" response ->
  candidates response
  = (option_list (brace_span "{" "}" response)
     ++ option_list (brace_span "[" "]" response) ++ [response])%list.
Proof.
  intros H. unfold candidates, json_patterns. cbn [map List.concat].
  destruct (findall_greedy_spans response) as [-> ->].
  unfold findall.
  rewrite (findall_from_lacks "`" json_fence),
    (findall_from_lacks "`" any_fence) by (exact H || reflexivity).
  rewrite app_nil_r, <- !app_assoc. reflexivity.
Qed.

Lemma brace_span_skip o c pre s :
  lacks o pre -> brace_span o c (pre +:+ s) = brace_span o c s.
Proof.
  induction pre as [|a pre IH]; intros H; [reflexivity|].
  change (String a pre +:+ s) with (String a (pre +:+ s)).
  cbn [brace_span].
  pose proof (lacks_starts_with _ _ H) as Ha. cbn [starts_with] in Ha.
  rewrite Ha. apply IH. eapply last_index_tail, H.
Qed.

Lemma last_index_closing c inner post :
  lacks c post ->
  last_index c (inner +:+ String c post) = Some (String.length inner).
Proof.
  intros H. induction inner as [|a inner IH].
  - change (EmptyString +:+ String c post) with (String c post).
    cbn [last_index String.length]. rewrite H, Ascii.eqb_refl. reflexivity.
  - change (String a inner +:+ String c post)
      with (String a (inner +:+ String c post)).
    cbn [last_index String.length]. rewrite IH. reflexivity.
Qed.

Lemma str_take_cons n a x :
  str_take (S n) (String a x) = String a (str_take n x).
Proof. reflexivity. Qed.

Lemma str_take_closing c inner post :
  str_take (S (String.length inner)) (inner +:+ String c post)
  = inner +:+ String c EmptyString.
Proof.
  induction inner as [|a inner IH]; [reflexivity|].
  change (String a inner +:+ String c post)
    with (String a (inner +:+ String c post)).
  change (String a inner +:+ String c EmptyString)
    with (String a (inner +:+ String c EmptyString)).
  cbn [String.length]. rewrite str_take_cons, IH. reflexivity.
Qed.

(** X17: prose around an object is tolerated as long as it brings no brace
    of its own. If the answer holds no backtick, no opening brace comes
    before the object and no closing brace after it, then the object
    pattern offers exactly the object, and if that decodes, it is what
    [extract_json_from_response] returns, whatever [json.loads] is. *)
Theorem prose_around_an_object_is_tolerated
    (loads : string -> result json) (pre inner post : string) (v : json) :
  let object := String "{" (inner +:+ String "}" EmptyString) in
  let response := pre +:+ String "{" (inner +:+ String "}" post) in
  lacks "`" response -> lacks "{" pre -> lacks "}" post ->
  loads (strip object) = Ok v ->
  findall raw_object response = [object] /\
  extract_json_from_response loads response = Ok v.
Proof.
  cbv zeta. intros Hfence Hpre Hpost Hv.
  assert (B : brace_span "{" "}"
                (pre +:+ String "{" (inner +:+ String "}" post))
              = Some (String "{" (inner +:+ String "}" EmptyString))).
  { rewrite brace_span_skip by exact Hpre. cbn [brace_span Ascii.eqb Bool.eqb].
    rewrite last_index_closing by exact Hpost.
    rewrite str_take_closing. reflexivity. }
  split.
  - rewrite (proj1 (findall_greedy_spans _)), B. reflexivity.
  - rewrite LlmFacts.extract_first_decoded,
      candidates_without_fence by exact Hfence.
    rewrite B. unfold option_list at 1.
    cbn [option_rect app try_matches]. rewrite Hv. reflexivity.
Qed.

Lemma prose_around_an_object_is_tolerated_witness :
  extract_json_from_response (json_loads cpython) object_in_prose
  = Ok (JObj [("score", JInt 70)]).
Proof.
  refine (proj2 (prose_around_an_object_is_tolerated (json_loads cpython)
                   "Here is the result: " (quoted "score" +:+ ": 70")
                   " Hope it helps." (JObj [("score", JInt 70)]) _ _ _ _));
    vm_compute; reflexivity.
Defined.

End SpanFacts.

(* ===================================================================== *)
(** * Facts: the health report of the gateway *)
(* ===================================================================== *)
Module HealthFacts.
Import Gateway Health Cases.

Lemma unavailable_iff o :
  String.eqb (check_service_health o) "unavailable" = true <-> unreachable o.
Proof.
  unfold unreachable.
  destruct o as [| |status_code body]; cbn;
    try destruct (status_code =? 200); cbn; split; intros H; auto;
    try discriminate; destruct H; discriminate.
Qed.

Lemma all_unavailable_iff p :
  all_unavailable
    (map (fun m => (service_name m, check_service_health (mcp_probe p m)))
       MCP_SERVICES) = true
  <-> forall m, unreachable (mcp_probe p m).
Proof.
  unfold all_unavailable, MCP_SERVICES. cbn [map forallb snd].
  rewrite !andb_true_iff, !unavailable_iff. split.
  - intros (A & B & C & D & E & _) []; assumption.
  - intros H. repeat split; apply H.
Qed.

(** X18: the overall status of [GET /health] is critical exactly when all
    five MCP services are unreachable, whatever the database; otherwise it
    is degraded exactly when the database check fails and healthy exactly
    when it passes. Services that answer with an error status and the
    state of Ollama never lower it: the report says healthy with the
    database up, Ollama down and four services unreachable as long as the
    fifth answers anything. *)
Theorem health_is_critical_only_without_any_service
    (p : probes) (now : string) :
  let h := health_check p now in
  (hs_status h = "critical" <-> forall m, unreachable (mcp_probe p m)) /\
  (hs_status h = "degraded" <->
   select_one p <> Some true /\ exists m, ~ unreachable (mcp_probe p m)) /\
  (hs_status h = "healthy" <->
   select_one p = Some true /\ exists m, ~ unreachable (mcp_probe p m)) /\
  (forall o,
     hs_status (health_check {| select_one := select_one p;
                                ollama_probe := o;
                                mcp_probe := mcp_probe p |} now)
     = hs_status h) /\
  hs_status (health_check one_service_answers now) = "healthy".
Proof.
  cbv zeta. unfold health_check. cbn [hs_status select_one mcp_probe].
  pose proof (all_unavailable_iff p) as A.
  set (st := map _ MCP_SERVICES) in *.
  assert (N : all_unavailable st = false ->
              exists m, ~ unreachable (mcp_probe p m)).
  { intros F. unfold st, all_unavailable, MCP_SERVICES in F.
    cbn [map forallb snd] in F.
    repeat (apply andb_false_iff in F; destruct F as [F|F]);
      try discriminate;
      eexists; rewrite <- unavailable_iff, F; discriminate. }
  destruct (all_unavailable st) eqn:E.
  - pose proof (proj1 A eq_refl) as U. repeat split; try discriminate;
      try (intros [_ [m Hm]]; destruct (Hm (U m))); auto.
  - destruct (N eq_refl) as [m Hm].
    assert (~ forall m, unreachable (mcp_probe p m)).
    { intros U. apply A in U. discriminate. }
    destruct (select_one p) as [[|]|]; cbn; repeat split;
      try discriminate; try congruence; eauto;
      try (intros [? _]; congruence); intros; contradiction.
Qed.

End HealthFacts.

(* ===================================================================== *)
(** * Facts: the LLM client *)
(* ===================================================================== *)
Module ClientFacts.
Import Gateway Llm Client Notions Sample Cases.

Lemma nonempty_truthy s : truthy (JStr s) = true <-> s <> EmptyString.
Proof.
  cbn. destruct (String.eqb_spec s EmptyString); split; intros H;
    try discriminate; try congruence; reflexivity.
Qed.

Lemma init_provider p k gm ou om :
  provider (init p k gm ou om) = "groq"
  <-> lower p = "groq" /\ k <> EmptyString.
Proof.
  unfold init. cbn [provider]. rewrite <- nonempty_truthy.
  destruct (String.eqb_spec (lower p) "groq") as [E|E];
    destruct (truthy (JStr k)); cbn [andb negb]; rewrite ?E.
  - split; auto.
  - split; [discriminate | intros [_ F]; discriminate].
  - split; [congruence | intros [F _]; congruence].
  - split; [congruence | intros [F _]; congruence].
Qed.

(** X19: a client never selects Groq without a key. The constructed client
    has provider groq exactly when the configured provider is groq in any
    letter case and the key is not empty; every other provider name
    (a misspelling included) is served by the Ollama request, and the
    reported model is the Groq model exactly for provider groq. *)
Theorem groq_is_selected_only_with_a_key
    (p k gm ou om : string) (fetched : Py.result json) :
  let c := init p k gm ou om in
  (provider c = "groq" <-> lower p = "groq" /\ k <> EmptyString) /\
  (provider c = "groq" -> model c = gm /\
                          generate_once c fetched = generate_groq fetched) /\
  (provider c <> "groq" -> model c = om /\
                           generate_once c fetched = generate_ollama fetched) /\
  get_model_info c
  = JObj [("provider", JStr (provider c)); ("model", JStr (model c))].
Proof.
  cbv zeta. split; [apply init_provider|].
  unfold model, generate_once, get_model_info.
  destruct (String.eqb_spec (provider (init p k gm ou om)) "groq") as [E|E];
    repeat split; try reflexivity; congruence.
Qed.

(** X20: the class named [OllamaClient] in llm_client.py talks to Groq
    whenever a Groq key is configured: its [base_url] and [model] arguments
    and the configured provider are then ignored, and the model it reports
    (the [model_used] of the backends' responses) is the Groq model. Only
    without a key does it use Ollama with the given model. *)
Theorem ollama_client_prefers_groq
    (env : settings) (base_url m : string) :
  (GROQ_API_KEY env <> EmptyString ->
   provider (OllamaClient env base_url m) = "groq" /\
   model (OllamaClient env base_url m) = GROQ_MODEL env /\
   forall base_url' m' provider',
     OllamaClient env base_url m
     = OllamaClient
         {| LLM_PROVIDER := provider'; GROQ_API_KEY := GROQ_API_KEY env;
            GROQ_MODEL := GROQ_MODEL env; OLLAMA_URL := OLLAMA_URL env;
            OLLAMA_MODEL := OLLAMA_MODEL env |} base_url' m') /\
  (GROQ_API_KEY env = EmptyString ->
   provider (OllamaClient env base_url m) = "ollama" /\
   model (OllamaClient env base_url m) = m /\
   ollama_url (OllamaClient env base_url m) = base_url).
Proof.
  unfold OllamaClient, model. split.
  - intros H. apply nonempty_truthy in H. cbn [GROQ_API_KEY]. rewrite H.
    unfold init. cbn [provider groq_model lower lower_char].
    rewrite H. cbn. repeat split.
  - intros ->. cbn. repeat split.
Qed.

Lemma ollama_client_prefers_groq_witness :
  model (ollama_client groq_settings) = "llama-3.1-8b-instant".
Proof.
  refine (proj1 (proj2 (proj1 (ollama_client_prefers_groq groq_settings
                                 "http://ollama:11434" "llama3") _))).
  discriminate.
Defined.

(** X21: a Groq completion without choices is no error. If the provider is
    groq and the first request returns an object that has no [choices] key
    or an empty [choices] list, [generate] returns the empty text after one
    attempt, and the backend answers with its degraded response (score 50)
    instead of failing. *)
Theorem completion_without_choices_is_degraded
    (py : interpreter) (k : kind) (c : LLMClient)
    (fetched : nat -> Py.result json)
    (now : string) (fields : list (string * json)) :
  provider c = "groq" ->
  fetched 0%nat = Ok (JObj fields) ->
  dict_lookup "choices" fields = None
  \/ dict_lookup "choices" fields = Some (JArr []) ->
  generate c fetched = Returned (JStr EmptyString) 1 /\
  respond py k c fetched now = Ok (degraded k (groq_model c) now).
Proof.
  intros Hp Hf Hc.
  assert (G : generate c fetched = Returned (JStr EmptyString) 1).
  { unfold generate. cbn [retry]. unfold generate_once. rewrite Hp, Hf.
    cbn [String.eqb Ascii.eqb Bool.eqb generate_groq mbind result_bind].
    unfold groq_content. cbn [py_in py_getitem mbind result_bind].
    destruct Hc as [-> | ->]; reflexivity. }
  split; [exact G|]. unfold respond. rewrite G.
  unfold model. rewrite Hp. cbn [String.eqb Ascii.eqb Bool.eqb].
  apply BackendFacts.blank_answer_degraded. reflexivity.
Qed.

Lemma completion_without_choices_is_degraded_witness :
  respond cpython Cost (default_client groq_settings)
    (fun _ => Ok no_choices) "2026-01-01T12:00:00"
  = Ok (degraded Cost "llama-3.1-8b-instant" "2026-01-01T12:00:00").
Proof.
  refine (proj2 (completion_without_choices_is_degraded cpython Cost
                   (default_client groq_settings) (fun _ => Ok no_choices)
                   "2026-01-01T12:00:00"
                   [("id", JStr "cmpl-1"); ("choices", JArr [])] _ _ _)).
  - reflexivity.
  - reflexivity.
  - right. reflexivity.
Defined.

Lemma retry_agrees {A} n : forall (f g : nat -> Py.result A) made,
  (forall i, (made <= i < made + n)%nat -> f i = g i) ->
  retry n f made = retry n g made.
Proof.
  induction n as [|n IH]; intros f g made H; [reflexivity|].
  cbn [retry]. rewrite <- (H made) by lia.
  destruct (f made); [reflexivity|]. apply IH. intros i Hi. apply H. lia.
Qed.

(** X22: [generate] makes at most three requests. The backend's answer
    depends on the outcomes of the first three requests only; when the
    first two fail and the third returns a text, the answer is the one for
    that text; when all three fail, in whatever way, the backend answers
    500. *)
Theorem generate_gives_up_after_three_attempts
    (py : interpreter) (k : kind) (c : LLMClient)
    (fetched fetched' : nat -> Py.result json) (now : string) :
  ((forall i, (i < 3)%nat -> fetched i = fetched' i) ->
   generate c fetched = generate c fetched' /\
   respond py k c fetched now = respond py k c fetched' now) /\
  ((forall i, (i < 3)%nat -> is_ok (generate_once c (fetched i)) = false) ->
   generate c fetched = RetryError 3 /\
   respond py k c fetched now = Raise (HTTPException 500)) /\
  (forall raw_response,
     is_ok (generate_once c (fetched 0%nat)) = false ->
     is_ok (generate_once c (fetched 1%nat)) = false ->
     generate_once c (fetched 2%nat) = Ok (JStr raw_response) ->
     generate c fetched = Returned (JStr raw_response) 3 /\
     respond py k c fetched now
     = analyze py k raw_response (model c) now).
Proof.
  repeat split.
  - unfold generate. apply retry_agrees. intros i Hi. rewrite H by lia.
    reflexivity.
  - unfold respond, generate.
    rewrite (retry_agrees 3 _ (fun i => generate_once c (fetched' i)) 0);
      [reflexivity|].
    intros i Hi. rewrite H by lia. reflexivity.
  - unfold generate. cbn [retry].
    pose proof (H 0%nat ltac:(lia)) as H0.
    pose proof (H 1%nat ltac:(lia)) as H1.
    pose proof (H 2%nat ltac:(lia)) as H2.
    destruct (generate_once c (fetched 0%nat)); [discriminate|].
    destruct (generate_once c (fetched 1%nat)); [discriminate|].
    destruct (generate_once c (fetched 2%nat)); [discriminate|].
    reflexivity.
  - unfold respond, generate. cbn [retry].
    pose proof (H 0%nat ltac:(lia)) as H0.
    pose proof (H 1%nat ltac:(lia)) as H1.
    pose proof (H 2%nat ltac:(lia)) as H2.
    destruct (generate_once c (fetched 0%nat)); [discriminate|].
    destruct (generate_once c (fetched 1%nat)); [discriminate|].
    destruct (generate_once c (fetched 2%nat)); [discriminate|].
    reflexivity.
  - unfold generate. cbn [retry].
    destruct (generate_once c (fetched 0%nat)); [discriminate|].
    destruct (generate_once c (fetched 1%nat)); [discriminate|].
    rewrite H1. reflexivity.
  - unfold respond, generate. cbn [retry].
    destruct (generate_once c (fetched 0%nat)); [discriminate|].
    destruct (generate_once c (fetched 1%nat)); [discriminate|].
    rewrite H1. reflexivity.
Qed.

Lemma generate_gives_up_after_three_attempts_witness :
  respond cpython CodeQuality
    (ollama_client
                         {| LLM_PROVIDER := "ollama";
                            GROQ_API_KEY := EmptyString;
                            GROQ_MODEL := "llama-3.1-8b-instant";
                            OLLAMA_URL := "http://ollama:11434";
                            OLLAMA_MODEL := "llama3" |})
    third_time_lucky "2026-01-01T12:00:00"
  = analyze cpython CodeQuality no_json "llama3" "2026-01-01T12:00:00".
Proof.
  refine (proj2 (proj2 (proj2 (generate_gives_up_after_three_attempts
                                 cpython CodeQuality _ third_time_lucky
                                 third_time_lucky "2026-01-01T12:00:00"))
                   no_json _ _ _));
    reflexivity.
Defined.

End ClientFacts.

(* ===================================================================== *)
(** * Facts: the Lighthouse backend *)
(* ===================================================================== *)
Module LighthouseFacts.
Import Llm Lighthouse Notions Sample Cases BackendFacts.

Lemma percent_of_nothing py : percent py (JObj []) = Ok 0.
Proof. reflexivity. Qed.

(** The categories of the response list, under each name, the percentage
    of the run's entry of that name. *)
Lemma listed_score_of_items py name items : forall categories,
  map_result (category_score py) items = Ok categories ->
  listed_score name categories
  = match dict_lookup name items with
    | Some data => match percent py data with
                   | Ok v => Some (JInt v)
                   | Raise _ => None
                   end
    | None => None
    end.
Proof.
  induction items as [|[key data] items IH]; intros categories H.
  - injection H as <-. reflexivity.
  - cbn [map_result] in H. bind_inv H. injection H as <-.
    unfold category_score in E. cbn [fst snd] in E. bind_inv E.
    injection E as <-.
    cbn [listed_score dict_lookup default_of is_str String.eqb Ascii.eqb
         Bool.eqb].
    destruct (String.eqb key name); [rewrite E1; reflexivity|].
    apply IH. reflexivity.
Qed.

(** X23: when the Lighthouse CLI ran, the overall score of the response is
    the score the response lists for the performance category, and 0 when
    that category was not audited; when the CLI is missing, the simulated
    response draws the two independently, so its overall score may differ
    from the performance score it lists. *)
Theorem overall_score_is_the_performance_score
    (py : interpreter) (url : string) (version run : process)
    (random : draws) (now : string) (response : json) :
  analyze_url py url version run random now = Ok response ->
  exists overall categories,
    response_field "overall_score" response = Some (JInt overall) /\
    response_field "categories" response = Some (JArr categories) /\
    (check_lighthouse_available version = true ->
     default_of (listed_score "performance" categories) (JInt 0)
     = JInt overall) /\
    (check_lighthouse_available version = false ->
     overall = drawn_overall random /\
     listed_score "performance" categories
     = Some (JInt (drawn_performance random))).
Proof.
  unfold analyze_url. destruct (check_lighthouse_available version).
  - destruct (run_lighthouse py run) as [raw_result|]; [|discriminate].
    destruct (lighthouse_response py url raw_result now) as [r|e] eqn:L;
      [|discriminate].
    intros H. injection H as <-.
    unfold lighthouse_response in L. bind_inv L. injection L as <-.
    do 2 eexists. split; [reflexivity|]. split; [reflexivity|].
    split; [intros _ | discriminate].
    match goal with
    | I : py_items ?listed = Ok _ |- _ =>
        destruct listed as [| | | | | |fields]; try discriminate I;
        cbn [py_items] in I; injection I as <-
    end.
    match goal with
    | M : map_result (category_score py) fields = Ok _ |- _ =>
        rewrite (listed_score_of_items _ _ _ _ M)
    end.
    match goal with
    | G : py_get (JObj fields) "performance" _ = Ok _ |- _ =>
        cbn [py_get] in G; injection G as <-
    end.
    match goal with
    | P : percent _ _ = Ok _ |- _ =>
        destruct (dict_lookup "performance" fields) as [data|];
        cbn [default_of] in P |- *;
        [rewrite P; reflexivity
        |rewrite percent_of_nothing in P; injection P as <-; reflexivity]
    end.
  - intros H. injection H as <-.
    do 2 eexists. split; [reflexivity|]. split; [reflexivity|].
    split; [discriminate | intros _; split; reflexivity].
Qed.

Lemma overall_score_is_the_performance_score_witness :
  exists response overall,
    analyze_url cpython "https://example.org" version_ok
      run_printed_performance_only some_draws "2026-01-01T12:00:00"
    = Ok response /\
    response_field "overall_score" response = Some (JInt overall).
Proof.
  assert (H : {response | analyze_url cpython "https://example.org"
                            version_ok run_printed_performance_only
                            some_draws "2026-01-01T12:00:00"
                          = Ok response}).
  { eexists. vm_compute. reflexivity. }
  destruct H as [response H].
  destruct (overall_score_is_the_performance_score _ _ _ _ _ _ _ H)
    as (overall & categories & A & _).
  exists response, overall. split; [exact H | exact A].
Defined.

Lemma hundredths_checked py :
  forallb (percent_checked py [29; 57; 58]) ScoreRange.all_scores = true.
Proof. vm_compute. reflexivity. Qed.

(** X24: the percentage of a category is [int(score * 100)] on binary64,
    a truncation: for a Lighthouse score of [n] hundredths (0 to 100) the
    backend reports [n], except for 0.29, 0.57 and 0.58, which it reports
    as 28, 56 and 57. *)
Theorem percent_falls_short_of_three_scores (py : interpreter) (n : Z) :
  0 <= n <= 100 ->
  percent py (JObj [("score", hundredths n)])
  = Ok (if existsb (Z.eqb n) [29; 57; 58] then n - 1 else n).
Proof.
  intros H. pose proof (hundredths_checked py) as C.
  rewrite forallb_forall in C.
  specialize (C n (RangeFacts.in_all_scores n H)).
  unfold percent_checked in C.
  destruct (percent py (JObj [("score", hundredths n)])) as [v|];
    [|discriminate].
  destruct (existsb (Z.eqb n) [29; 57; 58]);
    apply Z.eqb_eq in C; subst v; reflexivity.
Qed.

Lemma percent_falls_short_of_three_scores_witness :
  percent cpython (JObj [("score", hundredths 29)]) = Ok 28.
Proof.
  apply (percent_falls_short_of_three_scores cpython 29). lia.
Defined.

End LighthouseFacts.

(* ===================================================================== *)
(** * Facts: what the fence patterns of the JSON recovery match *)
(* ===================================================================== *)
Module FenceFacts.
Import Re JsonText Llm Notions Sample Cases.

Lemma append_cons a s t : String a s +:+ t = String a (s +:+ t).
Proof. reflexivity. Qed.

Lemma append_empty t : EmptyString +:+ t = t.
Proof. reflexivity. Qed.

Lemma str_drop_append a : forall t, str_drop (String.length a) (a +:+ t) = t.
Proof.
  induction a as [|c a IH]; intros t; [reflexivity|].
  rewrite append_cons. cbn [String.length str_drop]. apply IH.
Qed.

Lemma str_take_append a : forall t, str_take (String.length a) (a +:+ t) = a.
Proof.
  induction a as [|c a IH]; intros t.
  - rewrite append_empty. destruct t; reflexivity.
  - rewrite append_cons. cbn [String.length].
    rewrite SpanFacts.str_take_cons, IH. reflexivity.
Qed.

Lemma str_drop_add n : forall m s,
  str_drop (n + m) s = str_drop m (str_drop n s).
Proof.
  induction n as [|n IH]; intros m s; [reflexivity|].
  destruct s as [|c s]; cbn [Nat.add str_drop]; [destruct m; reflexivity|].
  apply IH.
Qed.

(** A literal text at the head of the input is consumed as it stands. *)
Lemma rmatch_lits {R} l : forall t i cap (k : _ -> _ -> _ -> option R),
  rmatch (lits l) (l +:+ t) i cap k = k t (i + String.length l)%nat cap.
Proof.
  induction l as [|c l IH]; intros t i cap k.
  - rewrite append_empty. cbn [lits rmatch String.length].
    rewrite Nat.add_0_r. reflexivity.
  - rewrite append_cons. cbn [lits rmatch String.length].
    rewrite Ascii.eqb_refl, IH. f_equal. lia.
Qed.

(** The greedy [\s*] takes a whole run of blanks if the rest then
    matches. *)
Lemma star_greedy_blank {R} ws : forall t i (k : _ -> _ -> option R) x,
  blank ws = true -> head_space t = false ->
  k t (i + String.length ws)%nat = Some x ->
  star_greedy is_space (ws +:+ t) i k = Some x.
Proof.
  induction ws as [|c ws IH]; intros t i k x Hb Ht Hk.
  - rewrite append_empty. cbn [String.length] in Hk.
    rewrite Nat.add_0_r in Hk.
    destruct t as [|a t]; cbn [star_greedy]; [exact Hk|].
    cbn [head_space] in Ht. rewrite Ht. exact Hk.
  - rewrite append_cons. cbn [blank] in Hb.
    apply andb_prop in Hb as [Hc Hb]. cbn [star_greedy]. rewrite Hc.
    rewrite (IH t (S i) k x); [reflexivity|exact Hb|exact Ht|].
    rewrite <- Hk. f_equal. cbn [String.length]. lia.
Qed.

Lemma tick_is_no_space : is_space "`" = false.
Proof. reflexivity. Qed.

(** [\s*] followed by something that starts with a backtick fails where
    the text, blanks skipped, does not start with a backtick. *)
Lemma star_greedy_no_tick {R} (k : string -> nat -> option R) :
  (forall s i, starts_with "`" s = false -> k s i = None) ->
  forall s i, starts_with "`" (lstrip s) = false ->
              star_greedy is_space s i k = None.
Proof.
  intros Hk. induction s as [|c s IH]; intros i H.
  - apply Hk. reflexivity.
  - cbn [star_greedy]. cbn [lstrip] in H.
    destruct (is_space c) eqn:Hc.
    + rewrite IH by exact H. apply Hk. cbn [starts_with].
      destruct (Ascii.eqb_spec c "`") as [->|]; [|reflexivity].
      rewrite tick_is_no_space in Hc. discriminate.
    + apply Hk, H.
Qed.

Lemma lacks_cons c a s : lacks c (String a s) ->
  Ascii.eqb a c = false /\ lacks c s.
Proof.
  unfold lacks. cbn. destruct (last_index c s); [discriminate|].
  destruct (Ascii.eqb a c); [discriminate | auto].
Qed.

(** A text without backtick that ends in a non-blank character does not
    lead, blanks skipped, to a backtick, whatever follows it. *)
Lemma lstrip_no_tick u : forall t,
  lacks "`" u -> ends_nonspace u = true ->
  starts_with "`" (lstrip (u +:+ t)) = false.
Proof.
  induction u as [|c u IH]; intros t Hl He; [discriminate|].
  apply lacks_cons in Hl as [Hc Hl]. rewrite append_cons. cbn [lstrip].
  destruct (is_space c) eqn:Sc.
  - apply IH; [exact Hl|]. destruct u; [|exact He].
    cbn in He. rewrite Sc in He. discriminate.
  - exact Hc.
Qed.

(** The lazy group stops at the end of such a text if the rest matches
    there: inside it the continuation, which needs blanks and a backtick,
    fails. *)
Lemma star_lazy_body {R} u : forall t i (k : _ -> _ -> option R) x,
  lacks "`" u -> u = EmptyString \/ ends_nonspace u = true ->
  (forall s j, starts_with "`" (lstrip s) = false -> k s j = None) ->
  k t (i + String.length u)%nat = Some x ->
  star_lazy any_char (u +:+ t) i k = Some x.
Proof.
  induction u as [|c u IH]; intros t i k x Hl He Hk Hx.
  - rewrite append_empty. cbn [String.length] in Hx.
    rewrite Nat.add_0_r in Hx. destruct t; cbn [star_lazy]; rewrite Hx;
      reflexivity.
  - destruct He as [He|He]; [discriminate|].
    rewrite append_cons. cbn [star_lazy].
    rewrite Hk by (rewrite <- append_cons; apply lstrip_no_tick; assumption).
    cbn [any_char]. apply lacks_cons in Hl as [_ Hl].
    apply IH; [exact Hl| |exact Hk|].
    + destruct u; [left; reflexivity | right; exact He].
    + rewrite <- Hx. f_equal. cbn [String.length]. lia.
Qed.

(** The match of a fence pattern at a fenced block: the group is the
    body. *)
Lemma match_at_fence opening ws1 body ws2 post i :
  blank ws1 = true -> blank ws2 = true ->
  lacks "`" body -> head_space body = false -> ends_nonspace body = true ->
  let b := (i + String.length opening + String.length ws1)%nat in
  let e' := (b + String.length body)%nat in
  match_at (fence opening)
    (opening +:+ ws1 +:+ body +:+ ws2 +:+ "```" +:+ post) i
  = Some ((e' + String.length ws2 + 3)%nat, Some (b, e')).
Proof.
  intros H1 H2 Hl Hh He. cbv zeta. unfold match_at, fence.
  cbn [rmatch]. rewrite rmatch_lits.
  apply star_greedy_blank; [exact H1| |].
  { destruct body as [|c body]; [discriminate | exact Hh]. }
  apply star_lazy_body; [exact Hl|right; exact He| |].
  - intros s j Hs. apply star_greedy_no_tick; [|exact Hs].
    intros s' i' Hs'. destruct s' as [|a s']; [reflexivity|].
    cbn [lits rmatch]. cbn [starts_with] in Hs'. rewrite Hs'. reflexivity.
  - apply star_greedy_blank; [exact H2|reflexivity|].
    rewrite (rmatch_lits "```"). cbn [String.length]. reflexivity.
Qed.

Lemma findall_from_skip c r whole pre : forall fuel t i,
  head_lit r = Some c -> lacks c pre ->
  findall_from (String.length pre + fuel) r whole (pre +:+ t) i
  = findall_from fuel r whole t (i + String.length pre).
Proof.
  induction pre as [|a pre IH]; intros fuel t i Hh Hl.
  - rewrite append_empty. cbn [String.length]. rewrite Nat.add_0_r.
    reflexivity.
  - rewrite append_cons. cbn [String.length Nat.add findall_from].
    apply lacks_cons in Hl as [Ha Hl].
    unfold match_at. rewrite (BackendFacts.rmatch_head_lit r c)
      by (cbn [starts_with]; assumption).
    rewrite IH by assumption. f_equal. lia.
Qed.

Lemma length_append a : forall t,
  String.length (a +:+ t) = (String.length a + String.length t)%nat.
Proof.
  induction a as [|c a IH]; intros t; [reflexivity|].
  rewrite append_cons. cbn [String.length]. rewrite IH. reflexivity.
Qed.

(** The first candidate of a fence pattern, when no backtick comes before
    the fence, is the body of the first fenced block. *)
Lemma findall_fence opening pre ws1 body ws2 post :
  head_lit (fence opening) = Some "`"%char ->
  lacks "`" pre -> blank ws1 = true -> blank ws2 = true ->
  lacks "`" body -> head_space body = false -> ends_nonspace body = true ->
  exists more,
    findall (fence opening)
      (pre +:+ opening +:+ ws1 +:+ body +:+ ws2 +:+ "```" +:+ post)
    = body :: more.
Proof.
  intros Hh Hp H1 H2 Hl Hs He. unfold findall. eexists ?[more].
  set (rest := opening +:+ ws1 +:+ body +:+ ws2 +:+ "```" +:+ post).
  pose (whole := pre +:+ rest).
  change (findall_from (S (String.length whole)) (fence opening) whole
            (pre +:+ rest) 0 = body :: ?more).
  replace (S (String.length whole))
    with (String.length pre + S (String.length rest))%nat
    by (unfold whole; rewrite length_append; lia).
  rewrite (findall_from_skip "`") by assumption.
  cbn [findall_from Nat.add]. unfold rest at 1.
  rewrite match_at_fence by assumption. cbv zeta.
  assert (Hb : body <> EmptyString) by (intros ->; discriminate).
  replace (_ =? _)%nat with false.
  2:{ symmetry. apply Nat.eqb_neq. lia. }
  apply (f_equal2 cons); [|reflexivity].
  rewrite SpanFacts.substring_take_drop.
  replace (String.length pre + String.length opening + String.length ws1
           + String.length body
           - (String.length pre + String.length opening + String.length ws1))%nat
    with (String.length body) by lia.
  rewrite !str_drop_add. unfold whole, rest.
  rewrite !str_drop_append. apply str_take_append.
Qed.

(** X25: a json-tagged fenced block comes first. If no backtick precedes
    the first [```json] fence and the fenced body, blanks around it apart,
    holds no backtick and starts and ends with a non-blank character (as
    an object does), then the body is the first candidate, and if it
    decodes, its value is what [extract_json_from_response] returns,
    whatever braces, brackets or further fences the surrounding text
    holds, and whatever [json.loads] is. *)
Theorem fenced_json_block_comes_first
    (loads : string -> result json)
    (pre ws1 body ws2 post : string) (v : json) :
  let response :=
    pre +:+ "```json" +:+ ws1 +:+ body +:+ ws2 +:+ "```" +:+ post in
  lacks "`" pre -> blank ws1 = true -> blank ws2 = true ->
  lacks "`" body -> head_space body = false -> ends_nonspace body = true ->
  loads (strip body) = Ok v ->
  extract_json_from_response loads response = Ok v.
Proof.
  cbv zeta. intros Hp H1 H2 Hl Hs He Hv.
  rewrite LlmFacts.extract_first_decoded.
  unfold candidates, json_patterns. cbn [map List.concat].
  change json_fence with (fence "```json").
  destruct (findall_fence "```json" pre ws1 body ws2 post)
    as [more ->]; try assumption; [reflexivity|].
  rewrite <- !app_assoc. cbn [app try_matches]. rewrite Hv. reflexivity.
Qed.

Lemma fenced_json_block_comes_first_witness :
  extract_json_from_response (json_loads cpython) fenced_in_prose
  = Ok (JObj [("score", JInt 70)]).
Proof.
  refine (fenced_json_block_comes_first (json_loads cpython)
            "Use {braces} freely. " newline
            ("{" +:+ quoted "score" +:+ ": 70}") newline " Or {not}."
            (JObj [("score", JInt 70)]) _ _ _ _ _ _ _);
    vm_compute; reflexivity.
Defined.

End FenceFacts.

(* ===================================================================== *)
(** * Facts: unanimous backends, and no backend at all *)
(* ===================================================================== *)
Module UnanimityFacts.
Import Level Gateway Notions Sample Cases.

Lemma unanimous_all_checked :
  forallb (fun ks => forallb (unanimous_checked ks) ScoreRange.all_scores)
    patterns = true.
Proof. vm_compute. reflexivity. Qed.

Lemma unanimous_pattern ks s :
  In ks patterns -> 0 <= s <= 100 ->
  exists v,
    truncated_weighted_mean (map (fun k => (k, s)) ks) = Ok v /\
    (v = s \/ v = s - 1) /\
    (forall k, ks = [k] -> (v = s - 1 <-> In s (short_scores k))).
Proof.
  intros Hk Hs. pose proof unanimous_all_checked as C.
  rewrite forallb_forall in C. specialize (C ks Hk).
  rewrite forallb_forall in C.
  specialize (C s (RangeFacts.in_all_scores s Hs)).
  unfold unanimous_checked in C.
  destruct (truncated_weighted_mean _) as [v|]; [|discriminate].
  apply andb_prop in C as [C1 C2]. exists v. split; [reflexivity|].
  split; [apply orb_prop in C1 as [C1|C1]; apply Z.eqb_eq in C1; auto|].
  intros k ->. apply Bool.eqb_prop in C2.
  rewrite <- Z.eqb_eq, C2, existsb_exists. split.
  - intros (x & Hx & E). apply Z.eqb_eq in E. subst x. exact Hx.
  - intros Hx. exists s. split; [exact Hx | apply Z.eqb_refl].
Qed.

(** The scores present in results whose scores all equal [s]. *)
Lemma present_scores_unanimous r s :
  (forall k s', score_of k r = Some s' -> s' = s) ->
  present_scores r <> [] ->
  exists ks, In ks patterns /\
             present_scores r = map (fun k => (k, s)) ks.
Proof.
  intros Hs Hne. unfold present_scores, present_score in *.
  destruct (score_of CodeQuality r) as [s1|] eqn:E1;
    destruct (score_of Architecture r) as [s2|] eqn:E2;
    destruct (score_of EventLoop r) as [s3|] eqn:E3;
    destruct (score_of Cost r) as [s4|] eqn:E4;
    try (exfalso; apply Hne; reflexivity);
    rewrite ?(Hs _ _ E1), ?(Hs _ _ E2), ?(Hs _ _ E3), ?(Hs _ _ E4);
    cbn [app];
    match goal with
    | |- exists ks, _ /\ ?l = _ =>
        exists (map fst l); cbn [map fst]
    end;
    (split; [cbn; auto 20 | reflexivity]).
Qed.

(** X26: unanimous backends do not always get their score. When every
    present sub-report carries the same score [s] between 0 and 100, the
    overall score is [s] or [s - 1]: the weighted mean is taken in binary64
    and truncated. With a single backend present it is that backend's
    score, except that code quality alone composes 31, 57 and 62 to 30, 56
    and 61, and the event loop alone 43, 81, 86 and 91 to 42, 80, 85 and
    90. *)
Theorem unanimous_scores_may_lose_a_point (r : results) (s : Z) :
  scored r -> 0 <= s <= 100 ->
  present_scores r <> [] ->
  (forall k s', score_of k r = Some s' -> s' = s) ->
  exists v,
    collect_scores r ≫= overall_score_of = Ok v /\
    (v = s \/ v = s - 1) /\
    (forall k, present_scores r = [(k, s)] ->
               (v = s - 1 <-> In s (short_scores k))).
Proof.
  intros Hr Hs Hne Hu.
  rewrite ScoreFacts.overall_score_formula by exact Hr.
  destruct (present_scores_unanimous r s Hu Hne) as (ks & Hk & ->).
  destruct (unanimous_pattern ks s Hk Hs) as (v & E & A & B).
  exists v. split; [exact E|]. split; [exact A|].
  intros k Hp. apply B.
  destruct ks as [|k1 [|k2 ks]]; try discriminate.
  cbn in Hp. congruence.
Qed.

Lemma unanimous_scores_may_lose_a_point_witness :
  collect_scores only_thirty_one ≫= overall_score_of = Ok 30.
Proof.
  destruct (unanimous_scores_may_lose_a_point only_thirty_one 31)
    as (v & E & _ & B).
  - intros []; cbn; eauto.
  - lia.
  - discriminate.
  - intros [] s' H; cbn in H; try discriminate; injection H as <-;
      reflexivity.
  - rewrite E. f_equal.
    apply (B CodeQuality); [reflexivity | left; reflexivity].
Defined.

Lemma all_null r : (forall k, result_of k r = JNull) ->
  r = {| r_code_quality := JNull; r_architecture := JNull;
         r_event_loop := JNull; r_cost := JNull |}.
Proof.
  intros H. destruct r as [a b c d].
  pose proof (H CodeQuality). pose proof (H Architecture).
  pose proof (H EventLoop). pose proof (H Cost). cbn in *. congruence.
Qed.

Lemma save_report_outage request w d uid u w' id :
  db_pool w = Some d -> insert_fault w = false -> update_fault w = false ->
  truthy_str (project_id request) = true ->
  analysis_reports d !! id = None ->
  user_id request = Some uid -> uid <> EmptyString ->
  users d !! uid = Some u ->
  save_report request
    {| r_code_quality := JNull; r_architecture := JNull;
       r_event_loop := JNull; r_cost := JNull |}
    id 0 "critical" 0 [] w = Some w' ->
  stored_users w' !! uid = Some {| xp_total := xp_total u; level := 1 |} /\
  exists row, stored_reports w' !! id = Some row /\
              row_overall_score row = JInt 0.
Proof.
  intros Hd Hi Hu Hp Hid Huid Hne Hlook. unfold save_report.
  rewrite Hd, Hp, Hi, Huid.
  cbn [score_param result_of truthy mbind result_bind].
  unfold insert_report. rewrite Hid.
  destruct (String.eqb_spec uid EmptyString) as [|_]; [contradiction|].
  cbn [negb]. change (calculate_level 0) with (Some (Ok 1)). cbv iota beta.
  unfold update_user. rewrite Hu. cbn [analysis_reports users].
  intros E. injection E as <-.
  cbn [stored_users stored_reports with_db db_pool analysis_reports users].
  rewrite lookup_alter_eq, Hlook, lookup_insert_eq. cbn. split.
  - do 2 f_equal. lia.
  - eexists. split; reflexivity.
Qed.

(** X27: with every backend failing the request still succeeds, with the
    zero report: overall score 0, status critical, no xp, no badge, every
    sub-report null. If the request names a project and a stored user and
    the database works, a row with score 0 is stored and the user, whose xp
    stays as it was, is set to level 1 = calculate_level(0), whatever the
    level was. *)
Theorem total_outage_gives_the_zero_report
    (request : AnalysisRequest) (w : world) :
  (forall k, failed (outcome (backends w k))) ->
  exists report w',
    analyze_code request w = Some (Ok report, w') /\
    overall_score report = 0 /\ status report = "critical" /\
    rpg report = {| xp_earned := 0; badges_earned := []; level_up := false |} /\
    (forall k, sub_report k report = JNull) /\
    (forall d uid u,
       db_pool w = Some d -> insert_fault w = false ->
       update_fault w = false ->
       truthy_str (project_id request) = true ->
       analysis_reports d !! ("RPT-" +:+ utcnow_stamp w) = None ->
       user_id request = Some uid -> uid <> EmptyString ->
       users d !! uid = Some u ->
       stored_users w' !! uid = Some {| xp_total := xp_total u; level := 1 |} /\
       exists row, stored_reports w' !! report_id report = Some row /\
                   row_overall_score row = JInt 0).
Proof.
  intros Hf.
  pose proof (FanOutFacts.fan_out_spec w) as S. cbv zeta in S.
  destruct S as (R & _ & D & I & U & St & _).
  unfold analyze_code. destruct (fan_out w) as [r w1]. cbn [fst snd] in *.
  assert (N : forall k, result_of k r = JNull).
  { intros k. rewrite R. apply IsolationFacts.failed_delivers_nothing, Hf. }
  apply all_null in N. subst r.
  change (score_results _) with (Ok (0, "critical", 0, @nil string)).
  cbv iota beta.
  destruct (save_report request _ _ 0 "critical" 0 [] w1) as [w2|] eqn:Sv.
  2:{ exfalso. revert Sv. unfold save_report.
      change (calculate_level 0) with (Some (Ok 1)).
      repeat case_match; discriminate. }
  do 2 eexists. split; [reflexivity|].
  cbn [build_report optional_dict mbind result_bind overall_score status rpg
       r_code_quality r_architecture r_event_loop r_cost report_id].
  repeat split.
  - intros []; reflexivity.
  - eapply (save_report_outage request w1 d uid u w2); try eassumption;
      congruence.
  - eapply (save_report_outage request w1 d uid u w2); try eassumption;
      congruence.
Qed.

Lemma total_outage_gives_the_zero_report_witness :
  exists report w',
    analyze_code (request_for (Some "p1") (Some "u1")) all_down
    = Some (Ok report, w') /\
    stored_users w' !! "u1" = Some {| xp_total := 1000; level := 1 |}.
Proof.
  destruct (total_outage_gives_the_zero_report
              (request_for (Some "p1") (Some "u1")) all_down)
    as (report & w' & A & _ & _ & _ & _ & B).
  - intros []; exact I.
  - exists report, w'. split; [exact A|].
    refine (proj1 (B one_user "u1" {| xp_total := 1000; level := 5 |}
                     eq_refl eq_refl eq_refl eq_refl eq_refl eq_refl _
                     eq_refl)).
    discriminate.
Defined.

End UnanimityFacts.

(* ===================================================================== *)
(** * Facts: the gateway over degraded backends *)
(* ===================================================================== *)
Module DegradedFacts.
Import Level Gateway Llm Notions Sample Cases.

Lemma degraded_results_score r :
  (forall k, exists model now, result_of k r = degraded k model now) ->
  score_results r = Ok (50, "needs_improvement", 500, []).
Proof.
  intros H. destruct r as [a b c d].
  destruct (H CodeQuality) as (m1 & n1 & E1).
  destruct (H Architecture) as (m2 & n2 & E2).
  destruct (H EventLoop) as (m3 & n3 & E3).
  destruct (H Cost) as (m4 & n4 & E4).
  cbn in E1, E2, E3, E4. subst a b c d. vm_compute. reflexivity.
Qed.

(** X28: an LLM that never produces parseable output costs nothing but
    precision. When each of the four backends answers with its degraded
    response (which is what it does for an unparseable, a blank or a
    marker-carrying LLM answer), [POST /api/analyze] returns a report with
    overall score 50, status needs_improvement, 500 xp and no badge, and
    passes the four degraded responses through as sub-reports. *)
Theorem degraded_backends_compose_to_fifty
    (request : AnalysisRequest) (w : world) :
  (forall k, exists model now,
     outcome (backends w k) = Responded 200 (Ok (degraded k model now))) ->
  exists report w',
    analyze_code request w = Some (Ok report, w') /\
    overall_score report = 50 /\ status report = "needs_improvement" /\
    rpg report
    = {| xp_earned := 500; badges_earned := []; level_up := false |} /\
    (forall k, sub_report k report = delivered (outcome (backends w k))).
Proof.
  intros H.
  pose proof (FanOutFacts.fan_out_spec w) as S. cbv zeta in S.
  destruct S as (R & _).
  unfold analyze_code. destruct (fan_out w) as [r w1]. cbn [fst snd] in *.
  assert (Hr : forall k, exists model now,
                 result_of k r = degraded k model now).
  { intros k. destruct (H k) as (m & n & E). exists m, n.
    rewrite R, E. reflexivity. }
  rewrite (degraded_results_score r Hr).
  destruct (PersistFacts.save_report_returns request r
              ("RPT-" +:+ utcnow_stamp w1) 50 "needs_improvement" 500 []
              w1 ltac:(reflexivity)) as (w2 & -> & _).
  unfold build_report.
  destruct (Hr CodeQuality) as (m1 & n1 & E1).
  destruct (Hr Architecture) as (m2 & n2 & E2).
  destruct (Hr EventLoop) as (m3 & n3 & E3).
  destruct (Hr Cost) as (m4 & n4 & E4).
  cbn [result_of] in E1, E2, E3, E4. rewrite E1, E2, E3, E4.
  cbn [optional_dict degraded mbind result_bind].
  do 2 eexists. split; [reflexivity|]. repeat split.
  intros k. rewrite <- R.
  destruct k; cbn [sub_report result_of code_quality architecture event_loop
                   cost_analysis]; rewrite ?E1, ?E2, ?E3, ?E4; reflexivity.
Qed.

Lemma degraded_backends_compose_to_fifty_witness :
  exists report w',
    analyze_code (request_for (Some "p1") (Some "u1")) all_degraded
    = Some (Ok report, w') /\
    overall_score report = 50.
Proof.
  destruct (degraded_backends_compose_to_fifty
              (request_for (Some "p1") (Some "u1")) all_degraded)
    as (report & w' & A & B & _).
  - intros k. exists "llama3", "2026-01-01T12:00:00". reflexivity.
  - exists report, w'. split; assumption.
Defined.

End DegradedFacts.

(* ===================================================================== *)
(** * Facts: the gateway over its own backends *)
(* ===================================================================== *)
Module ClosureFacts.
Import Level Gateway Llm ScoreRange ScoreSums Notions Sample Cases.

Lemma same_sound x y : same x y = true -> x = y.
Proof. apply FloatAxioms.Leibniz.eqb_spec. Qed.

Lemma merge_nil_l l2 : merge [] l2 = l2.
Proof. destruct l2; reflexivity. Qed.

Lemma merge_cons a l1 b l2 :
  merge (a :: l1) (b :: l2)
  = if PrimFloat.ltb a b then a :: merge l1 (b :: l2)
    else if PrimFloat.ltb b a then b :: merge (a :: l1) l2
    else if same a b then a :: merge l1 l2
    else a :: b :: merge l1 l2.
Proof. reflexivity. Qed.

(** Merging loses no float. *)
Lemma merge_in x : forall l1 l2,
  In x l1 \/ In x l2 -> In x (merge l1 l2).
Proof.
  induction l1 as [|a l1 IH1]; intros l2 H.
  - rewrite merge_nil_l. destruct H as [[]|H]. exact H.
  - induction l2 as [|b l2 IH2].
    + destruct H as [H|[]]. exact H.
    + rewrite merge_cons.
      destruct (PrimFloat.ltb a b).
      { destruct H as [[->|H]|H]; [left; reflexivity| |];
          right; apply IH1; auto. }
      destruct (PrimFloat.ltb b a).
      { destruct H as [H|[->|H]]; [|left; reflexivity|];
          right; apply IH2; auto. }
      destruct (same a b) eqn:E.
      { apply same_sound in E. subst b.
        destruct H as [[->|H]|[->|H]]; try (left; reflexivity);
          right; apply IH1; auto. }
      destruct H as [[->|H]|[->|H]];
        [left; reflexivity | | right; left; reflexivity |];
        right; right; apply IH1; auto.
Qed.

Lemma squeeze_in x : forall l, In x l -> In x (squeeze l).
Proof.
  induction l as [|a l IH]; intros H; [exact H|].
  destruct l as [|b l]; [exact H|].
  cbn [squeeze]. destruct (same a b) eqn:E.
  - apply IH. apply same_sound in E. subst b.
    destruct H as [->|H]; [left; reflexivity | exact H].
  - destruct H as [->|H]; [left; reflexivity | right; apply IH, H].
Qed.

Lemma fold_merge_in accs x : forall ps out,
  In x out \/
  (exists p, In p ps /\ In x (map (fun acc => fadd acc p) accs)) ->
  In x (fold_left
          (fun out p =>
             merge out (squeeze (map (fun acc => fadd acc p) accs)))
          ps out).
Proof.
  induction ps as [|p ps IH]; intros out H; cbn [fold_left].
  - destruct H as [H|(p & [] & _)]. exact H.
  - apply IH. destruct H as [H|(q & [<-|Hq] & Hx)].
    + left. apply merge_in. left. exact H.
    + left. apply merge_in. right. apply squeeze_in, Hx.
    + right. exists q. split; assumption.
Qed.

Lemma add_all_in accs ps acc p :
  In acc accs -> In p ps -> In (fadd acc p) (add_all accs ps).
Proof.
  intros Ha Hp. apply fold_merge_in. right. exists p. split; [exact Hp|].
  apply in_map_iff. exists acc. split; [reflexivity | exact Ha].
Qed.

(** Every running sum is among the listed values. *)
Lemma sums_from_in ks : forall accs acc choice,
  In acc accs ->
  Forall2 (fun p ps => In p ps) choice (map products ks) ->
  In (fold_left fadd choice acc) (sums_from accs ks).
Proof.
  induction ks as [|k ks IH]; intros accs acc choice Ha F.
  - inversion F. subst. exact Ha.
  - inversion F as [|p ps choice' pss Hp F']. subst.
    cbn [fold_left sums_from]. apply IH; [|exact F'].
    apply add_all_in; assumption.
Qed.

Lemma quotients_ok_sound tw bound last accs :
  quotients_ok tw bound last accs = true ->
  PrimFloat.is_zero tw = false /\
  forall acc p, In acc accs -> In p last ->
    in_range bound (PrimFloat.div (fadd acc p) tw) = true.
Proof.
  unfold quotients_ok. intros P.
  apply andb_prop in P as [Hz Ha]. apply negb_true_iff in Hz.
  split; [exact Hz|]. intros acc p Hacc Hp.
  rewrite forallb_forall in Ha. specialize (Ha _ Hacc).
  rewrite forallb_forall in Ha. exact (Ha _ Hp).
Qed.

(** For the four kinds together: every value of the sum of the products,
    divided by the sum of the weights, is a float in [0, 101). *)
Lemma full_pattern_holds :
  quotients_ok (py_sum (map weights kinds)) (nearest_float 101)
    (products Cost)
    (sums_from [PrimFloat.zero] [CodeQuality; Architecture; EventLoop])
  = true.
Proof. vm_compute. reflexivity. Qed.

Lemma sum_is_listed s1 s2 s3 :
  0 <= s1 <= 100 -> 0 <= s2 <= 100 -> 0 <= s3 <= 100 ->
  In (fold_left fadd
        [product CodeQuality s1; product Architecture s2;
         product EventLoop s3] PrimFloat.zero)
     (sums_from [PrimFloat.zero] [CodeQuality; Architecture; EventLoop]).
Proof.
  intros H1 H2 H3.
  apply sums_from_in; [left; reflexivity|]. cbn [map].
  constructor; [|constructor; [|constructor; [|constructor]]];
    unfold products; apply in_map, RangeFacts.in_all_scores; assumption.
Qed.

(** With all four kinds present and scores between 0 and 100 the truncated
    weighted mean is defined and lies between 0 and 100. *)
Lemma mean_of_full_pattern s1 s2 s3 s4 :
  0 <= s1 <= 100 -> 0 <= s2 <= 100 -> 0 <= s3 <= 100 -> 0 <= s4 <= 100 ->
  exists v,
    truncated_weighted_mean
      [(CodeQuality, s1); (Architecture, s2); (EventLoop, s3); (Cost, s4)]
    = Ok v /\ 0 <= v <= 100.
Proof.
  intros H1 H2 H3 H4.
  destruct (quotients_ok_sound _ _ _ _ full_pattern_holds) as [Hz Ha].
  specialize (Ha _ _ (sum_is_listed s1 s2 s3 H1 H2 H3)
                (in_map (product Cost) _ _
                   (RangeFacts.in_all_scores s4 H4))).
  apply RangeFacts.int_of_float_in_range in Ha.
  destruct Ha as (v & Hv & Hb). exists v. split; [|exact Hb].
  rewrite <- Hv. clear Hv.
  assert (Hrange : Forall (fun p => 0 <= snd p <= 100)
            [(CodeQuality, s1); (Architecture, s2); (EventLoop, s3);
             (Cost, s4)]).
  { apply Forall_cons_2; [exact H1|]. apply Forall_cons_2; [exact H2|].
    apply Forall_cons_2; [exact H3|]. apply Forall_cons_2; [exact H4|].
    apply Forall_nil_2. }
  unfold truncated_weighted_mean.
  rewrite RangeFacts.products_of_scores by exact Hrange.
  cbn [mbind result_bind map fst snd py_sum fold_left].
  unfold fdiv.
  change (PrimFloat.is_zero _)
    with (PrimFloat.is_zero (py_sum (map weights kinds))).
  rewrite Hz. reflexivity.
Qed.

(** The composition of scores between 0 and 100 never raises. *)
Lemma mean_in_range r :
  (forall k, result_of k r = JNull \/ carries_score k (result_of k r)) ->
  exists v, truncated_weighted_mean (present_scores r) = Ok v
            /\ 0 <= v <= 100.
Proof.
  intros Hr.
  destruct (Hr CodeQuality) as [N1|C1];
    [apply (IsolationFacts.mean_with_an_absent_kind r CodeQuality N1 Hr)|].
  destruct (Hr Architecture) as [N2|C2];
    [apply (IsolationFacts.mean_with_an_absent_kind r Architecture N2 Hr)|].
  destruct (Hr EventLoop) as [N3|C3];
    [apply (IsolationFacts.mean_with_an_absent_kind r EventLoop N3 Hr)|].
  destruct (Hr Cost) as [N4|C4];
    [apply (IsolationFacts.mean_with_an_absent_kind r Cost N4 Hr)|].
  apply IsolationFacts.carries_score_of in C1, C2, C3, C4.
  destruct C1 as (s1 & E1 & B1), C2 as (s2 & E2 & B2),
           C3 as (s3 & E3 & B3), C4 as (s4 & E4 & B4).
  unfold present_scores, present_score. rewrite E1, E2, E3, E4.
  cbn [app]. apply mean_of_full_pattern; assumption.
Qed.

(** X29: the gateway accepts whatever its own backends answer. If each of
    the four backends either fails or answers 200 with what its [/analyze]
    handler returns for some LLM text on some interpreter, then [POST /api/analyze] returns a
    report, whatever the texts: its overall score lies between 0 and 100,
    its xp is ten times the score, and each sub-report is what the backend
    delivered. *)
Theorem gateway_accepts_what_the_backends_answer
    (request : AnalysisRequest) (w : world) :
  (forall k,
     failed (outcome (backends w k)) \/
     exists py raw_response model now j,
       outcome (backends w k) = Responded 200 (Ok j) /\
       analyze py k raw_response model now = Ok j) ->
  exists report w',
    analyze_code request w = Some (Ok report, w') /\
    0 <= overall_score report <= 100 /\
    xp_earned (rpg report) = overall_score report * 10 /\
    (forall k, sub_report k report = delivered (outcome (backends w k))).
Proof.
  intros Hb.
  pose proof (FanOutFacts.fan_out_spec w) as S. cbv zeta in S.
  destruct S as (R & _).
  unfold analyze_code. destruct (fan_out w) as [r w1]. cbn [fst snd] in *.
  assert (Hr : forall k, result_of k r = JNull
                         \/ carries_score k (result_of k r)).
  { intros k. rewrite R.
    destruct (Hb k) as [F|(py & raw & m & n & j & -> & A)].
    - left. apply IsolationFacts.failed_delivers_nothing, F.
    - right. cbn [delivered Z.eqb Pos.eqb].
      destruct (BackendFacts.analyze_shape _ _ _ _ _ _ A)
        as (s & rest & -> & B & _).
      exists ((score_key k, JInt s) :: rest), s.
      split; [reflexivity|]. split; [|exact B].
      cbn [dict_lookup]. rewrite BackendFacts.score_key_eqb. reflexivity. }
  assert (Hs : scored r).
  { intros k. destruct (Hr k) as [E|E]; [left; exact E|].
    right. destruct (IsolationFacts.carries_score_of _ _ E) as (s & -> & _).
    eauto. }
  destruct (mean_in_range r Hr) as (overall & Hmean & Hrange).
  pose proof (ScoreFacts.overall_score_formula r Hs) as F.
  rewrite Hmean in F.
  unfold score_results.
  destruct (collect_scores r) as [scores|e]; [|discriminate F].
  cbn [mbind result_bind] in F |- *. rewrite F. cbn [mbind result_bind].
  destruct (IsolationFacts.badges_of_scored r overall Hr) as [badges ->].
  cbn [mbind result_bind].
  assert (Hxp : overall * 10 < 2 ^ 53).
  { change (2 ^ 53) with 9007199254740992. lia. }
  destruct (PersistFacts.save_report_returns request r
              ("RPT-" +:+ utcnow_stamp w1)
              overall (status_of overall) (overall * 10) badges w1 Hxp)
    as (w2 & -> & _).
  unfold build_report.
  pose proof (IsolationFacts.optional_dict_scored CodeQuality r (Hr _)) as O1.
  pose proof (IsolationFacts.optional_dict_scored Architecture r (Hr _)) as O2.
  pose proof (IsolationFacts.optional_dict_scored EventLoop r (Hr _)) as O3.
  pose proof (IsolationFacts.optional_dict_scored Cost r (Hr _)) as O4.
  cbn [result_of] in O1, O2, O3, O4. rewrite O1, O2, O3, O4.
  cbn [mbind result_bind]. do 2 eexists. split; [reflexivity|].
  cbn [overall_score rpg xp_earned].
  repeat split; try lia.
  intros k. rewrite <- R. destruct k; reflexivity.
Qed.

Lemma gateway_accepts_what_the_backends_answer_witness :
  exists report w',
    analyze_code (request_for (Some "p1") (Some "u1")) own_backends
    = Some (Ok report, w') /\
    0 <= overall_score report <= 100.
Proof.
  destruct (gateway_accepts_what_the_backends_answer
              (request_for (Some "p1") (Some "u1")) own_backends)
    as (report & w' & A & B & _).
  - intros k. right.
    exists cpython, analysis_with_marker_keys, "llama3",
      "2026-01-01T12:00:00".
    destruct k; eexists; split; vm_compute; reflexivity.
  - exists report, w'. split; assumption.
Defined.

End ClosureFacts.

